(** * scripts/monitor.js: the unified system monitor

    A shallow embedding of [src/scripts/monitor.js] and the properties of
    its configuration selection, health-check tick, forecast and timers.

    - JavaScript numbers are IEEE 754 binary64 values: [spec_float] with
      [prec = 53] and [emax = 1024], and the arithmetic of the script is
      the correctly rounded [SFmul] / [SFadd] of the standard library.
    - [Math.random()] reads the next value of an entropy source carried by
      the world; [console.log] appends one structured line to the output.
    - [setInterval] registers a periodic timer; the event loop fires the
      timers in order of their due time on a logical clock (callbacks take
      no time). *)

From Stdlib Require Import ZArith List String Ascii Bool Lia SpecFloat.
Import ListNotations.

Local Open Scope Z_scope.

(* ================================================================== *)
(** ** JavaScript numbers *)
(* ================================================================== *)

Module JS.

Definition prec : Z := 53.
Definition emax : Z := 1024.

Definition number := spec_float.

(** An integer literal of the script, as the number it denotes. *)
Definition lit (z : Z) : number := binary_normalize prec emax z 0 false.

(** The literal [0.1]: the double nearest to one tenth. *)
Definition lit_0_1 : number := SFdiv prec emax (lit 1) (lit 10).

Definition mul (x y : number) : number := SFmul prec emax x y.
Definition add (x y : number) : number := SFadd prec emax x y.

(** [x > y] and [x >= y] on numbers (false as soon as one side is NaN). *)
Definition gt (x y : number) : bool := SFltb y x.
Definition ge (x y : number) : bool := SFleb y x.

(** [Math.max(...args)]: start from -Infinity, NaN is absorbing and +0 is
    above -0. *)
Definition max_step (highest x : number) : number :=
  match highest, x with
  | S754_nan, _ => S754_nan
  | _, S754_nan => S754_nan
  | S754_zero true, S754_zero false => x
  | _, _ => if gt x highest then x else highest
  end.

Definition Math_max (args : list number) : number :=
  fold_left max_step args (S754_infinity true).

(** The integer part, rounded towards -Infinity, of a finite number. *)
Definition floorZ (s : bool) (m : positive) (e : Z) : Z :=
  Z.shiftl (cond_Zopp s (Zpos m)) e.

(** [Math.floor(x)]. *)
Definition Math_floor (x : number) : number :=
  match x with
  | S754_finite s m e =>
      if 0 <=? e then x else binary_normalize prec emax (floorZ s m e) 0 s
  | _ => x
  end.

(** [x.toFixed(f)] is a decimal numeral with [f] fraction digits: the
    integer [n] for which [n / 10^f] is nearest to [|x|], the larger one on
    a tie, with the sign of [x]. Non-finite numbers and numbers from
    [10^21] on are printed by [ToString] instead. *)
Inductive numeral :=
  | Fixed (negative : bool) (n : Z) (f : Z)
  | Plain (x : number).

Definition nearest_scaled (m : positive) (e : Z) (f : Z) : Z :=
  if 0 <=? e then Zpos m * 10 ^ f * 2 ^ e
  else (2 * Zpos m * 10 ^ f + 2 ^ (- e)) / 2 ^ (1 - e).

Definition toFixed (x : number) (f : Z) : numeral :=
  match x with
  | S754_zero _ => Fixed false 0 f
  | S754_finite s m e =>
      if 10 ^ 21 <=? floorZ false m e then Plain x
      else Fixed s (nearest_scaled m e f) f
  | _ => Plain x
  end.

(** What [Math.random()] may return: a number with positive sign, at
    least +0 and strictly below 1. *)
Definition one : number := lit 1.

Definition is_draw (r : number) : bool :=
  match r with
  | S754_zero false => true
  | S754_finite false m e => bounded prec emax m e && SFltb r one
  | _ => false
  end.

End JS.

(* ================================================================== *)
(** ** The script's objects, output and state *)
(* ================================================================== *)

Module Monitor.
Import JS.

Local Open Scope string_scope.

(** An object of the script. A property the object does not have reads as
    [undefined], here [None]. *)
Record object := {
  interval : option Z;
  alertThreshold : option Z;
  debugMode : option bool;
  verboseLogging : option bool;
  metricsEndpoint : option string;
  aiEnabled : option bool;
  mlModelPath : option string;
  cloudProviders : option (list string);
  predictiveWindow : option Z
}.

Definition no_properties : object :=
  {| interval := None; alertThreshold := None; debugMode := None;
     verboseLogging := None; metricsEndpoint := None; aiEnabled := None;
     mlModelPath := None; cloudProviders := None; predictiveWindow := None |}.

Inductive value :=
  | Undefined
  | Obj (o : object).

(** [baseConfig.production] and [baseConfig.development]. *)
Definition production : object :=
  {| interval := Some 60000; alertThreshold := Some 80; debugMode := Some false;
     verboseLogging := None; metricsEndpoint := None; aiEnabled := None;
     mlModelPath := None; cloudProviders := None; predictiveWindow := None |}.

Definition development : object :=
  {| interval := Some 5000; alertThreshold := Some 90; debugMode := Some true;
     verboseLogging := Some true; metricsEndpoint := None; aiEnabled := None;
     mlModelPath := None; cloudProviders := None; predictiveWindow := None |}.

Definition aiConfig : object :=
  {| interval := Some 30000; alertThreshold := Some 75; debugMode := None;
     verboseLogging := None;
     metricsEndpoint := Some "http://localhost:9000/metrics";
     aiEnabled := Some true;
     mlModelPath := Some "./models/anomaly-detection.h5";
     cloudProviders := Some ["aws"; "azure"; "gcp"];
     predictiveWindow := Some 300 |}.

(** The properties every object literal inherits from [Object.prototype].
    Each is a function (or the prototype itself) with none of the
    configuration properties. *)
Definition inherited : list string :=
  ["constructor"; "__defineGetter__"; "__defineSetter__"; "hasOwnProperty";
   "__lookupGetter__"; "__lookupSetter__"; "isPrototypeOf";
   "propertyIsEnumerable"; "toString"; "valueOf"; "__proto__";
   "toLocaleString"].

(** [baseConfig[key]]. *)
Definition baseConfig (key : string) : value :=
  if key =? "production" then Obj production
  else if key =? "development" then Obj development
  else if existsb (String.eqb key) inherited then Obj no_properties
  else Undefined.

(** [process.env]: a variable is a string or is not set. *)
Record environment := {
  NODE_ENV : option string;
  AI_MODE_variable : option string
}.

(** [process.env.NODE_ENV || 'production']: the empty string is falsy. *)
Definition select_ENV (e : environment) : string :=
  match NODE_ENV e with
  | Some s => if s =? EmptyString then "production" else s
  | None => "production"
  end.

(** [process.env.AI_MODE === 'true']. *)
Definition select_AI_MODE (e : environment) : bool :=
  match AI_MODE_variable e with
  | Some s => s =? "true"
  | None => false
  end.

(** [AI_MODE ? aiConfig : baseConfig[ENV]]. *)
Definition select_config (e : environment) : value :=
  if select_AI_MODE e then Obj aiConfig else baseConfig (select_ENV e).

(** One [console.log] call of the script, with the values it prints. *)
Inductive line :=
  | Rule
  | Title
  | EnvironmentLine (env : string)
  | AIModeLine (enabled : bool)
  | BasicHeader (timestamp : Z)
  | CpuNormal
  | MemoryNormal
  | DiskAdequate
  | HotReload
  | DebugPort
  | StatusHealthy
  | AIHeader (timestamp : Z)
  | AIActive
  | ModelLine (path : option string)
  | PredictiveWindowLine (seconds : option Z)
  | CloudsLine (joined : string)
  | CloudStatus (cloud : string)
  | Instances (count : number)
  | Load (pct : numeral)
  | Health (healthy : bool)
  | ResourceUsage
  | CpuLine (pct : numeral)
  | MemoryLine (pct : numeral)
  | DiskLine (pct : numeral)
  | Alert
  | AutoScaling
  | StatusOptimal
  | ForecastHeader
  | Analyzing
  | ForecastCpu (pct confidence : numeral)
  | ForecastMemory (pct confidence : numeral)
  | ForecastTraffic (rate confidence : numeral)
  | PredictiveAlert
  | MonitoringEvery (ms : option Z)
  | Retraining
  | TrainingAccuracy
  | ModelUpdated.

(** The two functions given to [setInterval]. *)
Inductive handler :=
  | HealthCheck
  | Retrain.

Record timer := {
  callback : handler;
  period : Z;
  due : Z
}.

(** The state of the process: the three global constants, the entropy
    behind [Math.random], the clock, the lines printed so far (each with
    the time it was printed at) and the registered timers. *)
Record world := {
  ENV : string;
  AI_MODE : bool;
  config : value;
  entropy : nat -> number;
  drawn : nat;
  now : Z;
  stdout : list (Z * line);
  timers : list timer
}.

Definition set_drawn (n : nat) (w : world) : world :=
  {| ENV := ENV w; AI_MODE := AI_MODE w; config := config w;
     entropy := entropy w; drawn := n; now := now w; stdout := stdout w;
     timers := timers w |}.

Definition set_now (t : Z) (w : world) : world :=
  {| ENV := ENV w; AI_MODE := AI_MODE w; config := config w;
     entropy := entropy w; drawn := drawn w; now := t; stdout := stdout w;
     timers := timers w |}.

Definition set_stdout (l : list (Z * line)) (w : world) : world :=
  {| ENV := ENV w; AI_MODE := AI_MODE w; config := config w;
     entropy := entropy w; drawn := drawn w; now := now w; stdout := l;
     timers := timers w |}.

Definition set_timers (l : list timer) (w : world) : world :=
  {| ENV := ENV w; AI_MODE := AI_MODE w; config := config w;
     entropy := entropy w; drawn := drawn w; now := now w; stdout := stdout w;
     timers := l |}.

(** Lines 11 to 41: the globals, before anything is printed. *)
Definition startup (e : environment) (source : nat -> number) (t0 : Z) : world :=
  {| ENV := select_ENV e; AI_MODE := select_AI_MODE e; config := select_config e;
     entropy := source; drawn := 0; now := t0; stdout := []; timers := [] |}.

(* ------------------------------------------------------------------ *)
(** *** Statements: state and exceptions *)

Inductive exn :=
  | TypeError (message : string).

Inductive completion (A : Type) :=
  | Normal (a : A)
  | Throw (e : exn).

Arguments Normal {A} a.
Arguments Throw {A} e.

Definition M (A : Type) : Type := world -> completion A * world.

Definition ret {A : Type} (a : A) : M A := fun w => (Normal a, w).

Definition bind {A B : Type} (c : M A) (k : A -> M B) : M B :=
  fun w =>
    match c w with
    | (Normal a, w') => k a w'
    | (Throw e, w') => (Throw e, w')
    end.

Definition throw {A : Type} (e : exn) : M A := fun w => (Throw e, w).

Notation "x <- c ;; k" := (bind c (fun x => k))
  (at level 61, c at next level, right associativity).
Notation "c ;; k" := (bind c (fun _ => k))
  (at level 61, right associativity).

Definition console_log (l : line) : M unit :=
  fun w => (Normal tt, set_stdout (stdout w ++ [(now w, l)]) w).

(** [Math.random()]. *)
Definition Math_random : M number :=
  fun w => (Normal (entropy w (drawn w)), set_drawn (S (drawn w)) w).

(** [new Date().toISOString()]: the time on the clock. *)
Definition Date_now : M Z := fun w => (Normal (now w), w).

(** The error of reading the property [name] of [undefined]. *)
Definition reading (name : string) : exn :=
  TypeError ("Cannot read properties of undefined (reading '" ++ name ++ "')").

(** [config.name]: reading a property of [undefined] throws. *)
Definition config_get {A : Type} (name : string) (p : object -> option A)
    : M (option A) :=
  fun w =>
    match config w with
    | Obj o => (Normal (p o), w)
    | Undefined => (Throw (reading name), w)
    end.

Definition get_AI_MODE : M bool := fun w => (Normal (AI_MODE w), w).
Definition get_ENV : M string := fun w => (Normal (ENV w), w).

(** A [setInterval] delay that is not a number from 1 to 2^31 - 1 is
    taken as 1 millisecond. *)
Definition timer_period (delay : option Z) : Z :=
  match delay with
  | Some d => if ((1 <=? d) && (d <=? 2147483647))%Z then d else 1
  | None => 1
  end.

Definition setInterval (h : handler) (delay : option Z) : M unit :=
  fun w =>
    let p := timer_period delay in
    (Normal tt,
     set_timers (timers w ++ [{| callback := h; period := p; due := now w + p |}]) w).

Fixpoint forEach {A : Type} (l : list A) (f : A -> M unit) : M unit :=
  match l with
  | [] => ret tt
  | x :: rest => f x ;; forEach rest f
  end.

(** [s.toUpperCase()] on the letters a to z. *)
Definition upper (c : ascii) : ascii :=
  let n := nat_of_ascii c in
  if (97 <=? n)%nat && (n <=? 122)%nat then ascii_of_nat (n - 32) else c.

Fixpoint toUpperCase (s : string) : string :=
  match s with
  | EmptyString => EmptyString
  | String c rest => String (upper c) (toUpperCase rest)
  end.

(** [x > config.alertThreshold]: an absent threshold is [undefined], which
    compares as NaN. *)
Definition exceeds (x : number) (threshold : option Z) : bool :=
  match threshold with
  | Some t => gt x (lit t)
  | None => false
  end.

(** A condition on a property that may be absent: [undefined] is falsy. *)
Definition truthy (b : option bool) : bool :=
  match b with
  | Some true => true
  | _ => false
  end.

(* ------------------------------------------------------------------ *)
(** *** The functions of the script *)

Definition monitorBasicHealth : M unit :=
  timestamp <- Date_now ;;
  console_log (BasicHeader timestamp) ;;
  console_log CpuNormal ;;
  console_log MemoryNormal ;;
  console_log DiskAdequate ;;
  debug <- config_get "debugMode" debugMode ;;
  (if truthy debug
   then console_log HotReload ;; console_log DebugPort
   else ret tt) ;;
  console_log StatusHealthy.

(** The object literal [prediction]. *)
Record prediction := {
  cpu : number;
  memory : number;
  traffic : number;
  confidence : numeral
}.

Definition predictFutureMetrics : M unit :=
  console_log ForecastHeader ;;
  console_log Analyzing ;;
  r1 <- Math_random ;;
  r2 <- Math_random ;;
  r3 <- Math_random ;;
  r4 <- Math_random ;;
  let p := {| cpu := mul r1 (lit 100);
              memory := mul r2 (lit 100);
              traffic := mul r3 (lit 1000);
              confidence := toFixed (add (mul r4 (lit 30)) (lit 70)) 2 |} in
  console_log (ForecastCpu (toFixed (cpu p) 2) (confidence p)) ;;
  console_log (ForecastMemory (toFixed (memory p) 2) (confidence p)) ;;
  console_log (ForecastTraffic (toFixed (traffic p) 0) (confidence p)) ;;
  threshold <- config_get "alertThreshold" alertThreshold ;;
  if exceeds (cpu p) threshold then console_log PredictiveAlert else ret tt.

Definition cloudStatus (cloud : string) : M unit :=
  console_log (CloudStatus (toUpperCase cloud)) ;;
  r1 <- Math_random ;;
  console_log (Instances (Math_floor (add (mul r1 (lit 10)) (lit 5)))) ;;
  r2 <- Math_random ;;
  console_log (Load (toFixed (mul r2 (lit 100)) 2)) ;;
  r3 <- Math_random ;;
  console_log (Health (gt r3 lit_0_1)).

(** [config.cloudProviders], of which a method is about to be called. *)
Definition get_cloudProviders (method : string) : M (list string) :=
  clouds <- config_get "cloudProviders" cloudProviders ;;
  match clouds with
  | Some l => ret l
  | None => throw (reading method)
  end.

Definition monitorAIHealth : M unit :=
  timestamp <- Date_now ;;
  console_log (AIHeader timestamp) ;;
  console_log AIActive ;;
  model <- config_get "mlModelPath" mlModelPath ;;
  console_log (ModelLine model) ;;
  window <- config_get "predictiveWindow" predictiveWindow ;;
  console_log (PredictiveWindowLine window) ;;
  clouds <- get_cloudProviders "join" ;;
  console_log (CloudsLine (String.concat ", " clouds)) ;;
  clouds <- get_cloudProviders "forEach" ;;
  forEach clouds cloudStatus ;;
  r1 <- Math_random ;;
  let cpu := mul r1 (lit 100) in
  r2 <- Math_random ;;
  let memory := mul r2 (lit 100) in
  r3 <- Math_random ;;
  let disk := mul r3 (lit 100) in
  console_log ResourceUsage ;;
  console_log (CpuLine (toFixed cpu 2)) ;;
  console_log (MemoryLine (toFixed memory 2)) ;;
  console_log (DiskLine (toFixed disk 2)) ;;
  let maxUsage := Math_max [cpu; memory; disk] in
  threshold <- config_get "alertThreshold" alertThreshold ;;
  (if exceeds maxUsage threshold
   then console_log Alert ;; console_log AutoScaling
   else console_log StatusOptimal) ;;
  predictFutureMetrics.

Definition checkSystemHealth : M unit :=
  ai <- get_AI_MODE ;;
  if ai then monitorAIHealth else monitorBasicHealth.

(** The function given to the second [setInterval]. *)
Definition retrain : M unit :=
  console_log Retraining ;;
  console_log TrainingAccuracy ;;
  console_log ModelUpdated.

(** Lines 44 to 146: what the script does once the globals are set. *)
Definition main : M unit :=
  console_log Rule ;;
  console_log Title ;;
  env <- get_ENV ;;
  console_log (EnvironmentLine env) ;;
  ai <- get_AI_MODE ;;
  console_log (AIModeLine ai) ;;
  console_log Rule ;;
  ms <- config_get "interval" interval ;;
  console_log (MonitoringEvery ms) ;;
  ms <- config_get "interval" interval ;;
  setInterval HealthCheck ms ;;
  checkSystemHealth ;;
  ai <- get_AI_MODE ;;
  if ai then
    enabled <- config_get "aiEnabled" aiEnabled ;;
    if truthy enabled then setInterval Retrain (Some 120000) else ret tt
  else ret tt.

(* ------------------------------------------------------------------ *)
(** *** The event loop *)

Definition run_handler (h : handler) : M unit :=
  match h with
  | HealthCheck => checkSystemHealth
  | Retrain => retrain
  end.

(** The position of the timer that is due first, the one registered
    first among those due at the same time. *)
Fixpoint earliest_from (i : nat) (best : nat * timer) (l : list timer) : nat * timer :=
  match l with
  | [] => best
  | t :: rest =>
      earliest_from (S i) (if (due t <? due (snd best))%Z then (i, t) else best) rest
  end.

Definition earliest (l : list timer) : option (nat * timer) :=
  match l with
  | [] => None
  | t :: rest => Some (earliest_from 1 (0%nat, t) rest)
  end.

Fixpoint rearm (i : nat) (l : list timer) {struct l} : list timer :=
  match l, i with
  | [], _ => []
  | t :: rest, O =>
      {| callback := callback t; period := period t; due := due t + period t |} :: rest
  | t :: rest, S j => t :: rearm j rest
  end.

(** One firing: the clock reaches the due time, the handler runs, and the
    timer is armed again one period later. An exception that leaves the
    handler ends the process. *)
Definition fire (i : nat) (t : timer) : M unit :=
  fun w =>
    match run_handler (callback t) (set_now (due t) w) with
    | (Normal _, w') => (Normal tt, set_timers (rearm i (timers w')) w')
    | (Throw e, w') => (Throw e, w')
    end.

(** The firings up to the time [horizon], at most [fuel] of them. *)
Fixpoint event_loop (fuel : nat) (horizon : Z) : M unit :=
  match fuel with
  | O => ret tt
  | S fuel' =>
      fun w =>
        match earliest (timers w) with
        | Some (i, t) =>
            if (due t <=? horizon)%Z
            then (fire i t ;; event_loop fuel' horizon) w
            else (Normal tt, w)
        | None => (Normal tt, w)
        end
  end.

(** The process: the script, then the event loop. *)
Definition run (e : environment) (source : nat -> number) (t0 : Z)
    (fuel : nat) (horizon : Z) : completion unit * world :=
  (main ;; event_loop fuel horizon) (startup e source t0).

(** The lines printed, in order, and the times a line was printed at. *)
Definition printed (w : world) : list line := map snd (stdout w).

Definition times_of (p : line -> bool) (w : world) : list Z :=
  map fst (filter (fun tl => p (snd tl)) (stdout w)).

(* ------------------------------------------------------------------ *)
(** *** What one call prints

    The values a call computes, as the specification names them, and the
    lines it prints, as functions of the numbers drawn. *)

(** The effect of a call that draws [n] numbers and prints [ls]. *)
Definition emit (n : nat) (ls : list line) (w : world) : world :=
  set_stdout (stdout w ++ map (pair (now w)) ls) (set_drawn (drawn w + n) w).

(** The lines a call prints: what it adds to the output. *)
Definition output_of (c : M unit) (w : world) : list line :=
  skipn (List.length (stdout w)) (printed (snd (c w))).

Definition basic_lines (timestamp : Z) (debug : option bool) : list line :=
  [BasicHeader timestamp; CpuNormal; MemoryNormal; DiskAdequate] ++
  (if truthy debug then [HotReload; DebugPort] else []) ++
  [StatusHealthy].

(** The status of one cloud provider: the three values of lines 79 to 81. *)
Record provider_status := {
  provider : string;
  instanceCount : number;
  loadPct : number;
  healthy : bool
}.

Definition status_of (cloud : string) (r1 r2 r3 : number) : provider_status :=
  {| provider := cloud;
     instanceCount := Math_floor (add (mul r1 (lit 10)) (lit 5));
     loadPct := mul r2 (lit 100);
     healthy := gt r3 lit_0_1 |}.

Fixpoint statuses (source : nat -> number) (d : nat) (clouds : list string)
    : list provider_status :=
  match clouds with
  | [] => []
  | cloud :: rest =>
      status_of cloud (source d) (source (d + 1)%nat) (source (d + 2)%nat)
      :: statuses source (d + 3) rest
  end.

Definition provider_lines (st : provider_status) : list line :=
  [CloudStatus (toUpperCase (provider st));
   Instances (instanceCount st);
   Load (toFixed (loadPct st) 2);
   Health (healthy st)].

(** The resource sample: the three values of lines 84 to 86. *)
Record sample := {
  cpuPct : number;
  memoryPct : number;
  diskPct : number
}.

Definition sample_of (r1 r2 r3 : number) : sample :=
  {| cpuPct := mul r1 (lit 100);
     memoryPct := mul r2 (lit 100);
     diskPct := mul r3 (lit 100) |}.

Definition usage_lines (s : sample) : list line :=
  [ResourceUsage;
   CpuLine (toFixed (cpuPct s) 2);
   MemoryLine (toFixed (memoryPct s) 2);
   DiskLine (toFixed (diskPct s) 2)].

Definition maxUsage (s : sample) : number :=
  Math_max [cpuPct s; memoryPct s; diskPct s].

Definition evaluation_lines (threshold : option Z) (s : sample) : list line :=
  if exceeds (maxUsage s) threshold then [Alert; AutoScaling] else [StatusOptimal].

Definition prediction_of (r1 r2 r3 r4 : number) : prediction :=
  {| cpu := mul r1 (lit 100);
     memory := mul r2 (lit 100);
     traffic := mul r3 (lit 1000);
     confidence := toFixed (add (mul r4 (lit 30)) (lit 70)) 2 |}.

Definition forecast_lines (threshold : option Z) (p : prediction) : list line :=
  [ForecastHeader; Analyzing;
   ForecastCpu (toFixed (cpu p) 2) (confidence p);
   ForecastMemory (toFixed (memory p) 2) (confidence p);
   ForecastTraffic (toFixed (traffic p) 0) (confidence p)] ++
  (if exceeds (cpu p) threshold then [PredictiveAlert] else []).

(** The sample and the forecast of the tick that starts with [d] numbers
    drawn, for [n] cloud providers. *)
Definition tick_sample (source : nat -> number) (d n : nat) : sample :=
  sample_of (source (d + 3 * n)%nat) (source (d + 3 * n + 1)%nat)
            (source (d + 3 * n + 2)%nat).

Definition tick_prediction (source : nat -> number) (d n : nat) : prediction :=
  prediction_of (source (d + 3 * n + 3)%nat) (source (d + 3 * n + 4)%nat)
                (source (d + 3 * n + 5)%nat) (source (d + 3 * n + 6)%nat).

Definition ai_header_lines (timestamp : Z) (o : object) (clouds : list string)
    : list line :=
  [AIHeader timestamp; AIActive; ModelLine (mlModelPath o);
   PredictiveWindowLine (predictiveWindow o);
   CloudsLine (String.concat ", " clouds)].

Definition ai_lines (timestamp : Z) (o : object) (clouds : list string)
    (source : nat -> number) (d : nat) : list line :=
  ai_header_lines timestamp o clouds ++
  flat_map provider_lines (statuses source d clouds) ++
  usage_lines (tick_sample source d (List.length clouds)) ++
  evaluation_lines (alertThreshold o) (tick_sample source d (List.length clouds)) ++
  forecast_lines (alertThreshold o) (tick_prediction source d (List.length clouds)).

Definition retrain_lines : list line :=
  [Retraining; TrainingAccuracy; ModelUpdated].

(** The first line of a health check, of either kind, and of a retraining. *)
Definition is_tick (l : line) : bool :=
  match l with
  | BasicHeader _ | AIHeader _ => true
  | _ => false
  end.

Definition is_retraining (l : line) : bool :=
  match l with
  | Retraining => true
  | _ => false
  end.

Definition is_forecast (l : line) : bool :=
  match l with
  | ForecastHeader => true
  | _ => false
  end.

(** A line of the reactive evaluation, and a line that shows a sample. *)
Definition is_evaluation (l : line) : bool :=
  match l with
  | Alert | AutoScaling | StatusOptimal => true
  | _ => false
  end.

Definition is_usage (l : line) : bool :=
  match l with
  | ResourceUsage | CpuLine _ | MemoryLine _ | DiskLine _ => true
  | _ => false
  end.

(** The lines the script prints before the first health check. *)
Definition banner_lines (env : string) (ai : bool) (ms : option Z) : list line :=
  [Rule; Title; EnvironmentLine env; AIModeLine ai; Rule; MonitoringEvery ms].

(** The timers [setInterval] registers at the time [t]. *)
Definition arm (t : timer) (w : world) : world :=
  set_timers (timers w ++ [t]) w.

Definition health_timer (t : Z) (delay : option Z) : timer :=
  {| callback := HealthCheck; period := timer_period delay;
     due := t + timer_period delay |}.

Definition retrain_timer (t : Z) : timer :=
  {| callback := Retrain; period := 120000; due := t + 120000 |}.

(** What the script fixes at startup, and what a timer is registered as. *)
Definition globals (w : world) : string * bool * value * (nat -> number) :=
  (ENV w, AI_MODE w, config w, entropy w).

Definition registration (t : timer) : handler * Z := (callback t, period t).

(** A computation leaves a part [f] of the state as it found it. *)
Definition preserves {A F : Type} (f : world -> F) (c : M A) : Prop :=
  forall w, f (snd (c w)) = f w.

(** The times [start + period], [start + 2 * period], ..., [n] of them. *)
Definition multiples (start period : Z) (n : nat) : list Z :=
  map (fun k => start + Z.of_nat (S k) * period) (seq 0 n).

(** The number of periods that fit between [start] and [horizon]. *)
Definition periods_within (start period horizon : Z) : nat :=
  Z.to_nat ((horizon - start) / period).

(** The timers after [a] firings of the health check and [b] of the
    retraining, the script having started at [t0]. *)
Definition schedule (o : object) (retraining : bool) (t0 : Z) (a b : nat)
    : list timer :=
  {| callback := HealthCheck; period := timer_period (interval o);
     due := t0 + Z.of_nat (S a) * timer_period (interval o) |}
  :: (if retraining
      then [{| callback := Retrain; period := 120000;
               due := t0 + Z.of_nat (S b) * 120000 |}]
      else []).

Record ticking (o : object) (ai : bool) (t0 : Z) (a b : nat) (w : world) : Prop := {
  tk_mode : AI_MODE w = ai;
  tk_config : config w = Obj o;
  tk_timers : timers w = schedule o (ai && truthy (aiEnabled o)) t0 a b;
  tk_ticks :
    times_of is_tick w = t0 :: multiples t0 (timer_period (interval o)) a;
  tk_retrains :
    times_of is_retraining w =
      if ai && truthy (aiEnabled o) then multiples t0 120000 b else []
}.

(* ------------------------------------------------------------------ *)
(** *** Kinds of lines, and the environments of the examples *)

(** A draw of three quarters, the largest draw, and a source that always
    draws the same number. *)
Definition three_quarters : number := S754_finite false 6755399441055744 (-53).
Definition largest_draw : number := S754_finite false 9007199254740991 (-53).
Definition always (r : number) : nat -> number := fun _ => r.

Definition ai_environment : environment :=
  {| NODE_ENV := None; AI_MODE_variable := Some "true"%string |}.
Definition production_environment : environment :=
  {| NODE_ENV := Some "production"%string; AI_MODE_variable := None |}.
Definition development_environment : environment :=
  {| NODE_ENV := Some "development"%string; AI_MODE_variable := None |}.
Definition staging_environment : environment :=
  {| NODE_ENV := Some "staging"%string; AI_MODE_variable := None |}.

Definition is_predictive (l : line) : bool :=
  match l with
  | PredictiveAlert => true
  | _ => false
  end.

(** The three lines that show a forecast. *)
Definition is_forecast_readout (l : line) : bool :=
  match l with
  | ForecastCpu _ _ | ForecastMemory _ _ | ForecastTraffic _ _ => true
  | _ => false
  end.

Definition forecast_readout (p : prediction) : list line :=
  [ForecastCpu (toFixed (cpu p) 2) (confidence p);
   ForecastMemory (toFixed (memory p) 2) (confidence p);
   ForecastTraffic (toFixed (traffic p) 0) (confidence p)].

Definition is_provider_line (l : line) : bool :=
  match l with
  | CloudStatus _ | Instances _ | Load _ | Health _ => true
  | _ => false
  end.

Definition is_status (l : line) : bool :=
  match l with
  | StatusHealthy | StatusOptimal | Alert => true
  | _ => false
  end.

(* ------------------------------------------------------------------ *)
(** *** What a whole run prints *)

(** A line of a retraining, and a line of anything else. *)
Definition is_retrain_line (l : line) : bool :=
  match l with
  | Retraining | TrainingAccuracy | ModelUpdated => true
  | _ => false
  end.

Definition is_check_line (l : line) : bool := negb (is_retrain_line l).

(** The numbers one health check draws, and the lines it prints at the
    time [t] when [d] numbers were drawn before it. *)
Definition draws_of_check (ai : bool) (clouds : list string) : nat :=
  if ai then 3 * List.length clouds + 7 else 0.

Definition check_lines (o : object) (ai : bool) (clouds : list string)
    (source : nat -> number) (t : Z) (d : nat) : list line :=
  if ai then ai_lines t o clouds source d else basic_lines t (debugMode o).

(** The [k]-th health check of a run started at [t0], the one made at
    startup being the check 0. *)
Definition nth_check (o : object) (ai : bool) (clouds : list string)
    (source : nat -> number) (t0 : Z) (k : nat) : list line :=
  check_lines o ai clouds source
    (t0 + Z.of_nat k * timer_period (interval o)) (k * draws_of_check ai clouds).

(** Times that never go back, none before [from]. *)
Fixpoint nondecreasing (from : Z) (l : list Z) : bool :=
  match l with
  | [] => true
  | t :: rest => (from <=? t)%Z && nondecreasing t rest
  end.

(** What a run has printed and drawn after [a] firings of the health
    check and [b] of the retraining. *)
Record tracing (o : object) (ai : bool) (clouds : list string)
    (source : nat -> number) (env : string) (t0 : Z) (a b : nat) (w : world)
    : Prop := {
  tr_entropy : entropy w = source;
  tr_drawn : drawn w = (S a * draws_of_check ai clouds)%nat;
  tr_checks :
    filter is_check_line (printed w) =
      (banner_lines env ai (interval o) ++
       flat_map (nth_check o ai clouds source t0) (seq 0 (S a)))%list;
  tr_retrains :
    filter is_retrain_line (printed w) = List.concat (repeat retrain_lines b);
  tr_order : nondecreasing t0 (map fst (stdout w)) = true;
  tr_past : Forall (fun t => t <= now w) (map fst (stdout w));
  tr_now : t0 <= now w;
  tr_next_check : now w <= t0 + Z.of_nat (S a) * timer_period (interval o);
  tr_next_retrain :
    ai && truthy (aiEnabled o) = true -> now w <= t0 + Z.of_nat (S b) * 120000
}.

Definition is_alert (l : line) : bool :=
  match l with
  | Alert => true
  | _ => false
  end.

Definition is_autoscaling (l : line) : bool :=
  match l with
  | AutoScaling => true
  | _ => false
  end.

(** How many of the lines printed are of a kind. *)
Definition count (p : line -> bool) (w : world) : nat :=
  List.length (filter p (printed w)).

(** A numeral with [f] decimals whose digits are from [lo] to [hi], and
    a line whose readouts are all such numerals: a percentage from 0.00
    to 100.00, a confidence from 70.00 to 100.00, a rate from 0 to 1000. *)
Definition numeral_between (lo hi f : Z) (n : numeral) : bool :=
  match n with
  | Fixed false k f' => (f' =? f)%Z && (lo <=? k)%Z && (k <=? hi)%Z
  | _ => false
  end.

Definition readout_in_range (l : line) : bool :=
  match l with
  | Load n | CpuLine n | MemoryLine n | DiskLine n => numeral_between 0 10000 2 n
  | ForecastCpu n c | ForecastMemory n c =>
      numeral_between 0 10000 2 n && numeral_between 7000 10000 2 c
  | ForecastTraffic n c =>
      numeral_between 0 1000 0 n && numeral_between 7000 10000 2 c
  | _ => true
  end.

(** Whether the [i]-th number of a source is above three quarters, and the
    smallest draw that is. *)
Definition above_three_quarters (source : nat -> number) (i : nat) : bool :=
  gt (source i) three_quarters.

Definition just_above_three_quarters : number :=
  S754_finite false 6755399441055745 (-53).

End Monitor.

(* ================================================================== *)
(** ** The script on concrete inputs *)
(* ================================================================== *)

Module Evaluation.
Import JS Monitor.

(** The literal [0.1] is [7205759403792794 * 2^-56], one tenth and a tenth
    of [2^-54] more. *)
Example one_tenth :
  lit_0_1 = S754_finite false 7205759403792794 (-56) /\
  10 * 7205759403792794 = 2 ^ 56 + 4.
Proof. split; reflexivity. Qed.

Example draws :
  is_draw three_quarters = true /\ is_draw largest_draw = true /\
  is_draw one = false /\ is_draw (S754_zero true) = false.
Proof. repeat split. Qed.

(** The largest draw: its load is below 100 and prints as 100.00, its
    instance count is 14, and its confidence is 100 exactly. *)
Example largest_draw_values :
  mul largest_draw (lit 100) = S754_finite false 7036874417766399 (-46) /\
  gt (lit 100) (mul largest_draw (lit 100)) = true /\
  toFixed (mul largest_draw (lit 100)) 2 = Fixed false 10000 2 /\
  Math_floor (add (mul largest_draw (lit 10)) (lit 5)) = lit 14 /\
  add (mul largest_draw (lit 30)) (lit 70) = lit 100.
Proof. repeat split. Qed.

Example provider_names :
  map toUpperCase ["aws"; "azure"; "gcp"]%string = ["AWS"; "AZURE"; "GCP"]%string.
Proof. reflexivity. Qed.

(** The development profile, up to the first firing of its timer. *)
Example development_run :
  let w := snd (run development_environment (always three_quarters) 0 1 5000) in
  printed w =
    [Rule; Title; EnvironmentLine "development"; AIModeLine false; Rule;
     MonitoringEvery (Some 5000);
     BasicHeader 0; CpuNormal; MemoryNormal; DiskAdequate; HotReload; DebugPort;
     StatusHealthy;
     BasicHeader 5000; CpuNormal; MemoryNormal; DiskAdequate; HotReload; DebugPort;
     StatusHealthy] /\
  timers w = [{| callback := HealthCheck; period := 5000; due := 10000 |}] /\
  drawn w = 0%nat.
Proof. repeat split. Qed.

(** The first tick in AI mode, every draw being three quarters: the
    maximum equals the threshold of 75 and is no alert. *)
Example ai_first_tick :
  let w := snd (main (startup ai_environment (always three_quarters) 0)) in
  printed w =
    [Rule; Title; EnvironmentLine "production"; AIModeLine true; Rule;
     MonitoringEvery (Some 30000);
     AIHeader 0; AIActive; ModelLine (Some "./models/anomaly-detection.h5"%string);
     PredictiveWindowLine (Some 300); CloudsLine "aws, azure, gcp";
     CloudStatus "AWS"; Instances (lit 12); Load (Fixed false 7500 2); Health true;
     CloudStatus "AZURE"; Instances (lit 12); Load (Fixed false 7500 2); Health true;
     CloudStatus "GCP"; Instances (lit 12); Load (Fixed false 7500 2); Health true;
     ResourceUsage; CpuLine (Fixed false 7500 2); MemoryLine (Fixed false 7500 2);
     DiskLine (Fixed false 7500 2);
     StatusOptimal;
     ForecastHeader; Analyzing;
     ForecastCpu (Fixed false 7500 2) (Fixed false 9250 2);
     ForecastMemory (Fixed false 7500 2) (Fixed false 9250 2);
     ForecastTraffic (Fixed false 750 0) (Fixed false 9250 2)] /\
  timers w =
    [{| callback := HealthCheck; period := 30000; due := 30000 |};
     {| callback := Retrain; period := 120000; due := 120000 |}] /\
  drawn w = 16%nat.
Proof. repeat split. Qed.

(** A name every object inherits selects an object with no property of a
    configuration: the interval reads as [undefined] and the timer fires
    every millisecond. *)
Example inherited_name :
  select_config {| NODE_ENV := Some "toString"%string; AI_MODE_variable := None |} =
    Obj no_properties /\
  timer_period (interval no_properties) = 1.
Proof. split; reflexivity. Qed.

End Evaluation.

(* ================================================================== *)
(** ** Correctly rounded arithmetic on valid numbers *)
(* ================================================================== *)

Module Rounding.
Import JS.

(** Values are compared as integers: the value of [m * 2^e] times [2^bias],
    with [bias] below every exponent a product of two doubles can have. *)
Definition bias : Z := 2200.
Definition scaled (m e : Z) : Z := m * 2 ^ (e + bias).
Arguments scaled : simpl never.

Definition pack (s : bool) (m e : Z) : spec_float :=
  match m with
  | Z0 => S754_zero s
  | Zpos p => if e <=? emax - prec then S754_finite s p e else S754_infinity s
  | Zneg _ => S754_nan
  end.

(** The scaled value of a non-negative, valid, finite number. *)
Definition sval (x : number) : option Z :=
  match x with
  | S754_zero false => Some 0
  | S754_finite false m e =>
      if bounded prec emax m e then Some (scaled (Zpos m) e) else None
  | _ => None
  end.

Lemma digits2_bounds (p : positive) :
  2 ^ (Zpos (digits2_pos p) - 1) <= Zpos p < 2 ^ Zpos (digits2_pos p).
Proof.
  induction p as [p IH | p IH |]; simpl digits2_pos.
  - rewrite Pos2Z.inj_succ.
    replace (Z.succ (Zpos (digits2_pos p)) - 1)
      with (Z.succ (Zpos (digits2_pos p) - 1)) by lia.
    rewrite !Z.pow_succ_r by lia. lia.
  - rewrite Pos2Z.inj_succ.
    replace (Z.succ (Zpos (digits2_pos p)) - 1)
      with (Z.succ (Zpos (digits2_pos p) - 1)) by lia.
    rewrite !Z.pow_succ_r by lia. lia.
  - simpl. lia.
Qed.

Lemma digits2_unique (p : positive) (k : Z) :
  2 ^ (k - 1) <= Zpos p < 2 ^ k -> Zpos (digits2_pos p) = k.
Proof.
  intros [Hlo Hhi]. pose proof (digits2_bounds p) as [Dlo Dhi].
  set (d := Zpos (digits2_pos p)) in *.
  assert (0 < d) by (unfold d; lia).
  destruct (Z.lt_trichotomy d k) as [Hlt | [Heq | Hgt]]; [ | exact Heq | ].
  - assert (2 ^ d <= 2 ^ (k - 1)) by (apply Z.pow_le_mono_r; lia). lia.
  - destruct (Z.le_gt_cases 0 k) as [Hk | Hk].
    + assert (2 ^ k <= 2 ^ (d - 1)) by (apply Z.pow_le_mono_r; lia). lia.
    + rewrite Z.pow_neg_r in Hhi by lia. lia.
Qed.

Lemma iter_pos_nat {A : Type} (f : A -> A) (p : positive) (x : A) :
  iter_pos f p x = Nat.iter (Pos.to_nat p) f x.
Proof.
  revert x. induction p as [p IH | p IH |]; intros x; simpl iter_pos.
  - rewrite !IH, Pos2Nat.inj_xI.
    replace (S (2 * Pos.to_nat p)) with (S (Pos.to_nat p + Pos.to_nat p))%nat by lia.
    rewrite Nat.iter_succ_r, Nat.iter_add. reflexivity.
  - rewrite !IH, Pos2Nat.inj_xO.
    replace (2 * Pos.to_nat p)%nat with (Pos.to_nat p + Pos.to_nat p)%nat by lia.
    rewrite Nat.iter_add. reflexivity.
  - reflexivity.
Qed.

Lemma shr_1_fields (r : shr_record) :
  0 <= shr_m r ->
  shr_m (shr_1 r) = shr_m r / 2 /\
  shr_r (shr_1 r) = Z.odd (shr_m r) /\
  shr_s (shr_1 r) = shr_r r || shr_s r.
Proof.
  destruct r as [m r s]; simpl shr_m; simpl shr_r; simpl shr_s. intros Hm.
  rewrite <- Z.div2_div.
  destruct m as [| [p | p |] | p]; try lia; simpl; auto.
Qed.

Lemma shr_iter (m0 : Z) (k : nat) :
  0 <= m0 ->
  let r := Nat.iter k shr_1 (Build_shr_record m0 false false) in
  shr_m r = m0 / 2 ^ Z.of_nat k /\
  (shr_r r = true -> 2 ^ Z.of_nat k <= 2 * (m0 mod 2 ^ Z.of_nat k)).
Proof.
  intros Hm0. induction k as [| k IH].
  - simpl. rewrite Z.div_1_r. split; [reflexivity | discriminate].
  - cbv zeta in *. rewrite Nat2Z.inj_succ, Z.pow_succ_r by lia. simpl Nat.iter.
    destruct IH as [IHm _].
    set (r := Nat.iter k shr_1 _) in *.
    assert (Hpos : 0 < 2 ^ Z.of_nat k) by (apply Z.pow_pos_nonneg; lia).
    assert (Hr : 0 <= shr_m r) by (rewrite IHm; apply Z.div_pos; lia).
    destruct (shr_1_fields r Hr) as (Fm & Fr & _).
    split.
    + rewrite Fm, IHm, Z.div_div by lia. f_equal. lia.
    + rewrite Fr, IHm, Zodd_mod. intros Hodd.
      rewrite (Z.mul_comm 2 (2 ^ Z.of_nat k)), Z.rem_mul_r by lia.
      pose proof (Z.mod_pos_bound m0 (2 ^ Z.of_nat k) Hpos).
      pose proof (Z.mod_pos_bound (m0 / 2 ^ Z.of_nat k) 2 ltac:(lia)).
      destruct (Z.eq_dec ((m0 / 2 ^ Z.of_nat k) mod 2) 1) as [E1 | N1].
      * rewrite E1. lia.
      * assert (E0 : (m0 / 2 ^ Z.of_nat k) mod 2 = 0) by lia.
        rewrite E0 in Hodd. discriminate.
Qed.

Lemma fexp_eq (e : Z) : fexp prec emax e = Z.max (e - 53) (-1074).
Proof. reflexivity. Qed.

Lemma Zdigits2_pos (p : positive) : Zdigits2 (Zpos p) = Zpos (digits2_pos p).
Proof. reflexivity. Qed.

Lemma shr_fexp_exact (mx ex : Z) :
  0 <= mx ->
  ex <= fexp prec emax (Zdigits2 mx + ex) ->
  exists r,
    shr_fexp prec emax mx ex loc_Exact = (r, fexp prec emax (Zdigits2 mx + ex)) /\
    shr_m r = mx / 2 ^ (fexp prec emax (Zdigits2 mx + ex) - ex) /\
    (shr_r r = true ->
     2 ^ (fexp prec emax (Zdigits2 mx + ex) - ex) <=
     2 * (mx mod 2 ^ (fexp prec emax (Zdigits2 mx + ex) - ex))).
Proof.
  intros Hmx Hn. unfold shr_fexp, shr. simpl shr_record_of_loc.
  set (e' := fexp prec emax (Zdigits2 mx + ex)) in *.
  destruct (e' - ex) as [| p | p] eqn:En; try lia.
  - eexists; split; [f_equal; lia |]. simpl. rewrite Z.div_1_r.
    split; [reflexivity | discriminate].
  - rewrite iter_pos_nat.
    pose proof (shr_iter mx (Pos.to_nat p) Hmx) as H. cbv zeta in H.
    rewrite positive_nat_Z in H.
    eexists; split; [f_equal; lia | exact H].
Qed.

Lemma round_nearest_even_cases (r : shr_record) :
  round_nearest_even (shr_m r) (loc_of_shr_record r) = shr_m r \/
  (round_nearest_even (shr_m r) (loc_of_shr_record r) = shr_m r + 1 /\
   shr_r r = true).
Proof.
  destruct r as [m [] []]; simpl; auto; destruct (Z.even m); auto.
Qed.

(** Renormalisation after rounding: the mantissa has at most 53 bits, or
    is exactly [2^53]. *)
Lemma renormalise (s : bool) (m e : Z) :
  0 <= m <= 2 ^ 53 -> -1074 <= e -> (m < 2 ^ 52 -> e = -1074) ->
  (let '(r, e2) := shr_fexp prec emax m e loc_Exact in
   match shr_m r with
   | Z0 => S754_zero s
   | Zpos p => if e2 <=? emax - prec then S754_finite s p e2 else S754_infinity s
   | Zneg _ => S754_nan
   end) = if m =? 2 ^ 53 then pack s (2 ^ 52) (e + 1) else pack s m e.
Proof.
  intros Hm He Hsub. unfold shr_fexp, shr. simpl shr_record_of_loc.
  destruct (Z.eqb_spec m (2 ^ 53)) as [-> | Hne].
  - change (Zdigits2 (2 ^ 53)) with 54. rewrite fexp_eq.
    replace (Z.max (54 + e - 53) (-1074) - e) with 1 by lia.
    simpl iter_pos. simpl shr_m.
    change (2 ^ 52) with (Zpos (2 ^ 52)). reflexivity.
  - destruct m as [| p | p]; try lia.
    + simpl Zdigits2. rewrite fexp_eq.
      destruct (Z.max (0 + e - 53) (-1074) - e) eqn:En; try lia; reflexivity.
    + rewrite Zdigits2_pos, fexp_eq.
      pose proof (digits2_bounds p) as [Dlo Dhi].
      set (d := Zpos (digits2_pos p)) in *.
      assert (Hd : d <= 53).
      { destruct (Z.le_gt_cases d 53) as [|Hgt]; [assumption|].
        assert (2 ^ 53 <= 2 ^ (d - 1)) by (apply Z.pow_le_mono_r; lia). lia. }
      assert (Hd2 : e <> -1074 -> d = 53).
      { intros Hen. destruct (Z.lt_ge_cases (Zpos p) (2 ^ 52)) as [Hlt | Hge].
        - specialize (Hsub Hlt). lia.
        - destruct (Z.le_gt_cases 53 d) as [|Hlt]; [lia|].
          assert (2 ^ d <= 2 ^ 52) by (apply Z.pow_le_mono_r; lia). lia. }
      assert (En : Z.max (d + e - 53) (-1074) - e = 0) by lia.
      rewrite En. reflexivity.
Qed.

Lemma binary_round_aux_spec (s : bool) (mx : positive) (ex : Z) :
  let e' := fexp prec emax (Zpos (digits2_pos mx) + ex) in
  let q := Zpos mx / 2 ^ (e' - ex) in
  ex <= e' ->
  exists m,
    (m = q \/
     (m = q + 1 /\ 2 ^ (e' - ex) <= 2 * (Zpos mx mod 2 ^ (e' - ex)))) /\
    0 <= q < 2 ^ 53 /\ (e' <> -1074 -> 2 ^ 52 <= q) /\
    binary_round_aux prec emax s (Zpos mx) ex loc_Exact =
      if m =? 2 ^ 53 then pack s (2 ^ 52) (e' + 1) else pack s m e'.
Proof.
  intros e' q Hn.
  destruct (shr_fexp_exact (Zpos mx) ex ltac:(lia) Hn) as (r & Hshr & Hm & Hrs).
  rewrite Zdigits2_pos in Hshr, Hm, Hrs. fold e' in Hshr, Hm, Hrs. fold q in Hm.
  pose proof (digits2_bounds mx) as [Dlo Dhi].
  set (d := Zpos (digits2_pos mx)) in *.
  assert (He' : e' = Z.max (d + ex - 53) (-1074)) by reflexivity.
  assert (Hpow : 0 < 2 ^ (e' - ex)) by (apply Z.pow_pos_nonneg; lia).
  assert (Hq : 0 <= q < 2 ^ 53).
  { split; [apply Z.div_pos; lia |].
    apply Z.div_lt_upper_bound; [lia |].
    rewrite <- Z.pow_add_r by lia.
    assert (2 ^ d <= 2 ^ (e' - ex + 53)) by (apply Z.pow_le_mono_r; lia). lia. }
  assert (Hnorm : e' <> -1074 -> 2 ^ 52 <= q).
  { intros Hne. apply Z.div_le_lower_bound; [lia |].
    rewrite <- Z.pow_add_r by lia.
    replace (e' - ex + 52) with (d - 1) by lia. lia. }
  exists (round_nearest_even (shr_m r) (loc_of_shr_record r)).
  split; [| split; [exact Hq | split; [exact Hnorm |]]].
  - destruct (round_nearest_even_cases r) as [-> | [-> Hr]]; rewrite Hm; auto.
  - unfold binary_round_aux. rewrite Hshr.
    apply renormalise.
    + destruct (round_nearest_even_cases r) as [-> | [-> Hr]]; rewrite Hm; lia.
    + lia.
    + destruct (round_nearest_even_cases r) as [-> | [-> Hr]]; rewrite Hm; lia.
Qed.

Lemma scaled_shift (m e n : Z) :
  - bias <= e -> 0 <= n -> scaled m (e + n) = m * 2 ^ n * 2 ^ (e + bias).
Proof.
  intros He Hn. unfold scaled.
  replace (e + n + bias) with (n + (e + bias)) by lia.
  rewrite Z.pow_add_r by lia. ring.
Qed.

Lemma pow2_pos (n : Z) : 0 <= n -> 0 < 2 ^ n.
Proof. intros; apply Z.pow_pos_nonneg; lia. Qed.

Lemma bounded_inv (m : positive) (e : Z) :
  bounded prec emax m e = true ->
  -1074 <= e <= 971 /\ Zpos m < 2 ^ 53 /\ (e <> -1074 -> 2 ^ 52 <= Zpos m).
Proof.
  unfold bounded, canonical_mantissa. rewrite fexp_eq.
  intros H. apply andb_true_iff in H as [Hc He].
  apply Z.eqb_eq in Hc. apply Z.leb_le in He. change (emax - prec) with 971 in He.
  pose proof (digits2_bounds m) as [Dlo Dhi].
  set (d := Zpos (digits2_pos m)) in *.
  assert (0 < d) by (unfold d; lia).
  split; [lia | split].
  - assert (2 ^ d <= 2 ^ 53) by (apply Z.pow_le_mono_r; lia). lia.
  - intros Hne. assert (d = 53) by lia. subst d.
    replace (2 ^ 52) with (2 ^ (Zpos (digits2_pos m) - 1)); [lia |].
    f_equal. lia.
Qed.

Lemma bounded_intro (m : positive) (e : Z) :
  -1074 <= e <= 971 -> Zpos m < 2 ^ 53 -> (e <> -1074 -> 2 ^ 52 <= Zpos m) ->
  bounded prec emax m e = true.
Proof.
  intros He Hm Hn. unfold bounded, canonical_mantissa. rewrite fexp_eq.
  apply andb_true_iff. split; [| apply Z.leb_le; change (emax - prec) with 971; lia].
  apply Z.eqb_eq.
  pose proof (digits2_bounds m) as [Dlo Dhi].
  set (d := Zpos (digits2_pos m)) in *.
  assert (0 < d) by (unfold d; lia).
  assert (Hd : d <= 53).
  { destruct (Z.le_gt_cases d 53) as [|Hgt]; [assumption|].
    assert (2 ^ 53 <= 2 ^ (d - 1)) by (apply Z.pow_le_mono_r; lia). lia. }
  destruct (Z.eq_dec e (-1074)) as [-> | Hne]; [lia |].
  specialize (Hn Hne).
  assert (53 <= d).
  { destruct (Z.le_gt_cases 53 d) as [|Hlt]; [assumption|].
    assert (2 ^ d <= 2 ^ 52) by (apply Z.pow_le_mono_r; lia). lia. }
  lia.
Qed.

(** The value of the rounded result, whichever way it was renormalised. *)
Lemma pack_value (s : bool) (m e : Z) :
  0 < m <= 2 ^ 53 -> -1074 <= e -> (m < 2 ^ 52 -> e = -1074) ->
  forall E, (if m =? 2 ^ 53 then e + 1 else e) <= E -> E <= 971 ->
  exists p e2,
    (if m =? 2 ^ 53 then pack s (2 ^ 52) (e + 1) else pack s m e) =
      S754_finite s p e2 /\
    bounded prec emax p e2 = true /\ scaled (Zpos p) e2 = scaled m e.
Proof.
  intros Hm He Hsub E HE1 HE2.
  destruct (Z.eqb_spec m (2 ^ 53)) as [-> | Hne].
  - exists (2 ^ 52)%positive, (e + 1). split; [| split].
    + change (2 ^ 52) with (Zpos (2 ^ 52)). unfold pack.
      replace (e + 1 <=? emax - prec) with true; [reflexivity |].
      symmetry. apply Z.leb_le. change (emax - prec) with 971. lia.
    + apply bounded_intro; change (Zpos (2 ^ 52)) with (2 ^ 52); lia.
    + rewrite scaled_shift by (unfold bias; lia). unfold scaled.
      change (Zpos (2 ^ 52) * 2 ^ 1) with (2 ^ 53). reflexivity.
  - destruct m as [| p | p]; try lia.
    exists p, e. split; [| split; [| reflexivity]].
    + unfold pack. replace (e <=? emax - prec) with true; [reflexivity |].
      symmetry. apply Z.leb_le. change (emax - prec) with 971. lia.
    + apply bounded_intro; lia.
Qed.

Lemma pack_overflow (s : bool) (m e : Z) :
  0 < m <= 2 ^ 53 -> -1074 <= e -> (m < 2 ^ 52 -> e = -1074) ->
  (exists p e2,
    (if m =? 2 ^ 53 then pack s (2 ^ 52) (e + 1) else pack s m e) =
      S754_finite s p e2 /\
    bounded prec emax p e2 = true /\ scaled (Zpos p) e2 = scaled m e) \/
  (if m =? 2 ^ 53 then pack s (2 ^ 52) (e + 1) else pack s m e) = S754_infinity s.
Proof.
  intros Hm He Hsub.
  destruct (Z.le_gt_cases (if m =? 2 ^ 53 then e + 1 else e) 971) as [Hle | Hgt].
  - left. apply (pack_value s m e Hm He Hsub 971); [exact Hle | lia].
  - right. destruct (Z.eqb_spec m (2 ^ 53)) as [-> | Hne].
    + change (2 ^ 52) with (Zpos (2 ^ 52)). unfold pack.
      replace (e + 1 <=? emax - prec) with false; [reflexivity |].
      symmetry. apply Z.leb_gt. change (emax - prec) with 971. lia.
    + destruct m as [| p | p]; try lia. unfold pack.
      replace (e <=? emax - prec) with false; [reflexivity |].
      symmetry. apply Z.leb_gt. change (emax - prec) with 971. lia.
Qed.

Section Bracket.
Variables (s : bool) (mx : positive) (ex : Z).
Hypothesis Hex : - bias <= ex.
Hypothesis Hn : ex <= fexp prec emax (Zpos (digits2_pos mx) + ex).

Let R := binary_round_aux prec emax s (Zpos mx) ex loc_Exact.

(** A representable number above the exact value is above the rounded one. *)
Lemma round_below (M : positive) (E : Z) :
  bounded prec emax M E = true ->
  scaled (Zpos mx) ex <= scaled (Zpos M) E ->
  R = S754_zero s \/
  exists m e, R = S754_finite s m e /\ bounded prec emax m e = true /\
              scaled (Zpos m) e <= scaled (Zpos M) E.
Proof.
  intros HB Hle.
  destruct (binary_round_aux_spec s mx ex Hn) as (m & Hm & Hq & Hnorm & HR).
  fold R in HR.
  set (e' := fexp prec emax (Zpos (digits2_pos mx) + ex)) in *.
  set (q := Zpos mx / 2 ^ (e' - ex)) in *.
  apply bounded_inv in HB as (HE & HM & HMn).
  assert (He' : -1074 <= e') by (unfold e'; rewrite fexp_eq; lia).
  assert (Hp : 0 < 2 ^ (e' - ex)) by (apply pow2_pos; lia).
  assert (Hs : 0 < 2 ^ (ex + bias)) by (apply pow2_pos; lia).
  assert (Hqm : q * 2 ^ (e' - ex) <= Zpos mx).
  { unfold q. rewrite Z.mul_comm. apply Z.mul_div_le. lia. }
  assert (HEe : e' <= E).
  { destruct (Z.le_gt_cases e' E) as [|Hgt]; [assumption | exfalso].
    assert (Hq52 : 2 ^ 52 <= q) by (apply Hnorm; lia).
    assert (H1 : scaled (Zpos M) E < scaled (2 ^ 52) e').
    { replace e' with (E + (e' - E)) by lia.
      rewrite scaled_shift by (unfold bias; lia). unfold scaled.
      assert (0 < 2 ^ (E + bias)) by (apply pow2_pos; unfold bias; lia).
      assert (2 ^ 1 <= 2 ^ (e' - E)) by (apply Z.pow_le_mono_r; lia).
      change (2 ^ 1) with 2 in *. change (2 ^ 53) with (2 ^ 52 * 2) in HM.
      nia. }
    assert (H2 : scaled (2 ^ 52) e' <= scaled (Zpos mx) ex).
    { replace e' with (ex + (e' - ex)) by lia.
      rewrite scaled_shift by lia. unfold scaled. nia. }
    lia. }
  set (K := Zpos M * 2 ^ (E - e')).
  assert (HK : scaled (Zpos M) E = K * 2 ^ (e' - ex) * 2 ^ (ex + bias)).
  { unfold K, scaled. rewrite <- !Z.mul_assoc, <- !Z.pow_add_r by lia.
    do 2 f_equal. lia. }
  assert (HmxK : Zpos mx <= K * 2 ^ (e' - ex)).
  { rewrite HK in Hle. unfold scaled in Hle. nia. }
  assert (HqK : q <= K).
  { unfold q. apply Z.div_le_upper_bound; [lia |]. lia. }
  assert (HmK : m <= K).
  { destruct Hm as [-> | [-> Hmod]]; [exact HqK |].
    destruct (Z.eq_dec q K) as [Heq | Hne]; [| lia].
    exfalso.
    assert (H : Zpos mx = K * 2 ^ (e' - ex)) by lia.
    rewrite H, Z.mod_mul in Hmod by lia. lia. }
  assert (Hm0 : 0 <= m <= 2 ^ 53) by lia.
  destruct (Z.eq_dec m 0) as [-> | Hm1].
  { left. rewrite HR. reflexivity. }
  right.
  assert (Hsub : m < 2 ^ 52 -> e' = -1074).
  { intros Hlt. destruct (Z.eq_dec e' (-1074)); [assumption |].
    specialize (Hnorm n). lia. }
  assert (HKE : scaled m e' <= scaled (Zpos M) E).
  { rewrite HK. replace e' with (ex + (e' - ex)) at 1 by lia.
    rewrite scaled_shift by lia. nia. }
  destruct (pack_value s m e' ltac:(lia) He' Hsub E) as (p & e2 & Hp1 & Hp2 & Hp3).
  - destruct (Z.eqb_spec m (2 ^ 53)) as [-> | Hne]; [| exact HEe].
    destruct (Z.eq_dec e' E) as [Heq | Hne]; [| lia].
    exfalso. unfold K in HmK. rewrite Heq, Z.sub_diag in HmK. simpl in HmK. lia.
  - lia.
  - exists p, e2. rewrite HR, Hp1, Hp3. auto.
Qed.

(** A representable number below the exact value is below the rounded one. *)
Lemma round_above (M : positive) (E : Z) :
  bounded prec emax M E = true ->
  scaled (Zpos M) E <= scaled (Zpos mx) ex ->
  R = S754_infinity s \/
  exists m e, R = S754_finite s m e /\ bounded prec emax m e = true /\
              scaled (Zpos M) E <= scaled (Zpos m) e.
Proof.
  intros HB Hle.
  destruct (binary_round_aux_spec s mx ex Hn) as (m & Hm & Hq & Hnorm & HR).
  fold R in HR.
  set (e' := fexp prec emax (Zpos (digits2_pos mx) + ex)) in *.
  set (q := Zpos mx / 2 ^ (e' - ex)) in *.
  apply bounded_inv in HB as (HE & HM & HMn).
  assert (He' : -1074 <= e') by (unfold e'; rewrite fexp_eq; lia).
  assert (Hp : 0 < 2 ^ (e' - ex)) by (apply pow2_pos; lia).
  assert (Hs : 0 < 2 ^ (ex + bias)) by (apply pow2_pos; lia).
  assert (Hs' : 0 < 2 ^ (e' + bias)) by (apply pow2_pos; unfold bias; lia).
  assert (Hqm : q <= m) by (destruct Hm as [-> | [-> _]]; lia).
  assert (HMq : scaled (Zpos M) E <= scaled q e').
  { destruct (Z.le_gt_cases e' E) as [HeE | Hgt].
    - set (K := Zpos M * 2 ^ (E - e')).
      assert (HK : scaled (Zpos M) E = K * 2 ^ (e' - ex) * 2 ^ (ex + bias)).
      { unfold K, scaled. rewrite <- !Z.mul_assoc, <- !Z.pow_add_r by lia.
        do 2 f_equal. lia. }
      assert (HKmx : K * 2 ^ (e' - ex) <= Zpos mx).
      { rewrite HK in Hle. unfold scaled in Hle. nia. }
      assert (HKq : K <= q).
      { unfold q. apply Z.div_le_lower_bound; [lia |]. lia. }
      rewrite HK. replace e' with (ex + (e' - ex)) at 2 by lia.
      rewrite scaled_shift by lia. nia.
    - assert (Hq52 : 2 ^ 52 <= q) by (apply Hnorm; lia).
      replace e' with (E + (e' - E)) by lia.
      rewrite scaled_shift by (unfold bias; lia). unfold scaled.
      assert (0 < 2 ^ (E + bias)) by (apply pow2_pos; unfold bias; lia).
      assert (2 ^ 1 <= 2 ^ (e' - E)) by (apply Z.pow_le_mono_r; lia).
      change (2 ^ 1) with 2 in *. change (2 ^ 53) with (2 ^ 52 * 2) in HM.
      assert (Zpos M <= q * 2 ^ (e' - E)) by nia.
      apply Z.mul_le_mono_nonneg_r; lia. }
  assert (Hq0 : 0 < q).
  { assert (0 < scaled (Zpos M) E).
    { unfold scaled. apply Z.mul_pos_pos; [lia |]. apply pow2_pos. unfold bias; lia. }
    unfold scaled in HMq. nia. }
  assert (Hsub : m < 2 ^ 52 -> e' = -1074).
  { intros Hlt. destruct (Z.eq_dec e' (-1074)); [assumption |].
    specialize (Hnorm n). lia. }
  destruct (pack_overflow s m e' ltac:(lia) He' Hsub)
    as [(p & e2 & Hp1 & Hp2 & Hp3) | Hinf].
  - right. exists p, e2. rewrite HR, Hp1, Hp3. split; [reflexivity | split; [assumption |]].
    unfold scaled in *. nia.
  - left. rewrite HR. exact Hinf.
Qed.
(** Rounding is to nearest: the rounded value is no further from the
    exact one than any representable number below it. *)
Lemma round_near (M : positive) (E : Z) :
  bounded prec emax M E = true ->
  scaled (Zpos M) E <= scaled (Zpos mx) ex ->
  R = S754_infinity s \/
  exists m e, R = S754_finite s m e /\ bounded prec emax m e = true /\
              scaled (Zpos m) e + scaled (Zpos M) E <= 2 * scaled (Zpos mx) ex.
Proof.
  intros HB Hle.
  destruct (binary_round_aux_spec s mx ex Hn) as (m & Hm & Hq & Hnorm & HR).
  fold R in HR.
  set (e' := fexp prec emax (Zpos (digits2_pos mx) + ex)) in *.
  set (q := Zpos mx / 2 ^ (e' - ex)) in *.
  apply bounded_inv in HB as (HE & HM & HMn).
  assert (He' : -1074 <= e') by (unfold e'; rewrite fexp_eq; lia).
  assert (Hp : 0 < 2 ^ (e' - ex)) by (apply pow2_pos; lia).
  assert (Hs : 0 < 2 ^ (ex + bias)) by (apply pow2_pos; lia).
  assert (Hqm : q <= m) by (destruct Hm as [-> | [-> _]]; lia).
  assert (Hdiv : Zpos mx = 2 ^ (e' - ex) * q + Zpos mx mod 2 ^ (e' - ex)).
  { unfold q. apply Z.div_mod. lia. }
  pose proof (Z.mod_pos_bound (Zpos mx) (2 ^ (e' - ex)) Hp) as Hrem.
  assert (HMq : scaled (Zpos M) E <= scaled q e').
  { destruct (Z.le_gt_cases e' E) as [HeE | Hgt].
    - set (K := Zpos M * 2 ^ (E - e')).
      assert (HK : scaled (Zpos M) E = K * 2 ^ (e' - ex) * 2 ^ (ex + bias)).
      { unfold K, scaled. rewrite <- !Z.mul_assoc, <- !Z.pow_add_r by lia.
        do 2 f_equal. lia. }
      assert (HKmx : K * 2 ^ (e' - ex) <= Zpos mx).
      { rewrite HK in Hle. unfold scaled in Hle. nia. }
      assert (HKq : K <= q).
      { unfold q. apply Z.div_le_lower_bound; [lia |]. lia. }
      rewrite HK. replace e' with (ex + (e' - ex)) at 2 by lia.
      rewrite scaled_shift by lia. nia.
    - assert (Hq52 : 2 ^ 52 <= q) by (apply Hnorm; lia).
      replace e' with (E + (e' - E)) by lia.
      rewrite scaled_shift by (unfold bias; lia). unfold scaled.
      assert (0 < 2 ^ (E + bias)) by (apply pow2_pos; unfold bias; lia).
      assert (2 ^ 1 <= 2 ^ (e' - E)) by (apply Z.pow_le_mono_r; lia).
      change (2 ^ 1) with 2 in *. change (2 ^ 53) with (2 ^ 52 * 2) in HM.
      assert (Zpos M <= q * 2 ^ (e' - E)) by nia.
      apply Z.mul_le_mono_nonneg_r; lia. }
  assert (Hq0 : 0 < q).
  { assert (0 < scaled (Zpos M) E).
    { unfold scaled. apply Z.mul_pos_pos; [lia |]. apply pow2_pos. unfold bias; lia. }
    assert (0 < 2 ^ (e' + bias)) by (apply pow2_pos; unfold bias; lia).
    unfold scaled in HMq. nia. }
  assert (Hsub : m < 2 ^ 52 -> e' = -1074).
  { intros Hlt. destruct (Z.eq_dec e' (-1074)); [assumption |].
    specialize (Hnorm n). lia. }
  assert (Hqx : scaled q e' = q * 2 ^ (e' - ex) * 2 ^ (ex + bias)).
  { replace e' with (ex + (e' - ex)) at 1 by lia. apply scaled_shift; lia. }
  assert (Hmx' : scaled m e' = m * 2 ^ (e' - ex) * 2 ^ (ex + bias)).
  { replace e' with (ex + (e' - ex)) at 1 by lia. apply scaled_shift; lia. }
  assert (Hnear : scaled m e' + scaled q e' <= 2 * scaled (Zpos mx) ex).
  { rewrite Hqx, Hmx'. unfold scaled.
    rewrite <- Z.mul_add_distr_r, Z.mul_assoc.
    apply Z.mul_le_mono_nonneg_r; [lia |].
    destruct Hm as [-> | [-> Hhalf]]; nia. }
  destruct (pack_overflow s m e' ltac:(lia) He' Hsub)
    as [(p & e2 & Hp1 & Hp2 & Hp3) | Hinf].
  - right. exists p, e2. rewrite HR, Hp1, Hp3.
    split; [reflexivity | split; [assumption | lia]].
  - left. rewrite HR. exact Hinf.
Qed.
End Bracket.

Lemma sval_finite (m : positive) (e : Z) :
  bounded prec emax m e = true ->
  sval (S754_finite false m e) = Some (scaled (Zpos m) e).
Proof. intros H. simpl. rewrite H. reflexivity. Qed.

Lemma sval_inv (x : number) (v : Z) :
  sval x = Some v ->
  (x = S754_zero false /\ v = 0) \/
  (exists m e, x = S754_finite false m e /\ bounded prec emax m e = true /\
               v = scaled (Zpos m) e /\ 0 < v).
Proof.
  destruct x as [[] | [] | | [] m e]; simpl; try discriminate.
  - intros [= <-]. auto.
  - destruct (bounded prec emax m e) eqn:Hb; [| discriminate].
    intros [= <-]. right. exists m, e. repeat split; auto.
    unfold scaled. apply Z.mul_pos_pos; [lia |].
    apply bounded_inv in Hb. apply pow2_pos. unfold bias. lia.
Qed.

Lemma sval_nonneg (x : number) (v : Z) : sval x = Some v -> 0 <= v.
Proof.
  intros H. destruct (sval_inv x v H) as [[_ ->] | (m & e & _ & _ & _ & Hv)]; lia.
Qed.

Lemma scaled_lt_exp (m1 m2 : positive) (e1 e2 : Z) :
  bounded prec emax m1 e1 = true -> bounded prec emax m2 e2 = true ->
  e1 < e2 -> scaled (Zpos m1) e1 < scaled (Zpos m2) e2.
Proof.
  intros H1 H2 Hlt.
  apply bounded_inv in H1 as (He1 & Hm1 & _).
  apply bounded_inv in H2 as (He2 & _ & Hn2).
  specialize (Hn2 ltac:(lia)).
  replace e2 with (e1 + (e2 - e1)) by lia.
  rewrite scaled_shift by (unfold bias; lia). unfold scaled.
  assert (0 < 2 ^ (e1 + bias)) by (apply pow2_pos; unfold bias; lia).
  assert (2 ^ 1 <= 2 ^ (e2 - e1)) by (apply Z.pow_le_mono_r; lia).
  change (2 ^ 1) with 2 in *. change (2 ^ 53) with (2 ^ 52 * 2) in Hm1.
  assert (Zpos m1 < Zpos m2 * 2 ^ (e2 - e1)) by nia.
  apply Z.mul_lt_mono_pos_r; lia.
Qed.

(** On valid numbers the comparison of the standard library is the order
    of the values. *)
Lemma compare_sval (x y : number) (vx vy : Z) :
  sval x = Some vx -> sval y = Some vy ->
  SFcompare x y = Some (vx ?= vy).
Proof.
  intros Hx Hy.
  destruct (sval_inv x vx Hx) as [[-> ->] | (m1 & e1 & -> & B1 & -> & P1)];
  destruct (sval_inv y vy Hy) as [[-> ->] | (m2 & e2 & -> & B2 & -> & P2)].
  - reflexivity.
  - cbn [SFcompare]. symmetry. f_equal. apply Z.compare_lt_iff. lia.
  - cbn [SFcompare]. symmetry. f_equal. apply Z.compare_gt_iff. lia.
  - cbn [SFcompare]. f_equal. destruct (Z.compare_spec e1 e2) as [Heq | Hlt | Hgt].
    + subst e2. change (Pos.compare_cont Eq m1 m2) with (Pos.compare m1 m2).
      unfold scaled. symmetry.
      assert (0 < 2 ^ (e1 + bias)).
      { apply bounded_inv in B1. apply pow2_pos. unfold bias; lia. }
      destruct (Pos.compare_spec m1 m2) as [-> | Hl | Hg].
      * apply Z.compare_refl.
      * apply Z.compare_lt_iff. apply Z.mul_lt_mono_pos_r; lia.
      * apply Z.compare_gt_iff. apply Z.mul_lt_mono_pos_r; lia.
    + symmetry. apply Z.compare_lt_iff. apply scaled_lt_exp; assumption.
    + symmetry. apply Z.compare_gt_iff. apply scaled_lt_exp; assumption.
Qed.

Lemma gt_sval (x y : number) (vx vy : Z) :
  sval x = Some vx -> sval y = Some vy -> gt x y = (vy <? vx).
Proof.
  intros Hx Hy. unfold gt, SFltb. rewrite (compare_sval y x vy vx Hy Hx).
  unfold Z.ltb. destruct (vy ?= vx); reflexivity.
Qed.

Lemma ge_sval (x y : number) (vx vy : Z) :
  sval x = Some vx -> sval y = Some vy -> ge x y = (vy <=? vx).
Proof.
  intros Hx Hy. unfold ge, SFleb. rewrite (compare_sval y x vy vx Hy Hx).
  unfold Z.leb. destruct (vy ?= vx); reflexivity.
Qed.

(** *** Multiplication by a normal constant *)

Lemma digits2_mul_normal (ma mc : positive) :
  2 ^ 52 <= Zpos mc ->
  Zpos (digits2_pos ma) + 52 <= Zpos (digits2_pos (ma * mc)).
Proof.
  intros Hc.
  pose proof (digits2_bounds ma) as [Alo _].
  pose proof (digits2_bounds (ma * mc)) as [_ Phi].
  set (da := Zpos (digits2_pos ma)) in *.
  set (d := Zpos (digits2_pos (ma * mc))) in *.
  assert (0 < da) by (unfold da; lia).
  destruct (Z.le_gt_cases (da + 52) d) as [| Hgt]; [assumption | exfalso].
  assert (2 ^ d <= 2 ^ (da - 1 + 52)) by (apply Z.pow_le_mono_r; unfold d; lia).
  rewrite Z.pow_add_r in H0 by lia.
  rewrite Pos2Z.inj_mul in Phi. nia.
Qed.

Lemma mul_range (a c lo hi : number) (va vlo vhi : Z) (mc : positive) (ec : Z) :
  sval a = Some va ->
  c = S754_finite false mc ec -> bounded prec emax mc ec = true ->
  2 ^ 52 <= Zpos mc ->
  sval lo = Some vlo -> sval hi = Some vhi ->
  vlo * 2 ^ bias <= va * scaled (Zpos mc) ec <= vhi * 2 ^ bias ->
  exists v, sval (mul a c) = Some v /\ vlo <= v <= vhi.
Proof.
  intros Ha -> Bc Hnorm Hlo Hhi [Hl Hu].
  assert (Hb : 0 < 2 ^ bias) by (apply pow2_pos; unfold bias; lia).
  pose proof (sval_nonneg _ _ Hlo) as Nlo.
  pose proof (sval_nonneg _ _ Hhi) as Nhi.
  destruct (sval_inv a va Ha) as [[-> ->] | (ma & ea & -> & Ba & -> & Pa)].
  { exists 0. split; [reflexivity | nia]. }
  unfold mul, SFmul. simpl xorb.
  pose proof (bounded_inv _ _ Ba) as (Hea & Hma & _).
  pose proof (bounded_inv _ _ Bc) as (Hec & Hmc & _).
  assert (Hex : - bias <= ea + ec) by (unfold bias; lia).
  assert (Hn : ea + ec <= fexp prec emax (Zpos (digits2_pos (ma * mc)) + (ea + ec))).
  { rewrite fexp_eq. pose proof (digits2_mul_normal ma mc Hnorm).
    assert (0 < Zpos (digits2_pos ma)) by lia. lia. }
  assert (Hprod : scaled (Zpos (ma * mc)) (ea + ec) * 2 ^ bias =
                  scaled (Zpos ma) ea * scaled (Zpos mc) ec).
  { unfold scaled. rewrite Pos2Z.inj_mul.
    replace (ea + ec + bias) with ((ea + bias) + (ec + bias) - bias) by lia.
    assert (E : 2 ^ (ea + bias + (ec + bias) - bias) * 2 ^ bias =
                2 ^ (ea + bias) * 2 ^ (ec + bias)).
    { rewrite <- !Z.pow_add_r by (unfold bias; lia). f_equal. lia. }
    rewrite <- Z.mul_assoc, E. ring. }
  set (X := scaled (Zpos (ma * mc)) (ea + ec)) in *.
  assert (HXu : X <= vhi) by nia.
  assert (HXl : vlo <= X) by nia.
  assert (PX : 0 < X).
  { unfold X, scaled. apply Z.mul_pos_pos; [lia | apply pow2_pos; lia]. }
  set (R := binary_round_aux prec emax false (Zpos (ma * mc)) (ea + ec) loc_Exact).
  assert (Hup : exists v, sval R = Some v /\ v <= vhi).
  { destruct (sval_inv hi vhi Hhi) as [[-> ->] | (M & E & -> & BM & -> & PM)]; [lia |].
    destruct (round_below false (ma * mc) (ea + ec) Hex Hn M E BM HXu)
      as [HR | (m & e & HR & Bm & Hle)]; fold R in HR; rewrite HR.
    - exists 0. split; [reflexivity | lia].
    - exists (scaled (Zpos m) e). split; [apply sval_finite; assumption | assumption]. }
  destruct Hup as (v & Hv & Hvhi). exists v. split; [exact Hv | split; [| exact Hvhi]].
  destruct (sval_inv lo vlo Hlo) as [[-> ->] | (M & E & -> & BM & -> & PM)].
  { eapply sval_nonneg; eauto. }
  destruct (round_above false (ma * mc) (ea + ec) Hex Hn M E BM HXl)
    as [HR | (m & e & HR & Bm & Hle)]; fold R in HR; rewrite HR in Hv.
  - discriminate.
  - rewrite sval_finite in Hv by assumption. injection Hv as <-. exact Hle.
Qed.

(** *** Addition *)

Lemma iter_xO_nat (k : nat) (m : positive) :
  Zpos (Nat.iter k xO m) = Zpos m * 2 ^ Z.of_nat k.
Proof.
  induction k as [| k IH].
  - simpl. lia.
  - rewrite Nat2Z.inj_succ, Z.pow_succ_r by lia.
    change (Nat.iter (S k) xO m) with (xO (Nat.iter k xO m)).
    rewrite (Pos2Z.inj_xO (Nat.iter k xO m)), IH. ring.
Qed.

Lemma iter_xO (m : positive) (d : positive) :
  Zpos (Pos.iter xO m d) = Zpos m * 2 ^ Zpos d.
Proof.
  rewrite Pos2Nat.inj_iter, <- (positive_nat_Z d). apply iter_xO_nat.
Qed.

Lemma shl_align_spec (mx : positive) (ex ex' : Z) :
  snd (shl_align mx ex ex') = Z.min ex ex' /\
  Zpos (fst (shl_align mx ex ex')) = Zpos mx * 2 ^ (ex - Z.min ex ex').
Proof.
  unfold shl_align. destruct (ex' - ex) as [| d | d] eqn:Hd; simpl fst; simpl snd.
  - replace (Z.min ex ex') with ex by lia. rewrite Z.sub_diag, Z.pow_0_r. lia.
  - replace (Z.min ex ex') with ex by lia. rewrite Z.sub_diag, Z.pow_0_r. lia.
  - replace (Z.min ex ex') with ex' by lia. rewrite iter_xO.
    split; [reflexivity |]. do 2 f_equal. lia.
Qed.

Lemma scaled_align (mx : positive) (ex ex' : Z) :
  - bias <= Z.min ex ex' ->
  scaled (Zpos (fst (shl_align mx ex ex'))) (snd (shl_align mx ex ex')) =
  scaled (Zpos mx) ex.
Proof.
  intros Hb. destruct (shl_align_spec mx ex ex') as [-> ->].
  unfold scaled. rewrite <- Z.mul_assoc, <- Z.pow_add_r by lia.
  do 2 f_equal. lia.
Qed.

Lemma digits2_shift (m : positive) (k : Z) (p : positive) :
  0 <= k -> Zpos p = Zpos m * 2 ^ k ->
  Zpos (digits2_pos p) = Zpos (digits2_pos m) + k.
Proof.
  intros Hk Hp. apply digits2_unique. rewrite Hp.
  pose proof (digits2_bounds m) as [Dlo Dhi].
  assert (0 < Zpos (digits2_pos m)) by lia.
  assert (0 < 2 ^ k) by (apply pow2_pos; lia).
  replace (Zpos (digits2_pos m) + k - 1) with (Zpos (digits2_pos m) - 1 + k) by lia.
  rewrite !Z.pow_add_r by lia. nia.
Qed.

(** Rounding an exact positive integer-times-power-of-two. *)
Lemma binary_round_range (mx : positive) (ex : Z) (lo hi : number) (vlo vhi : Z) :
  -1074 <= ex ->
  sval lo = Some vlo -> sval hi = Some vhi ->
  vlo <= scaled (Zpos mx) ex <= vhi ->
  exists v, sval (binary_round prec emax false mx ex) = Some v /\ vlo <= v <= vhi.
Proof.
  intros Hex Hlo Hhi [HXl HXu]. unfold binary_round.
  set (e' := fexp prec emax (Zpos (digits2_pos mx) + ex)).
  destruct (shl_align_spec mx ex e') as [Hs Hf].
  pose proof (scaled_align mx ex e') as Hsc.
  destruct (shl_align mx ex e') as [mz ez]. simpl fst in *; simpl snd in *.
  assert (He' : -1074 <= e') by (unfold e'; rewrite fexp_eq; lia).
  rewrite <- Hsc in HXl, HXu by (unfold bias; lia).
  assert (Hb : - bias <= ez) by (unfold bias; lia).
  assert (Hn : ez <= fexp prec emax (Zpos (digits2_pos mz) + ez)).
  { rewrite (digits2_shift mx (ex - Z.min ex e') mz) by (try lia; exact Hf).
    subst ez. replace (Zpos (digits2_pos mx) + (ex - Z.min ex e') + Z.min ex e')
      with (Zpos (digits2_pos mx) + ex) by lia.
    fold e'. lia. }
  set (X := scaled (Zpos mz) ez) in *.
  assert (PX : 0 < X).
  { unfold X, scaled. apply Z.mul_pos_pos; [lia | apply pow2_pos; lia]. }
  set (R := binary_round_aux prec emax false (Zpos mz) ez loc_Exact).
  assert (Hup : exists v, sval R = Some v /\ v <= vhi).
  { destruct (sval_inv hi vhi Hhi) as [[-> ->] | (M & E & -> & BM & -> & PM)]; [lia |].
    destruct (round_below false mz ez Hb Hn M E BM HXu)
      as [HR | (m & e & HR & Bm & Hle)]; fold R in HR; rewrite HR.
    - exists 0. split; [reflexivity | lia].
    - exists (scaled (Zpos m) e). split; [apply sval_finite; assumption | assumption]. }
  destruct Hup as (v & Hv & Hvhi). exists v. split; [exact Hv | split; [| exact Hvhi]].
  destruct (sval_inv lo vlo Hlo) as [[-> ->] | (M & E & -> & BM & -> & PM)].
  { eapply sval_nonneg; eauto. }
  destruct (round_above false mz ez Hb Hn M E BM HXl)
    as [HR | (m & e & HR & Bm & Hle)]; fold R in HR; rewrite HR in Hv.
  - discriminate.
  - rewrite sval_finite in Hv by assumption. injection Hv as <-. exact Hle.
Qed.

Lemma add_range (a b lo hi : number) (va vb vlo vhi : Z) :
  sval a = Some va -> sval b = Some vb ->
  sval lo = Some vlo -> sval hi = Some vhi ->
  vlo <= va + vb <= vhi ->
  exists v, sval (add a b) = Some v /\ vlo <= v <= vhi.
Proof.
  intros Ha Hb Hlo Hhi Hr.
  destruct (sval_inv a va Ha) as [[-> ->] | (ma & ea & -> & Ba & -> & Pa)];
  destruct (sval_inv b vb Hb) as [[-> ->] | (mb & eb & -> & Bb & -> & Pb)].
  - exists 0. split; [reflexivity | lia].
  - exists (scaled (Zpos mb) eb). split; [exact Hb | lia].
  - exists (scaled (Zpos ma) ea). split; [exact Ha | lia].
  - unfold add, SFadd. cbn [cond_Zopp].
    pose proof (bounded_inv _ _ Ba) as (Hea & _).
    pose proof (bounded_inv _ _ Bb) as (Heb & _).
    pose proof (scaled_align ma ea (Z.min ea eb)) as Sa.
    pose proof (scaled_align mb eb (Z.min ea eb)) as Sb.
    destruct (shl_align_spec ma ea (Z.min ea eb)) as [Ea _].
    destruct (shl_align_spec mb eb (Z.min ea eb)) as [Eb _].
    set (pa := fst (shl_align ma ea (Z.min ea eb))) in *.
    set (pb := fst (shl_align mb eb (Z.min ea eb))) in *.
    rewrite Ea in Sa. rewrite Eb in Sb.
    replace (Z.min ea (Z.min ea eb)) with (Z.min ea eb) in Sa by lia.
    replace (Z.min eb (Z.min ea eb)) with (Z.min ea eb) in Sb by lia.
    change (Zpos pa + Zpos pb) with (Zpos (pa + pb)).
    cbn [binary_normalize].
    apply (binary_round_range (pa + pb) (Z.min ea eb) lo hi vlo vhi); try assumption.
    + lia.
    + rewrite Pos2Z.inj_add. unfold scaled in *.
      rewrite Z.mul_add_distr_r, Sa, Sb by (unfold bias; lia). exact Hr.
Qed.

(** *** The numbers of the script *)

Lemma bias_pos : 0 < 2 ^ bias.
Proof. apply pow2_pos. unfold bias. lia. Qed.

Lemma sval_zero : sval (S754_zero false) = Some 0.
Proof. reflexivity. Qed.

(** A draw is a valid number of at most [1 - 2^-53]. *)
Lemma draw_sval (r : number) :
  is_draw r = true ->
  exists v, sval r = Some v /\ 0 <= v <= scaled (2 ^ 53 - 1) (-53).
Proof.
  destruct r as [[] | [] | | [] m e]; cbn [is_draw]; try discriminate.
  - intros _. exists 0. split; [reflexivity |]. unfold scaled.
    assert (0 < 2 ^ (-53 + bias)) by (apply pow2_pos; unfold bias; lia). lia.
  - intros H. apply andb_true_iff in H as [Hb Hlt].
    exists (scaled (Zpos m) e). split; [apply sval_finite; exact Hb |].
    assert (Hone : sval one = Some (scaled (2 ^ 52) (-52))) by reflexivity.
    pose proof (gt_sval one (S754_finite false m e) _ _ Hone (sval_finite m e Hb)) as Hgt.
    unfold gt in Hgt. rewrite Hlt in Hgt. symmetry in Hgt. apply Z.ltb_lt in Hgt.
    pose proof (bounded_inv m e Hb) as (He & Hm & Hn).
    assert (He53 : e <= -53).
    { destruct (Z.le_gt_cases e (-53)) as [| Hgt53]; [assumption | exfalso].
      specialize (Hn ltac:(lia)).
      replace e with (-52 + (e + 52)) in Hgt by lia.
      rewrite scaled_shift in Hgt by (unfold bias; lia). unfold scaled in Hgt.
      assert (0 < 2 ^ (-52 + bias)) by (apply pow2_pos; unfold bias; lia).
      assert (1 <= 2 ^ (e + 52)) by (pose proof (pow2_pos (e + 52)); lia).
      assert (2 ^ 52 <= Zpos m * 2 ^ (e + 52)) by nia.
      nia. }
    unfold scaled. split.
    + apply Z.mul_nonneg_nonneg; [lia |]. apply Z.lt_le_incl, pow2_pos. unfold bias; lia.
    + assert (2 ^ (e + bias) <= 2 ^ (-53 + bias)) by (apply Z.pow_le_mono_r; unfold bias; lia).
      assert (0 < 2 ^ (e + bias)) by (apply pow2_pos; unfold bias; lia).
      apply Z.mul_le_mono_nonneg; lia.
Qed.

(** The rounded product is no further from the exact one than a
    representable number below it. *)
Lemma mul_near (a c : number) (va v : Z) (mc M : positive) (ec E : Z) :
  sval a = Some va ->
  c = S754_finite false mc ec -> bounded prec emax mc ec = true ->
  2 ^ 52 <= Zpos mc ->
  bounded prec emax M E = true ->
  scaled (Zpos M) E * 2 ^ bias <= va * scaled (Zpos mc) ec ->
  sval (mul a c) = Some v ->
  (v + scaled (Zpos M) E) * 2 ^ bias <= 2 * (va * scaled (Zpos mc) ec).
Proof.
  intros Ha -> Bc Hnorm BM Hl Hv.
  assert (Hb : 0 < 2 ^ bias) by (apply pow2_pos; unfold bias; lia).
  assert (PM : 0 < scaled (Zpos M) E).
  { unfold scaled. apply Z.mul_pos_pos; [lia |].
    apply bounded_inv in BM. apply pow2_pos. unfold bias; lia. }
  destruct (sval_inv a va Ha) as [[-> ->] | (ma & ea & -> & Ba & -> & Pa)].
  { nia. }
  unfold mul, SFmul in Hv. simpl xorb in Hv.
  pose proof (bounded_inv _ _ Ba) as (Hea & Hma & _).
  pose proof (bounded_inv _ _ Bc) as (Hec & Hmc & _).
  assert (Hex : - bias <= ea + ec) by (unfold bias; lia).
  assert (Hn : ea + ec <= fexp prec emax (Zpos (digits2_pos (ma * mc)) + (ea + ec))).
  { rewrite fexp_eq. pose proof (digits2_mul_normal ma mc Hnorm).
    assert (0 < Zpos (digits2_pos ma)) by lia. lia. }
  assert (Hprod : scaled (Zpos (ma * mc)) (ea + ec) * 2 ^ bias =
                  scaled (Zpos ma) ea * scaled (Zpos mc) ec).
  { unfold scaled. rewrite Pos2Z.inj_mul.
    replace (ea + ec + bias) with ((ea + bias) + (ec + bias) - bias) by lia.
    assert (E0 : 2 ^ (ea + bias + (ec + bias) - bias) * 2 ^ bias =
                 2 ^ (ea + bias) * 2 ^ (ec + bias)).
    { rewrite <- !Z.pow_add_r by (unfold bias; lia). f_equal. lia. }
    rewrite <- Z.mul_assoc, E0. ring. }
  set (X := scaled (Zpos (ma * mc)) (ea + ec)) in *.
  rewrite <- Hprod in Hl |- *.
  assert (HXl : scaled (Zpos M) E <= X) by nia.
  destruct (round_near false (ma * mc) (ea + ec) Hex Hn M E BM HXl)
    as [HR | (m & e & HR & Bm & Hle)]; rewrite HR in Hv.
  - discriminate.
  - rewrite sval_finite in Hv by assumption. injection Hv as <-. fold X in Hle. nia.
Qed.

(** The largest valid number below a normal one. *)
Lemma below_pred (M m : positive) (E e : Z) :
  bounded prec emax M E = true -> 2 ^ 52 < Zpos M ->
  bounded prec emax m e = true ->
  scaled (Zpos m) e < scaled (Zpos M) E ->
  scaled (Zpos m) e <= scaled (Zpos M - 1) E.
Proof.
  intros BM HM Bm Hlt.
  pose proof (bounded_inv _ _ BM) as (HE & HM53 & _).
  assert (0 < 2 ^ (E + bias)) by (apply pow2_pos; unfold bias; lia).
  destruct (Z.lt_trichotomy e E) as [Hl | [-> | Hg]].
  - assert (B52 : bounded prec emax (2 ^ 52) E = true).
    { apply bounded_intro; change (Zpos (2 ^ 52)) with (2 ^ 52); lia. }
    pose proof (scaled_lt_exp m (2 ^ 52) e E Bm B52 Hl) as H1.
    change (Zpos (2 ^ 52)) with (2 ^ 52) in H1. unfold scaled in *.
    assert (2 ^ 52 * 2 ^ (E + bias) <= (Zpos M - 1) * 2 ^ (E + bias))
      by (apply Z.mul_le_mono_nonneg_r; lia).
    lia.
  - unfold scaled in *. apply Z.mul_le_mono_nonneg_r; [lia |].
    assert (Zpos m < Zpos M) by nia. lia.
  - pose proof (scaled_lt_exp M m E e BM Bm Hg). lia.
Qed.

(** The product of a draw with a normal constant [c] of the script: when
    the largest exact product is nearer to the number just below [c] than
    to [c], every product is at most that number. *)
Lemma draw_times (r c : number) (mc mp : positive) (ec : Z) :
  is_draw r = true ->
  c = S754_finite false mc ec -> bounded prec emax mc ec = true ->
  bounded prec emax mp ec = true -> Zpos mp = Zpos mc - 1 -> 2 ^ 52 <= Zpos mp ->
  2 * (scaled (2 ^ 53 - 1) (-53) * scaled (Zpos mc) ec) <
    (scaled (Zpos mc) ec + scaled (Zpos mp) ec) * 2 ^ bias ->
  exists v, sval (mul r c) = Some v /\ 0 <= v <= scaled (Zpos mp) ec.
Proof.
  intros Hr Hc Bc Bp Hp Np Hmid.
  destruct (draw_sval r Hr) as (va & Ha & Ha0 & Ha1).
  assert (Hb : 0 < 2 ^ bias) by apply bias_pos.
  assert (Pc : 0 < scaled (Zpos mc) ec).
  { unfold scaled. apply Z.mul_pos_pos; [lia |].
    apply bounded_inv in Bc. apply pow2_pos. unfold bias; lia. }
  assert (Hmaxc : va * scaled (Zpos mc) ec <=
                  scaled (2 ^ 53 - 1) (-53) * scaled (Zpos mc) ec)
    by (apply Z.mul_le_mono_nonneg_r; lia).
  assert (Hone : scaled (2 ^ 53 - 1) (-53) <= 2 ^ bias)
    by (apply Z.leb_le; vm_compute; reflexivity).
  assert (Nc : 2 ^ 52 <= Zpos mc) by lia.
  destruct (mul_range r c (S754_zero false) c va 0 (scaled (Zpos mc) ec) mc ec
              Ha Hc Bc Nc sval_zero) as (v & Hv & Hv0 & Hv1).
  { rewrite Hc. apply sval_finite. exact Bc. }
  { split; [rewrite Z.mul_0_l; apply Z.mul_nonneg_nonneg; lia |].
    rewrite (Z.mul_comm (scaled (Zpos mc) ec)).
    apply Z.mul_le_mono_nonneg_r; lia. }
  exists v. split; [exact Hv |]. split; [exact Hv0 |].
  destruct (Z.le_gt_cases (scaled (Zpos mp) ec * 2 ^ bias) (va * scaled (Zpos mc) ec))
    as [Hge | Hlt].
  - pose proof (mul_near r c va v mc mp ec ec Ha Hc Bc Nc Bp Hge Hv) as Hnear.
    assert (Hvc : v < scaled (Zpos mc) ec) by nia.
    destruct (sval_inv _ _ Hv) as [[_ ->] | (m & e & _ & Bm & -> & _)].
    + unfold scaled. apply Z.mul_nonneg_nonneg; [lia |].
      apply Z.lt_le_incl, pow2_pos. apply bounded_inv in Bp. unfold bias; lia.
    + rewrite Hp. apply below_pred; try assumption. lia.
  - destruct (mul_range r c (S754_zero false) (S754_finite false mp ec) va 0
                (scaled (Zpos mp) ec) mc ec Ha Hc Bc Nc sval_zero
                (sval_finite mp ec Bp)) as (v' & Hv' & _ & Hv1').
    { split; [rewrite Z.mul_0_l; apply Z.mul_nonneg_nonneg; lia | lia]. }
    rewrite Hv in Hv'. injection Hv' as <-. exact Hv1'.
Qed.

Ltac by_computation := vm_compute; first [reflexivity | discriminate].

(** [Math.random() * 100] is in [[0, 100)]. *)
Lemma times_100 (r : number) :
  is_draw r = true ->
  exists v, sval (mul r (lit 100)) = Some v /\ 0 <= v < 100 * 2 ^ bias.
Proof.
  intros Hr.
  destruct (draw_times r (lit 100) 7036874417766400 7036874417766399 (-46) Hr)
    as (v & Hv & Hv0 & Hv1); [by_computation .. | |].
  - apply Z.ltb_lt. by_computation.
  - exists v. split; [exact Hv |]. split; [exact Hv0 |].
    eapply Z.le_lt_trans; [exact Hv1 |]. apply Z.ltb_lt. by_computation.
Qed.

(** [Math.random() * 1000] is in [[0, 1000)]. *)
Lemma times_1000 (r : number) :
  is_draw r = true ->
  exists v, sval (mul r (lit 1000)) = Some v /\ 0 <= v < 1000 * 2 ^ bias.
Proof.
  intros Hr.
  destruct (draw_times r (lit 1000) 8796093022208000 8796093022207999 (-43) Hr)
    as (v & Hv & Hv0 & Hv1); [by_computation .. | |].
  - apply Z.ltb_lt. by_computation.
  - exists v. split; [exact Hv |]. split; [exact Hv0 |].
    eapply Z.le_lt_trans; [exact Hv1 |]. apply Z.ltb_lt. by_computation.
Qed.

(** [Math.random() * 10 + 5] is in [[5, 15)]. *)
Lemma times_10_plus_5 (r : number) :
  is_draw r = true ->
  exists v, sval (add (mul r (lit 10)) (lit 5)) = Some v /\
            5 * 2 ^ bias <= v < 15 * 2 ^ bias.
Proof.
  intros Hr.
  destruct (draw_times r (lit 10) 5629499534213120 5629499534213119 (-49) Hr)
    as (v & Hv & Hv0 & Hv1); [by_computation .. | |].
  { apply Z.ltb_lt. by_computation. }
  assert (H5 : sval (lit 5) = Some (5 * 2 ^ bias)) by by_computation.
  assert (H15 : sval (S754_finite false 8444249301319679 (-49)) =
                Some (scaled 8444249301319679 (-49))) by by_computation.
  assert (Hsum : scaled 5629499534213119 (-49) + 5 * 2 ^ bias <=
                 scaled 8444249301319679 (-49))
    by (apply Z.leb_le; by_computation).
  destruct (add_range (mul r (lit 10)) (lit 5) (lit 5) _ _ _ _ _ Hv H5 H5 H15)
    as (u & Hu & Hu1 & Hu2); [lia |].
  exists u. split; [exact Hu |]. split; [exact Hu1 |].
  eapply Z.le_lt_trans; [exact Hu2 |]. apply Z.ltb_lt. by_computation.
Qed.

(** [Math.random() * 30 + 70] is in [[70, 100]]: the sum is rounded, and
    the largest one rounds to 100. *)
Lemma times_30_plus_70 (r : number) :
  is_draw r = true ->
  exists v, sval (add (mul r (lit 30)) (lit 70)) = Some v /\
            70 * 2 ^ bias <= v <= 100 * 2 ^ bias.
Proof.
  intros Hr.
  destruct (draw_times r (lit 30) 8444249301319680 8444249301319679 (-48) Hr)
    as (v & Hv & Hv0 & Hv1); [by_computation .. | |].
  { apply Z.ltb_lt. by_computation. }
  assert (H70 : sval (lit 70) = Some (70 * 2 ^ bias)) by by_computation.
  assert (H100 : sval (lit 100) = Some (100 * 2 ^ bias)) by by_computation.
  assert (Hsum : scaled 8444249301319679 (-48) + 70 * 2 ^ bias <= 100 * 2 ^ bias)
    by (apply Z.leb_le; by_computation).
  apply (add_range (mul r (lit 30)) (lit 70) (lit 70) (lit 100) _ _ _ _ Hv H70 H70 H100).
  lia.
Qed.

(** *** [Math.floor], [toFixed] and [Math.max] on valid numbers *)

Lemma floorZ_scaled (m : positive) (e : Z) :
  - bias <= e -> floorZ false m e = scaled (Zpos m) e / 2 ^ bias.
Proof.
  intros He. unfold floorZ, scaled. cbn [cond_Zopp].
  destruct (Z.le_gt_cases 0 e) as [Hpos | Hneg].
  - rewrite Z.shiftl_mul_pow2 by lia.
    replace (e + bias) with (bias + e) by lia.
    rewrite Z.pow_add_r by (unfold bias; lia).
    replace (Zpos m * (2 ^ bias * 2 ^ e)) with (Zpos m * 2 ^ e * 2 ^ bias) by ring.
    rewrite Z.div_mul by (pose proof bias_pos; lia). reflexivity.
  - rewrite Z.shiftl_div_pow2 by lia.
    replace (2 ^ bias) with (2 ^ (- e) * 2 ^ (e + bias)).
    + rewrite Z.div_mul_cancel_r; [reflexivity | |].
      * pose proof (pow2_pos (- e)). lia.
      * pose proof (pow2_pos (e + bias)). lia.
    + rewrite <- Z.pow_add_r by lia. f_equal. lia.
Qed.

(** Below [2^52] a valid number has a negative exponent. *)
Lemma small_exponent (m : positive) (e : Z) :
  bounded prec emax m e = true ->
  scaled (Zpos m) e < 2 ^ 52 * 2 ^ bias -> e < 0.
Proof.
  intros Hb Hlt. pose proof (bounded_inv m e Hb) as (He & Hm & Hn).
  destruct (Z.lt_ge_cases e 0) as [| Hge]; [assumption | exfalso].
  specialize (Hn ltac:(lia)). unfold scaled in Hlt.
  rewrite Z.pow_add_r in Hlt by (unfold bias; lia).
  pose proof bias_pos. pose proof (pow2_pos e Hge).
  assert (2 ^ 52 * 2 ^ bias <= Zpos m * (2 ^ e * 2 ^ bias)); [| lia].
  apply Z.mul_le_mono_nonneg; try lia. nia.
Qed.

Lemma floor_sval (x : number) (v : Z) :
  sval x = Some v -> v < 2 ^ 52 * 2 ^ bias ->
  Math_floor x = lit (v / 2 ^ bias).
Proof.
  intros Hx Hlt.
  destruct (sval_inv x v Hx) as [[-> ->] | (m & e & -> & Hb & -> & Hp)].
  - reflexivity.
  - pose proof (small_exponent m e Hb Hlt) as He.
    pose proof (bounded_inv m e Hb) as (Hee & _).
    cbn [Math_floor]. destruct (Z.leb_spec 0 e) as [|_]; [lia |].
    rewrite floorZ_scaled by (unfold bias; lia). reflexivity.
Qed.

Lemma toFixed_range (x : number) (v f lo hi : Z) :
  sval x = Some v -> 0 <= f ->
  lo * 2 ^ bias <= v * 10 ^ f <= hi * 2 ^ bias -> hi < 10 ^ 21 ->
  exists n, toFixed x f = Fixed false n f /\ lo <= n <= hi.
Proof.
  intros Hx Hf [Hlo Hhi] Hbig.
  pose proof bias_pos as Hb.
  assert (H10 : 0 < 10 ^ f) by (apply Z.pow_pos_nonneg; lia).
  destruct (sval_inv x v Hx) as [[-> ->] | (m & e & -> & Bm & -> & Hp)].
  - exists 0. split; [reflexivity | nia].
  - pose proof (bounded_inv m e Bm) as (He & _).
    cbn [toFixed].
    assert (Hfl : floorZ false m e <= hi).
    { rewrite floorZ_scaled by (unfold bias; lia).
      apply Z.div_le_upper_bound; [lia |].
      assert (scaled (Zpos m) e * 1 <= scaled (Zpos m) e * 10 ^ f)
        by (apply Z.mul_le_mono_nonneg_l; lia).
      lia. }
    destruct (Z.leb_spec (10 ^ 21) (floorZ false m e)) as [Hge | _]; [lia |].
    eexists. split; [reflexivity |].
    unfold nearest_scaled, scaled in *.
    destruct (Z.leb_spec 0 e) as [Hpos | Hneg].
    + rewrite Z.pow_add_r in Hlo, Hhi by (unfold bias; lia).
      assert (0 < 2 ^ e) by (apply pow2_pos; lia).
      split; nia.
    + assert (Hs : 0 < 2 ^ (e + bias)) by (apply pow2_pos; unfold bias; lia).
      assert (Hq : 0 < 2 ^ (- e)) by (apply pow2_pos; lia).
      assert (Hsplit : 2 ^ bias = 2 ^ (- e) * 2 ^ (e + bias)).
      { rewrite <- Z.pow_add_r by (unfold bias; lia). f_equal. lia. }
      rewrite Hsplit in Hlo, Hhi.
      assert (Hl : lo * 2 ^ (- e) <= Zpos m * 10 ^ f) by nia.
      assert (Hh : Zpos m * 10 ^ f <= hi * 2 ^ (- e)) by nia.
      replace (2 ^ (1 - e)) with (2 * 2 ^ (- e)).
      2:{ replace (1 - e) with (1 + - e) by lia. rewrite Z.pow_add_r by lia. reflexivity. }
      split.
      * apply Z.div_le_lower_bound; [lia |]. nia.
      * apply Z.lt_succ_r. apply Z.div_lt_upper_bound; [lia |]. nia.
Qed.

Lemma max_step_sval (h x : number) (vh vx : Z) :
  sval h = Some vh -> sval x = Some vx ->
  sval (max_step h x) = Some (Z.max vh vx).
Proof.
  intros Hh Hx.
  assert (E : max_step h x = if gt x h then x else h).
  { destruct (sval_inv h vh Hh) as [[-> _] | (m1 & e1 & -> & _)];
    destruct (sval_inv x vx Hx) as [[-> _] | (m2 & e2 & -> & _)]; reflexivity. }
  rewrite E, (gt_sval x h vx vh Hx Hh).
  destruct (Z.ltb_spec vh vx).
  - rewrite Hx. f_equal. lia.
  - rewrite Hh. f_equal. lia.
Qed.

(** [Math.max] of three valid numbers is the greatest of them. *)
Lemma Math_max_sval (a b c : number) (va vb vc : Z) :
  sval a = Some va -> sval b = Some vb -> sval c = Some vc ->
  sval (Math_max [a; b; c]) = Some (Z.max (Z.max va vb) vc).
Proof.
  intros Ha Hb Hc. unfold Math_max. cbn [fold_left].
  assert (E : max_step (S754_infinity true) a = a).
  { destruct (sval_inv a va Ha) as [[-> _] | (m & e & -> & _)]; reflexivity. }
  rewrite E.
  apply max_step_sval; [apply max_step_sval |]; assumption.
Qed.

End Rounding.

(* ================================================================== *)
(** ** The functions of the script, run *)
(* ================================================================== *)

Module Runs.
Import JS Rounding Monitor.

(** *** Running the functions of the script *)

Lemma emit_emit (n1 n2 : nat) (l1 l2 : list line) (w : world) :
  emit n2 l2 (emit n1 l1 w) = emit (n1 + n2) (l1 ++ l2) w.
Proof.
  unfold emit, set_stdout, set_drawn. cbn.
  rewrite map_app, app_assoc, Nat.add_assoc. reflexivity.
Qed.

Lemma emit_nothing (w : world) : emit 0 [] w = w.
Proof.
  destruct w. unfold emit, set_stdout, set_drawn. cbn.
  rewrite app_nil_r, Nat.add_0_r. reflexivity.
Qed.

Lemma run_console_log (l : line) (w : world) :
  console_log l w = (Normal tt, emit 0 [l] w).
Proof.
  destruct w. unfold console_log, emit, set_stdout, set_drawn. cbn.
  rewrite Nat.add_0_r. reflexivity.
Qed.

Lemma run_Math_random (w : world) :
  Math_random w = (Normal (entropy w (drawn w)), emit 1 [] w).
Proof.
  destruct w. unfold Math_random, emit, set_stdout, set_drawn. cbn.
  rewrite app_nil_r, Nat.add_1_r. reflexivity.
Qed.

Lemma run_bind {A B : Type} (c : M A) (k : A -> M B) (w w1 : world) (a : A) :
  c w = (Normal a, w1) -> bind c k w = k a w1.
Proof. intros H. unfold bind. rewrite H. reflexivity. Qed.

Lemma run_config_get {A : Type} (name : string) (p : object -> option A)
    (w : world) (o : object) :
  config w = Obj o -> config_get name p w = (Normal (p o), w).
Proof. intros H. unfold config_get. rewrite H. reflexivity. Qed.

Lemma run_monitorBasicHealth (w : world) (o : object) :
  config w = Obj o ->
  monitorBasicHealth w = (Normal tt, emit 0 (basic_lines (now w) (debugMode o)) w).
Proof.
  intros Hc. unfold monitorBasicHealth, basic_lines.
  unfold bind at 1. cbn [Date_now].
  repeat (rewrite (run_bind _ _ _ _ _ (run_console_log _ _))).
  erewrite run_bind by (apply run_config_get; exact Hc).
  destruct (truthy (debugMode o)).
  - repeat (erewrite run_bind by (repeat (erewrite run_bind by apply run_console_log); apply run_console_log)).
    rewrite run_console_log. rewrite !emit_emit. reflexivity.
  - erewrite run_bind by reflexivity.
    rewrite run_console_log. rewrite !emit_emit. reflexivity.
Qed.

Ltac step :=
  first
    [ erewrite run_bind by apply run_console_log
    | erewrite run_bind by apply run_Math_random
    | erewrite run_bind by (apply run_config_get; eassumption)
    | erewrite run_bind by reflexivity ].

Lemma emit_drawn (n : nat) (ls : list line) (w : world) :
  drawn (emit n ls w) = (drawn w + n)%nat.
Proof. reflexivity. Qed.

Lemma emit_entropy (n : nat) (ls : list line) (w : world) :
  entropy (emit n ls w) = entropy w.
Proof. reflexivity. Qed.

Lemma emit_config (n : nat) (ls : list line) (w : world) :
  config (emit n ls w) = config w.
Proof. reflexivity. Qed.

Lemma run_predictFutureMetrics (w : world) (o : object) :
  config w = Obj o ->
  predictFutureMetrics w =
    (Normal tt,
     emit 4 (forecast_lines (alertThreshold o)
               (prediction_of (entropy w (drawn w)) (entropy w (drawn w + 1)%nat)
                              (entropy w (drawn w + 2)%nat) (entropy w (drawn w + 3)%nat)))
          w).
Proof.
  intros Hc. unfold predictFutureMetrics, forecast_lines.
  do 6 step. cbv zeta. do 3 step.
  erewrite run_bind by (apply run_config_get; rewrite !emit_config; exact Hc).
  rewrite !emit_emit, !emit_drawn, !emit_entropy. cbn [Nat.add app].
  rewrite Nat.add_0_r.
  unfold prediction_of. cbn [cpu memory traffic confidence].
  destruct (exceeds _ _).
  - rewrite run_console_log, emit_emit. reflexivity.
  - unfold ret. rewrite <- (emit_nothing (emit _ _ w)) at 1. rewrite emit_emit.
    rewrite app_nil_r. reflexivity.
Qed.

Lemma run_cloudStatus (cloud : string) (w : world) :
  cloudStatus cloud w =
    (Normal tt,
     emit 3 (provider_lines
               (status_of cloud (entropy w (drawn w)) (entropy w (drawn w + 1)%nat)
                          (entropy w (drawn w + 2)%nat)))
          w).
Proof.
  unfold cloudStatus, provider_lines, status_of.
  cbn [provider instanceCount loadPct healthy].
  do 6 step. rewrite run_console_log.
  rewrite !emit_emit, !emit_drawn, !emit_entropy. cbn [Nat.add app].
  rewrite Nat.add_0_r. reflexivity.
Qed.

Lemma run_forEach_cloudStatus (clouds : list string) (w : world) :
  forEach clouds cloudStatus w =
    (Normal tt,
     emit (3 * List.length clouds)
          (flat_map provider_lines (statuses (entropy w) (drawn w) clouds)) w).
Proof.
  revert w. induction clouds as [| cloud rest IH]; intros w.
  - cbn. unfold ret. rewrite emit_nothing. reflexivity.
  - cbn [forEach statuses flat_map List.length].
    erewrite run_bind by apply run_cloudStatus.
    rewrite IH, emit_emit, emit_drawn, emit_entropy.
    f_equal. f_equal. lia.
Qed.

Lemma run_get_cloudProviders (method : string) (w : world) (o : object)
    (clouds : list string) :
  config w = Obj o -> cloudProviders o = Some clouds ->
  get_cloudProviders method w = (Normal clouds, w).
Proof.
  intros Hc Hl. unfold get_cloudProviders.
  erewrite run_bind by (apply run_config_get; exact Hc).
  rewrite Hl. reflexivity.
Qed.

Lemma run_monitorAIHealth (w : world) (o : object) (clouds : list string) :
  config w = Obj o -> cloudProviders o = Some clouds ->
  monitorAIHealth w =
    (Normal tt,
     emit (3 * List.length clouds + 7)
          (ai_lines (now w) o clouds (entropy w) (drawn w)) w).
Proof.
  intros Hc Hl. unfold monitorAIHealth, ai_lines, ai_header_lines.
  unfold bind at 1. cbn [Date_now].
  do 2 step.
  erewrite run_bind by (apply run_config_get; rewrite !emit_config; exact Hc).
  step.
  erewrite run_bind by (apply run_config_get; rewrite !emit_config; exact Hc).
  step.
  erewrite run_bind by (eapply run_get_cloudProviders; [rewrite !emit_config; exact Hc | exact Hl]).
  step.
  erewrite run_bind by (eapply run_get_cloudProviders; [rewrite !emit_config; exact Hc | exact Hl]).
  erewrite run_bind by apply run_forEach_cloudStatus.
  do 3 step. cbv zeta. do 4 step.
  erewrite run_bind by (apply run_config_get; rewrite !emit_config; exact Hc).
  rewrite !emit_emit, !emit_drawn, !emit_entropy.
  cbn [Nat.add app]. rewrite !Nat.add_0_r, !app_nil_r, !Nat.add_assoc.
  unfold evaluation_lines, maxUsage, tick_sample, sample_of, usage_lines.
  cbn [cpuPct memoryPct diskPct].
  replace (drawn w + 3 * List.length clouds + 1 + 1)%nat
    with (drawn w + 3 * List.length clouds + 2)%nat by lia.
  set (mx := Math_max _).
  assert (Hp : forall w1 ls n,
             w1 = emit n ls w -> (n = 3 * List.length clouds + 3)%nat ->
             predictFutureMetrics w1 =
               (Normal tt,
                emit 4 (forecast_lines (alertThreshold o)
                          (tick_prediction (entropy w) (drawn w) (List.length clouds)))
                     w1)).
  { intros w1 ls n -> ->.
    rewrite (run_predictFutureMetrics _ o) by (rewrite emit_config; exact Hc).
    rewrite emit_drawn, emit_entropy. unfold tick_prediction.
    do 3 f_equal. f_equal; f_equal; lia. }
  destruct (exceeds mx (alertThreshold o)).
  - erewrite run_bind
      by (erewrite run_bind by apply run_console_log; apply run_console_log).
    rewrite !emit_emit.
    erewrite Hp; [| reflexivity | lia].
    rewrite emit_emit. f_equal. f_equal; [lia |].
    cbn [app]. rewrite <- !app_assoc. reflexivity.
  - step. rewrite !emit_emit.
    erewrite Hp; [| reflexivity | lia].
    rewrite emit_emit. f_equal. f_equal; [lia |].
    cbn [app]. rewrite <- !app_assoc. reflexivity.
Qed.

Lemma run_retrain (w : world) : retrain w = (Normal tt, emit 0 retrain_lines w).
Proof.
  unfold retrain, retrain_lines. do 2 step. rewrite run_console_log.
  rewrite !emit_emit. reflexivity.
Qed.

Lemma run_checkSystemHealth_basic (w : world) (o : object) :
  AI_MODE w = false -> config w = Obj o ->
  checkSystemHealth w = (Normal tt, emit 0 (basic_lines (now w) (debugMode o)) w).
Proof.
  intros Hai Hc. unfold checkSystemHealth, bind, get_AI_MODE. rewrite Hai.
  apply run_monitorBasicHealth. exact Hc.
Qed.

Lemma run_checkSystemHealth_ai (w : world) (o : object) (clouds : list string) :
  AI_MODE w = true -> config w = Obj o -> cloudProviders o = Some clouds ->
  checkSystemHealth w =
    (Normal tt,
     emit (3 * List.length clouds + 7)
          (ai_lines (now w) o clouds (entropy w) (drawn w)) w).
Proof.
  intros Hai Hc Hl. unfold checkSystemHealth, bind, get_AI_MODE. rewrite Hai.
  apply run_monitorAIHealth; assumption.
Qed.

Lemma run_setInterval (h : handler) (delay : option Z) (w : world) :
  setInterval h delay w =
    (Normal tt,
     arm {| callback := h; period := timer_period delay;
            due := now w + timer_period delay |} w).
Proof. reflexivity. Qed.

Lemma arm_emit (t : timer) (n : nat) (ls : list line) (w : world) :
  emit n ls (arm t w) = arm t (emit n ls w).
Proof. reflexivity. Qed.

Lemma run_main_undefined (w : world) :
  config w = Undefined ->
  main w =
    (Throw (reading "interval"),
     emit 0 [Rule; Title; EnvironmentLine (ENV w); AIModeLine (AI_MODE w); Rule] w).
Proof.
  intros Hc. unfold main. do 2 step.
  unfold bind at 1. cbn [get_ENV]. step.
  unfold bind at 1. cbn [get_AI_MODE]. do 2 step.
  rewrite !emit_emit. unfold bind, config_get. cbn [config emit set_stdout set_drawn].
  rewrite Hc. reflexivity.
Qed.

Lemma run_main_basic (w : world) (o : object) :
  AI_MODE w = false -> config w = Obj o ->
  main w =
    (Normal tt,
     arm (health_timer (now w) (interval o))
       (emit 0 (banner_lines (ENV w) false (interval o) ++
                basic_lines (now w) (debugMode o)) w)).
Proof.
  intros Hai Hc. unfold main, banner_lines. do 2 step.
  unfold bind at 1. cbn [get_ENV]. step.
  unfold bind at 1. cbn [get_AI_MODE]. do 2 step.
  erewrite run_bind by (apply run_config_get; rewrite !emit_config; exact Hc).
  step.
  erewrite run_bind by (apply run_config_get; rewrite !emit_config; exact Hc).
  erewrite run_bind by apply run_setInterval.
  erewrite run_bind by (apply (run_checkSystemHealth_basic _ o); [exact Hai | exact Hc]).
  unfold bind, get_AI_MODE. cbn [AI_MODE emit arm set_stdout set_drawn set_timers].
  rewrite Hai. unfold ret.
  rewrite !arm_emit, !emit_emit. cbn [ENV AI_MODE emit arm set_stdout set_drawn set_timers now].
  reflexivity.
Qed.

Lemma run_main_ai (w : world) (o : object) (clouds : list string) :
  AI_MODE w = true -> config w = Obj o -> cloudProviders o = Some clouds ->
  main w =
    (Normal tt,
     (if truthy (aiEnabled o) then arm (retrain_timer (now w)) else fun w' => w')
       (arm (health_timer (now w) (interval o))
          (emit (3 * List.length clouds + 7)
                (banner_lines (ENV w) true (interval o) ++
                 ai_lines (now w) o clouds (entropy w) (drawn w)) w))).
Proof.
  intros Hai Hc Hl. unfold main, banner_lines. do 2 step.
  unfold bind at 1. cbn [get_ENV]. step.
  unfold bind at 1. cbn [get_AI_MODE]. do 2 step.
  erewrite run_bind by (apply run_config_get; rewrite !emit_config; exact Hc).
  step.
  erewrite run_bind by (apply run_config_get; rewrite !emit_config; exact Hc).
  erewrite run_bind by apply run_setInterval.
  erewrite run_bind
    by (apply (run_checkSystemHealth_ai _ o clouds); [exact Hai | exact Hc | exact Hl]).
  unfold bind at 1. cbn [get_AI_MODE].
  cbn [AI_MODE emit arm set_stdout set_drawn set_timers].
  rewrite Hai.
  erewrite run_bind by (apply run_config_get; exact Hc).
  rewrite !arm_emit, !emit_emit.
  cbn [ENV AI_MODE drawn entropy emit arm set_stdout set_drawn set_timers now].
  rewrite ?Hai, ?Nat.add_0_r.
  destruct (truthy (aiEnabled o)); reflexivity.
Qed.

(** *** What the calls leave alone *)

Section Preservation.
Context {F : Type} (f : world -> F).
Hypothesis f_emit : forall n ls w, f (emit n ls w) = f w.

Lemma preserves_bind {A B : Type} (c : M A) (k : A -> M B) :
  preserves f c -> (forall a, preserves f (k a)) -> preserves f (bind c k).
Proof.
  intros Hc Hk w. unfold bind. specialize (Hc w).
  destruct (c w) as [[a | e] w1]; cbn [snd] in *.
  - rewrite Hk. exact Hc.
  - exact Hc.
Qed.

Lemma preserves_ret {A : Type} (a : A) : preserves f (ret a).
Proof. intros w. reflexivity. Qed.

Lemma preserves_throw {A : Type} (e : exn) : preserves f (@throw A e).
Proof. intros w. reflexivity. Qed.

Lemma preserves_if {A : Type} (b : bool) (c1 c2 : M A) :
  preserves f c1 -> preserves f c2 -> preserves f (if b then c1 else c2).
Proof. destruct b; auto. Qed.

Lemma preserves_console_log (l : line) : preserves f (console_log l).
Proof. intros w. rewrite run_console_log. apply f_emit. Qed.

Lemma preserves_Math_random : preserves f Math_random.
Proof. intros w. rewrite run_Math_random. apply f_emit. Qed.

Lemma preserves_Date_now : preserves f Date_now.
Proof. intros w. reflexivity. Qed.

Lemma preserves_get_AI_MODE : preserves f get_AI_MODE.
Proof. intros w. reflexivity. Qed.

Lemma preserves_get_ENV : preserves f get_ENV.
Proof. intros w. reflexivity. Qed.

Lemma preserves_config_get {A : Type} (name : string) (p : object -> option A) :
  preserves f (config_get name p).
Proof. intros w. unfold config_get. destruct (config w); reflexivity. Qed.

Lemma preserves_forEach {A : Type} (l : list A) (g : A -> M unit) :
  (forall x, preserves f (g x)) -> preserves f (forEach l g).
Proof.
  intros Hg. induction l as [| x rest IH]; cbn [forEach].
  - apply preserves_ret.
  - apply preserves_bind; [apply Hg | intros _; exact IH].
Qed.

Ltac preserved_by extra :=
  repeat first
    [ extra
    | apply preserves_console_log
    | apply preserves_Math_random
    | apply preserves_Date_now
    | apply preserves_get_AI_MODE
    | apply preserves_get_ENV
    | apply preserves_config_get
    | apply preserves_ret
    | apply preserves_throw
    | apply preserves_if
    | apply preserves_bind; [| intros ? ] ].

Ltac preserved := preserved_by fail.

Lemma preserves_monitorBasicHealth : preserves f monitorBasicHealth.
Proof. unfold monitorBasicHealth. preserved. Qed.

Lemma preserves_predictFutureMetrics : preserves f predictFutureMetrics.
Proof. unfold predictFutureMetrics. preserved. Qed.

Lemma preserves_cloudStatus (cloud : string) : preserves f (cloudStatus cloud).
Proof. unfold cloudStatus. preserved. Qed.

Lemma preserves_get_cloudProviders (method : string) :
  preserves f (get_cloudProviders method).
Proof.
  unfold get_cloudProviders. apply preserves_bind; [preserved |].
  intros [l |]; preserved.
Qed.

Lemma preserves_monitorAIHealth : preserves f monitorAIHealth.
Proof.
  unfold monitorAIHealth.
  preserved_by
    ltac:(first
      [ apply preserves_get_cloudProviders
      | apply preserves_predictFutureMetrics
      | apply preserves_forEach; intros ?; apply preserves_cloudStatus ]).
Qed.

Lemma preserves_checkSystemHealth : preserves f checkSystemHealth.
Proof.
  unfold checkSystemHealth. apply preserves_bind; [preserved |].
  intros []; [apply preserves_monitorAIHealth | apply preserves_monitorBasicHealth].
Qed.

Lemma preserves_retrain : preserves f retrain.
Proof. unfold retrain. preserved. Qed.

Lemma preserves_run_handler (h : handler) : preserves f (run_handler h).
Proof. destruct h; [apply preserves_checkSystemHealth | apply preserves_retrain]. Qed.

(** With the timers and the clock left out of [f] as well, the whole
    process preserves it. *)
Hypothesis f_timers : forall l w, f (set_timers l w) = f w.
Hypothesis f_now : forall t w, f (set_now t w) = f w.

Lemma preserves_setInterval (h : handler) (delay : option Z) :
  preserves f (setInterval h delay).
Proof. intros w. cbn. apply f_timers. Qed.

Lemma preserves_main : preserves f main.
Proof.
  unfold main.
  preserved_by
    ltac:(first [apply preserves_setInterval | apply preserves_checkSystemHealth]).
Qed.

Lemma preserves_fire (i : nat) (t : timer) : preserves f (fire i t).
Proof.
  intros w. unfold fire.
  pose proof (preserves_run_handler (callback t) (set_now (due t) w)) as H.
  destruct (run_handler (callback t) (set_now (due t) w)) as [[[] | e] w1];
    cbn [snd] in *.
  - rewrite f_timers, H. apply f_now.
  - rewrite H. apply f_now.
Qed.

Lemma preserves_event_loop (fuel : nat) (horizon : Z) :
  preserves f (event_loop fuel horizon).
Proof.
  induction fuel as [| fuel IH]; cbn [event_loop].
  - apply preserves_ret.
  - intros w. destruct (earliest (timers w)) as [[i t] |]; [| reflexivity].
    destruct (due t <=? horizon); [| reflexivity].
    apply (preserves_bind (fire i t) (fun _ => event_loop fuel horizon)).
    + apply preserves_fire.
    + intros _. exact IH.
Qed.

End Preservation.

Lemma globals_run (e : environment) (source : nat -> number) (t0 : Z)
    (fuel : nat) (horizon : Z) :
  globals (snd (run e source t0 fuel horizon)) =
    (select_ENV e, select_AI_MODE e, select_config e, source).
Proof.
  assert (H : preserves globals (main ;; event_loop fuel horizon)).
  { apply (preserves_bind globals).
    - apply preserves_main; intros; reflexivity.
    - intros _. apply preserves_event_loop; intros; reflexivity. }
  exact (H (startup e source t0)).
Qed.

(** *** The lines of a tick, by kind *)

Lemma times_of_emit (p : line -> bool) (n : nat) (ls : list line) (w : world) :
  times_of p (emit n ls w) = times_of p w ++ map (fun _ => now w) (filter p ls).
Proof.
  unfold times_of, emit. cbn [stdout set_stdout set_drawn now].
  rewrite filter_app, map_app. f_equal.
  induction ls as [| l ls IH]; [reflexivity |].
  cbn [map filter snd]. destruct (p l); cbn [map fst]; rewrite IH; reflexivity.
Qed.

Lemma printed_emit (n : nat) (ls : list line) (w : world) :
  printed (emit n ls w) = printed w ++ ls.
Proof.
  unfold printed, emit. cbn [stdout set_stdout set_drawn].
  rewrite map_app, map_map. cbn [snd]. rewrite map_id. reflexivity.
Qed.

Lemma output_of_emit (c : M unit) (n : nat) (ls : list line) (w : world)
    (r : completion unit) :
  c w = (r, emit n ls w) -> output_of c w = ls.
Proof.
  intros H. unfold output_of. rewrite H. cbn [snd]. rewrite printed_emit.
  unfold printed.
  rewrite <- (length_map snd (stdout w)), skipn_app, skipn_all, Nat.sub_diag.
  reflexivity.
Qed.

Lemma filter_flat_provider_lines (p : line -> bool) (l : list provider_status) :
  (forall st, filter p (provider_lines st) = []) ->
  filter p (flat_map provider_lines l) = [].
Proof.
  intros Hp. induction l as [| st l IH]; [reflexivity |].
  cbn [flat_map]. rewrite filter_app, Hp, IH. reflexivity.
Qed.

Lemma ticks_of_basic_lines (ts : Z) (d : option bool) :
  filter is_tick (basic_lines ts d) = [BasicHeader ts] /\
  filter is_retraining (basic_lines ts d) = [].
Proof. unfold basic_lines. destruct (truthy d); split; reflexivity. Qed.

Lemma ticks_of_ai_lines (ts : Z) (o : object) (clouds : list string)
    (source : nat -> number) (d : nat) :
  filter is_tick (ai_lines ts o clouds source d) = [AIHeader ts] /\
  filter is_retraining (ai_lines ts o clouds source d) = [].
Proof.
  unfold ai_lines, evaluation_lines, forecast_lines.
  rewrite !filter_app.
  rewrite !filter_flat_provider_lines by reflexivity.
  split; destruct (exceeds _ _); destruct (exceeds _ _); reflexivity.
Qed.

Lemma multiples_succ (start period : Z) (n : nat) :
  multiples start period (S n) =
  multiples start period n ++ [start + Z.of_nat (S n) * period].
Proof. unfold multiples. rewrite seq_S, map_app. reflexivity. Qed.

Lemma timer_period_pos (delay : option Z) : 1 <= timer_period delay.
Proof.
  unfold timer_period. destruct delay as [d |]; [| lia].
  destruct (Z.leb_spec 1 d); cbn [andb]; [| lia].
  destruct (Z.leb_spec d 2147483647); lia.
Qed.

Lemma due_within (start period horizon : Z) (a : nat) :
  0 < period -> start <= horizon ->
  (start + Z.of_nat (S a) * period <= horizon <->
   (a < periods_within start period horizon)%nat).
Proof.
  intros Hp Hh. unfold periods_within.
  assert (H0 : 0 <= (horizon - start) / period) by (apply Z.div_pos; lia).
  split.
  - intros Hd.
    assert (Z.of_nat (S a) <= (horizon - start) / period)
      by (apply Z.div_le_lower_bound; lia).
    lia.
  - intros Ha.
    assert (Z.of_nat (S a) <= (horizon - start) / period) by lia.
    pose proof (Z.mul_div_le (horizon - start) period Hp).
    nia.
Qed.

End Runs.

(* ================================================================== *)
(** ** The event loop *)
(* ================================================================== *)

Module Scheduler.
Import JS Rounding Monitor Runs.

(** *** The two timers *)

Section Schedule.
Variables (o : object) (ai : bool) (t0 horizon : Z).
Hypothesis Hclouds : ai = true -> exists clouds, cloudProviders o = Some clouds.
Hypothesis Hhorizon : t0 <= horizon.

Lemma fire_health (a b : nat) (w : world) (t : timer) :
  ticking o ai t0 a b w ->
  t = {| callback := HealthCheck; period := timer_period (interval o);
         due := t0 + Z.of_nat (S a) * timer_period (interval o) |} ->
  exists w', fire 0 t w = (Normal tt, w') /\ ticking o ai t0 (S a) b w'.
Proof.
  intros [Hm Hc Ht Hk Hr] ->. unfold fire. cbn [callback due run_handler].
  set (hd := t0 + Z.of_nat (S a) * timer_period (interval o)).
  assert (Hrun : exists n ls,
             checkSystemHealth (set_now hd w) = (Normal tt, emit n ls (set_now hd w)) /\
             (exists l, filter is_tick ls = [l]) /\ filter is_retraining ls = []).
  { destruct ai eqn:Eai.
    - destruct (Hclouds eq_refl) as (clouds & Hl).
      eexists _, _. split.
      + apply (run_checkSystemHealth_ai _ o clouds); [exact Hm | exact Hc | exact Hl].
      + destruct (ticks_of_ai_lines hd o clouds (entropy w) (drawn w)) as [H1 H2].
        split; [eexists; exact H1 | exact H2].
    - eexists _, _. split.
      + apply (run_checkSystemHealth_basic _ o); [exact Hm | exact Hc].
      + destruct (ticks_of_basic_lines hd (debugMode o)) as [H1 H2].
        split; [eexists; exact H1 | exact H2]. }
  destruct Hrun as (n & ls & Hrun & [l Htick] & Hret).
  rewrite Hrun. eexists. split; [reflexivity |].
  split; cbn [AI_MODE config timers set_timers emit set_stdout set_drawn set_now];
    try assumption.
  - rewrite Ht. unfold schedule. cbn [rearm callback period due]. f_equal.
    f_equal. fold hd. unfold hd. rewrite !Nat2Z.inj_succ. lia.
  - change (times_of is_tick (set_timers ?l ?w)) with (times_of is_tick w).
    rewrite times_of_emit, Htick.
    change (times_of is_tick (set_now hd w)) with (times_of is_tick w).
    rewrite Hk, multiples_succ. reflexivity.
  - change (times_of is_retraining (set_timers ?l ?w)) with (times_of is_retraining w).
    rewrite times_of_emit, Hret, app_nil_r.
    change (times_of is_retraining (set_now hd w)) with (times_of is_retraining w).
    exact Hr.
Qed.

Lemma fire_retrain (a b : nat) (w : world) (t : timer) :
  ticking o ai t0 a b w -> ai && truthy (aiEnabled o) = true ->
  t = {| callback := Retrain; period := 120000;
         due := t0 + Z.of_nat (S b) * 120000 |} ->
  exists w', fire 1 t w = (Normal tt, w') /\ ticking o ai t0 a (S b) w'.
Proof.
  intros [Hm Hc Ht Hk Hr] Hrt ->. unfold fire. cbn [callback due run_handler].
  set (rd := t0 + Z.of_nat (S b) * 120000).
  rewrite run_retrain. eexists. split; [reflexivity |].
  rewrite Hrt in *.
  split; cbn [AI_MODE config timers set_timers emit set_stdout set_drawn set_now];
    try assumption.
  - rewrite Ht, Hrt. unfold schedule. cbn [rearm callback period due].
    do 3 f_equal. fold rd. unfold rd. rewrite !Nat2Z.inj_succ. lia.
  - change (times_of is_tick (set_timers ?l ?w)) with (times_of is_tick w).
    rewrite times_of_emit. cbn [filter retrain_lines is_tick map].
    rewrite app_nil_r. exact Hk.
  - rewrite Hrt.
    change (times_of is_retraining (set_timers ?l ?w)) with (times_of is_retraining w).
    rewrite times_of_emit. cbn [filter retrain_lines is_retraining map now set_now].
    change (times_of is_retraining (set_now rd w)) with (times_of is_retraining w).
    rewrite Hr, multiples_succ. reflexivity.
Qed.

(** The firings still to come before the horizon. *)
Definition remaining (a b : nat) : nat :=
  (periods_within t0 (timer_period (interval o)) horizon - a) +
  (if ai && truthy (aiEnabled o) then periods_within t0 120000 horizon - b else 0).

Lemma event_loop_ticking (fuel : nat) :
  forall (a b : nat) (w : world),
    ticking o ai t0 a b w ->
    (a <= periods_within t0 (timer_period (interval o)) horizon)%nat ->
    (ai && truthy (aiEnabled o) = true -> (b <= periods_within t0 120000 horizon)%nat) ->
    (remaining a b <= fuel)%nat ->
    exists w',
      event_loop fuel horizon w = (Normal tt, w') /\
      ticking o ai t0 (periods_within t0 (timer_period (interval o)) horizon)
        (if ai && truthy (aiEnabled o) then periods_within t0 120000 horizon else b) w'.
Proof.
  pose proof (timer_period_pos (interval o)) as HT.
  set (T := timer_period (interval o)) in *.
  set (rt := ai && truthy (aiEnabled o)) in *.
  set (nH := periods_within t0 T horizon).
  set (nR := periods_within t0 120000 horizon).
  assert (Hdone : forall a b w,
             ticking o ai t0 a b w -> (a <= nH)%nat -> (rt = true -> (b <= nR)%nat) ->
             ~ (a < nH)%nat -> (rt = true -> ~ (b < nR)%nat) ->
             ticking o ai t0 nH (if rt then nR else b) w).
  { intros a b w Hw Ha Hb Ha' Hb'.
    replace nH with a by lia.
    destruct rt; [| exact Hw].
    replace nR with b by (specialize (Hb eq_refl); specialize (Hb' eq_refl); lia).
    exact Hw. }
  induction fuel as [| fuel IH]; intros a b w Hw Ha Hb Hfuel.
  - exists w. split; [reflexivity |]. unfold remaining in Hfuel. fold T rt nH nR in Hfuel.
    apply (Hdone a b); try assumption; [lia |].
    intros Hrt. rewrite Hrt in Hfuel. lia.
  - cbn [event_loop]. rewrite (tk_timers _ _ _ _ _ _ Hw). fold rt T.
    unfold schedule, earliest. fold T.
    pose proof (due_within t0 T horizon a ltac:(lia) Hhorizon) as Hdh.
    pose proof (due_within t0 120000 horizon b ltac:(lia) Hhorizon) as Hdr.
    destruct rt eqn:Ert.
    + cbn [earliest_from snd due].
      destruct (Z.ltb_spec (t0 + Z.of_nat (S b) * 120000) (t0 + Z.of_nat (S a) * T))
        as [Hlt | Hge].
      * (* the retraining is due first *)
        cbn [due]. destruct (Z.leb_spec (t0 + Z.of_nat (S b) * 120000) horizon) as [Hin | Hout].
        -- destruct (fire_retrain a b w _ Hw Ert eq_refl) as (w1 & Hf & Hw1).
           unfold bind. rewrite Hf.
           apply (IH a (S b) w1 Hw1 Ha).
           ++ intros _. apply Hdr in Hin. fold nR in Hin. lia.
           ++ unfold remaining in *. fold T rt nH nR in Hfuel |- *.
              rewrite Ert in *. apply Hdr in Hin. fold nR in Hin. lia.
        -- exists w. split; [reflexivity |].
           apply (Hdone a b); try assumption.
           ++ fold nH in Hdh. intros Hc. apply Hdh in Hc. lia.
           ++ intros _ Hc. fold nR in Hdr. apply Hdr in Hc. lia.
      * (* the health check is due first *)
        cbn [due]. destruct (Z.leb_spec (t0 + Z.of_nat (S a) * T) horizon) as [Hin | Hout].
        -- destruct (fire_health a b w _ Hw eq_refl) as (w1 & Hf & Hw1).
           unfold bind. fold T in Hf. rewrite Hf.
           apply (IH (S a) b w1 Hw1).
           ++ apply Hdh in Hin. fold nH in Hin. lia.
           ++ exact Hb.
           ++ unfold remaining in *. fold T rt nH nR in Hfuel |- *.
              rewrite Ert in *. apply Hdh in Hin. fold nH in Hin. lia.
        -- exists w. split; [reflexivity |].
           apply (Hdone a b); try assumption.
           ++ fold nH in Hdh. intros Hc. apply Hdh in Hc. lia.
           ++ intros _ Hc. fold nR in Hdr. apply Hdr in Hc. lia.
    + cbn [earliest_from snd due].
      destruct (Z.leb_spec (t0 + Z.of_nat (S a) * T) horizon) as [Hin | Hout].
      * destruct (fire_health a b w _ Hw eq_refl) as (w1 & Hf & Hw1).
        unfold bind. fold T in Hf. rewrite Hf.
        apply (IH (S a) b w1 Hw1).
        -- apply Hdh in Hin. fold nH in Hin. lia.
        -- exact Hb.
        -- unfold remaining in *. fold T rt nH nR in Hfuel |- *.
           rewrite Ert in *. apply Hdh in Hin. fold nH in Hin. lia.
      * exists w. split; [reflexivity |].
        apply (Hdone a b); try assumption.
        -- fold nH in Hdh. intros Hc. apply Hdh in Hc. lia.
        -- discriminate.
Qed.

End Schedule.

(** *** The configurations the script can select *)

Lemma baseConfig_cases (key : string) :
  baseConfig key = Obj production \/ baseConfig key = Obj development \/
  baseConfig key = Obj no_properties \/ baseConfig key = Undefined.
Proof.
  unfold baseConfig.
  destruct (key =? "production")%string; [auto |].
  destruct (key =? "development")%string; [auto |].
  destruct (existsb (String.eqb key) inherited); auto.
Qed.

Lemma select_config_cases (e : environment) (o : object) :
  select_config e = Obj o ->
  (select_AI_MODE e = true /\ o = aiConfig) \/
  (select_AI_MODE e = false /\
   (o = production \/ o = development \/ o = no_properties)).
Proof.
  unfold select_config. destruct (select_AI_MODE e).
  - intros [= <-]. auto.
  - intros H. right. split; [reflexivity |].
    destruct (baseConfig_cases (select_ENV e)) as [E | [E | [E | E]]];
      rewrite E in H; try discriminate; injection H as <-; auto.
Qed.

(** The retraining timer is registered exactly when the selected
    configuration has [aiEnabled]. *)
Lemma retraining_iff_aiEnabled (e : environment) (o : object) :
  select_config e = Obj o ->
  select_AI_MODE e && truthy (aiEnabled o) = truthy (aiEnabled o).
Proof.
  intros H.
  destruct (select_config_cases e o H) as [[-> ->] | [-> [-> | [-> | ->]]]];
    reflexivity.
Qed.

Lemma boot_ticking (e : environment) (source : nat -> number) (t0 : Z) (o : object) :
  select_config e = Obj o ->
  exists w, main (startup e source t0) = (Normal tt, w) /\
            ticking o (select_AI_MODE e) t0 0 0 w.
Proof.
  intros Ho.
  assert (Hdue : forall p, t0 + Z.of_nat 1 * p = t0 + p) by (intros; lia).
  destruct (select_config_cases e o Ho) as [[Hai ->] | [Hai Hcase]].
  - rewrite (run_main_ai _ aiConfig ["aws"; "azure"; "gcp"]%string);
      [| exact Hai | exact Ho | reflexivity].
    eexists. split; [reflexivity |]. rewrite Hai.
    split; try (exact Hai || exact Ho).
    + cbn. reflexivity.
    + cbn [truthy aiEnabled aiConfig].
      change (times_of is_tick (arm ?t ?w)) with (times_of is_tick w).
      change (times_of is_tick (arm ?t ?w)) with (times_of is_tick w).
      rewrite times_of_emit, filter_app.
      destruct (ticks_of_ai_lines (now (startup e source t0)) aiConfig
                  ["aws"; "azure"; "gcp"]%string
                  (entropy (startup e source t0)) (drawn (startup e source t0)))
        as [-> _].
      reflexivity.
    + cbn [truthy aiEnabled aiConfig andb].
      change (times_of is_retraining (arm ?t ?w)) with (times_of is_retraining w).
      change (times_of is_retraining (arm ?t ?w)) with (times_of is_retraining w).
      rewrite times_of_emit, filter_app.
      destruct (ticks_of_ai_lines (now (startup e source t0)) aiConfig
                  ["aws"; "azure"; "gcp"]%string
                  (entropy (startup e source t0)) (drawn (startup e source t0)))
        as [_ ->].
      reflexivity.
  - rewrite (run_main_basic _ o); [| exact Hai | exact Ho].
    eexists. split; [reflexivity |]. rewrite Hai.
    split; try (exact Hai || exact Ho).
    + unfold schedule, arm, health_timer.
      cbn [timers set_timers emit set_stdout set_drawn startup app now andb].
      rewrite Hdue. reflexivity.
    + change (times_of is_tick (arm ?t ?w)) with (times_of is_tick w).
      rewrite times_of_emit, filter_app.
      destruct (ticks_of_basic_lines (now (startup e source t0)) (debugMode o))
        as [-> _].
      reflexivity.
    + cbn [andb].
      change (times_of is_retraining (arm ?t ?w)) with (times_of is_retraining w).
      rewrite times_of_emit, filter_app.
      destruct (ticks_of_basic_lines (now (startup e source t0)) (debugMode o))
        as [_ ->].
      reflexivity.
Qed.

(** The whole process up to a horizon. *)
Lemma run_ticking (e : environment) (source : nat -> number) (t0 horizon : Z)
    (fuel : nat) (o : object) :
  select_config e = Obj o -> t0 <= horizon ->
  (periods_within t0 (timer_period (interval o)) horizon +
   (if truthy (aiEnabled o) then periods_within t0 120000 horizon else 0)
   <= fuel)%nat ->
  exists w,
    run e source t0 fuel horizon = (Normal tt, w) /\
    ticking o (select_AI_MODE e) t0
      (periods_within t0 (timer_period (interval o)) horizon)
      (if truthy (aiEnabled o) then periods_within t0 120000 horizon else 0%nat) w.
Proof.
  intros Ho Hh Hfuel.
  destruct (boot_ticking e source t0 o Ho) as (w0 & Hmain & Hw0).
  pose proof (retraining_iff_aiEnabled e o Ho) as Hrt.
  destruct (event_loop_ticking o (select_AI_MODE e) t0 horizon) with
    (fuel := fuel) (a := 0%nat) (b := 0%nat) (w := w0) as (w & Hloop & Hw).
  - intros Hai. destruct (select_config_cases e o Ho) as [[_ ->] | [Hai' _]].
    + eexists. reflexivity.
    + congruence.
  - exact Hh.
  - exact Hw0.
  - lia.
  - lia.
  - unfold remaining. rewrite Hrt. destruct (truthy (aiEnabled o)); lia.
  - exists w. split.
    + unfold run, bind. rewrite Hmain. exact Hloop.
    + rewrite Hrt in Hw. exact Hw.
Qed.

End Scheduler.

(* ================================================================== *)
(** ** Properties of the monitor *)
(* ================================================================== *)

Module Properties.
Import JS Rounding Monitor Runs Scheduler.

(** *** The lines of one AI tick, by kind *)

Lemma output_monitorAIHealth (w : world) (o : object) (clouds : list string) :
  config w = Obj o -> cloudProviders o = Some clouds ->
  output_of monitorAIHealth w = ai_lines (now w) o clouds (entropy w) (drawn w).
Proof.
  intros Hc Hl. eapply output_of_emit. apply run_monitorAIHealth; eassumption.
Qed.

Lemma evaluation_of_ai_lines (ts : Z) (o : object) (clouds : list string)
    (source : nat -> number) (d : nat) :
  filter is_evaluation (ai_lines ts o clouds source d) =
  evaluation_lines (alertThreshold o) (tick_sample source d (List.length clouds)).
Proof.
  unfold ai_lines, forecast_lines. rewrite !filter_app.
  rewrite filter_flat_provider_lines by reflexivity.
  unfold evaluation_lines.
  destruct (exceeds (maxUsage _) _); destruct (exceeds (cpu _) _); reflexivity.
Qed.

(** The sample of a tick is made of valid numbers in [[0, 100)]. *)
Lemma tick_sample_sval (source : nat -> number) (d n : nat) :
  (forall i, is_draw (source i) = true) ->
  exists vc vm vd,
    sval (cpuPct (tick_sample source d n)) = Some vc /\
    sval (memoryPct (tick_sample source d n)) = Some vm /\
    sval (diskPct (tick_sample source d n)) = Some vd /\
    sval (maxUsage (tick_sample source d n)) = Some (Z.max (Z.max vc vm) vd).
Proof.
  intros Hd. unfold tick_sample, sample_of, maxUsage. cbn [cpuPct memoryPct diskPct].
  destruct (times_100 _ (Hd (d + 3 * n)%nat)) as (vc & Hc & _).
  destruct (times_100 _ (Hd (d + 3 * n + 1)%nat)) as (vm & Hm & _).
  destruct (times_100 _ (Hd (d + 3 * n + 2)%nat)) as (vd & Hv & _).
  exists vc, vm, vd. repeat split; try assumption.
  apply Math_max_sval; assumption.
Qed.

(** Two numbers that compare equal do not compare greater. *)
Lemma eqb_not_gt (x y : number) : SFeqb x y = true -> gt x y = false.
Proof.
  unfold SFeqb, gt, SFltb.
  destruct x as [[] | [] | | [] mx ex]; destruct y as [[] | [] | | [] my ey];
    cbn [SFcompare]; try discriminate; try reflexivity.
  - destruct (Z.compare_spec ex ey) as [-> | H | H]; try discriminate.
    rewrite Z.compare_refl.
    change (Pos.compare_cont Eq mx my) with (Pos.compare mx my).
    change (Pos.compare_cont Eq my mx) with (Pos.compare my mx).
    destruct (Pos.compare_spec mx my) as [-> | H | H]; try discriminate.
    rewrite Pos.compare_refl. reflexivity.
  - destruct (Z.compare_spec ex ey) as [-> | H | H]; try discriminate.
    rewrite Z.compare_refl.
    change (Pos.compare_cont Eq mx my) with (Pos.compare mx my).
    change (Pos.compare_cont Eq my mx) with (Pos.compare my mx).
    destruct (Pos.compare_spec mx my) as [-> | H | H]; try discriminate.
    rewrite Pos.compare_refl. reflexivity.
Qed.

Section Evaluator.
Variables (w : world) (o : object) (clouds : list string) (t : Z).
Hypothesis Hconfig : config w = Obj o.
Hypothesis Hclouds : cloudProviders o = Some clouds.
Hypothesis Hthreshold : alertThreshold o = Some t.
Hypothesis Hdraws : forall i, is_draw (entropy w i) = true.

(** C1. The evaluation of a tick prints the alert and the auto-scaling
    line exactly when the greatest of the three percentages of the sample
    is strictly greater than [config.alertThreshold], and the optimal
    status otherwise; a maximum equal to the threshold is not an alert. *)
Theorem alert_iff_max_above_threshold :
  let s := tick_sample (entropy w) (drawn w) (List.length clouds) in
  let evaluation := filter is_evaluation (output_of monitorAIHealth w) in
  (maxUsage s = cpuPct s \/ maxUsage s = memoryPct s \/ maxUsage s = diskPct s) /\
  ge (maxUsage s) (cpuPct s) = true /\
  ge (maxUsage s) (memoryPct s) = true /\
  ge (maxUsage s) (diskPct s) = true /\
  (gt (maxUsage s) (lit t) = true -> evaluation = [Alert; AutoScaling]) /\
  (gt (maxUsage s) (lit t) = false -> evaluation = [StatusOptimal]) /\
  (SFeqb (maxUsage s) (lit t) = true -> evaluation = [StatusOptimal]).
Proof.
  intros s evaluation.
  assert (He : evaluation =
               if gt (maxUsage s) (lit t) then [Alert; AutoScaling] else [StatusOptimal]).
  { unfold evaluation. rewrite (output_monitorAIHealth w o clouds Hconfig Hclouds).
    rewrite evaluation_of_ai_lines. unfold evaluation_lines. rewrite Hthreshold.
    reflexivity. }
  destruct (tick_sample_sval (entropy w) (drawn w) (List.length clouds) Hdraws)
    as (vc & vm & vd & Hc & Hm & Hd & Hmax).
  fold s in Hc, Hm, Hd, Hmax.
  repeat split.
  - unfold maxUsage, Math_max. cbn [fold_left].
    assert (E : max_step (S754_infinity true) (cpuPct s) = cpuPct s).
    { destruct (sval_inv _ _ Hc) as [[-> _] | (m & e & -> & _)]; reflexivity. }
    rewrite E.
    assert (Hstep : forall h x vh vx, sval h = Some vh -> sval x = Some vx ->
                                      max_step h x = h \/ max_step h x = x).
    { intros h x vh vx Hh Hx.
      assert (E2 : max_step h x = if gt x h then x else h).
      { destruct (sval_inv h vh Hh) as [[-> _] | (m1 & e1 & -> & _)];
        destruct (sval_inv x vx Hx) as [[-> _] | (m2 & e2 & -> & _)]; reflexivity. }
      rewrite E2. destruct (gt x h); auto. }
    destruct (Hstep _ _ _ _ Hc Hm) as [E1 | E1]; rewrite E1.
    + destruct (Hstep _ _ _ _ Hc Hd) as [E2 | E2]; rewrite E2; auto.
    + destruct (Hstep _ _ _ _ Hm Hd) as [E2 | E2]; rewrite E2; auto.
  - rewrite (ge_sval _ _ _ _ Hmax Hc). apply Z.leb_le. lia.
  - rewrite (ge_sval _ _ _ _ Hmax Hm). apply Z.leb_le. lia.
  - rewrite (ge_sval _ _ _ _ Hmax Hd). apply Z.leb_le. lia.
  - intros H. rewrite He, H. reflexivity.
  - intros H. rewrite He, H. reflexivity.
  - intros H. rewrite He, (eqb_not_gt _ _ H). reflexivity.
Qed.

End Evaluator.

(** C1 on the first tick of the AI profile when every draw is three
    quarters: the maximum is 75, the threshold, and the status is optimal. *)
Lemma alert_iff_max_above_threshold_witness :
  filter is_evaluation
    (output_of monitorAIHealth (startup ai_environment (always three_quarters) 0)) =
  [StatusOptimal].
Proof.
  apply (alert_iff_max_above_threshold
           (startup ai_environment (always three_quarters) 0) aiConfig
           ["aws"; "azure"; "gcp"]%string 75 eq_refl eq_refl eq_refl
           (fun _ => eq_refl)).
  vm_compute. reflexivity.
Defined.

(** *** C2: a mode that names no profile *)

(** A key that is no property of [baseConfig], own or inherited, reads as
    [undefined]. *)
Lemma baseConfig_unknown (key : string) :
  key <> "production"%string -> key <> "development"%string ->
  ~ In key inherited ->
  baseConfig key = Undefined.
Proof.
  intros Hp Hd Hi. unfold baseConfig.
  destruct (String.eqb_spec key "production"); [contradiction |].
  destruct (String.eqb_spec key "development"); [contradiction |].
  destruct (existsb (String.eqb key) inherited) eqn:He; [| reflexivity].
  apply existsb_exists in He as (k & Hk & Heq).
  apply String.eqb_eq in Heq. subst k. contradiction.
Qed.

(** C2 (the code fails the claim). With AI mode off and a [NODE_ENV] that
    is not empty and is neither [production], [development] nor a name
    every object inherits, no configuration is selected, the production
    profile included: the script prints its banner and then throws a
    [TypeError] on [config.interval], before any timer is registered and
    before any health check. *)
Theorem unknown_mode_throws (mode : string) (ai : option string)
    (source : nat -> number) (t0 : Z) (fuel : nat) (horizon : Z) :
  mode <> "production"%string -> mode <> "development"%string ->
  mode <> EmptyString -> ~ In mode inherited ->
  ai <> Some "true"%string ->
  let e := {| NODE_ENV := Some mode; AI_MODE_variable := ai |} in
  exists w,
    run e source t0 fuel horizon =
      (Throw (reading "interval"), w) /\
    printed w = [Rule; Title; EnvironmentLine mode; AIModeLine false; Rule] /\
    timers w = [] /\
    select_config e = Undefined.
Proof.
  intros Hp Hd He Hi Hai e.
  assert (Hmode : select_ENV e = mode).
  { unfold select_ENV, e. cbn [NODE_ENV].
    destruct (String.eqb_spec mode EmptyString); [contradiction | reflexivity]. }
  assert (Hflag : select_AI_MODE e = false).
  { unfold select_AI_MODE, e. cbn [AI_MODE_variable].
    destruct ai as [v |]; [| reflexivity].
    destruct (String.eqb_spec v "true"); [subst v; contradiction | reflexivity]. }
  assert (Hc : select_config e = Undefined).
  { unfold select_config. rewrite Hflag, Hmode.
    apply baseConfig_unknown; assumption. }
  eexists. split; [| split; [| split]].
  - unfold run, bind. rewrite run_main_undefined by exact Hc. reflexivity.
  - rewrite printed_emit. cbn [printed startup stdout map app ENV AI_MODE].
    rewrite Hflag, Hmode. reflexivity.
  - reflexivity.
  - exact Hc.
Qed.

(** C2 at [NODE_ENV=staging]. *)
Lemma unknown_mode_throws_witness :
  exists w,
    run staging_environment (always three_quarters) 0 10 100000 =
      (Throw (reading "interval"), w) /\
    printed w = [Rule; Title; EnvironmentLine "staging"; AIModeLine false; Rule] /\
    timers w = [] /\
    select_config staging_environment = Undefined.
Proof.
  apply (unknown_mode_throws "staging" None (always three_quarters) 0 10 100000);
    try discriminate.
  cbn [inherited In]. intros H.
  repeat (destruct H as [H | H]; [discriminate H |]). exact H.
Defined.

(** The fallback the script does have: an unset or empty [NODE_ENV] selects
    the production profile. *)
Lemma unset_mode_is_production (ai : option string) :
  select_ENV {| NODE_ENV := None; AI_MODE_variable := ai |} = "production"%string /\
  select_ENV {| NODE_ENV := Some EmptyString; AI_MODE_variable := ai |} = "production"%string.
Proof. split; reflexivity. Qed.

(** *** C3: what a tick does in each mode *)

Lemma usage_of_basic_lines (ts : Z) (d : option bool) :
  filter is_usage (basic_lines ts d) = [] /\
  filter is_evaluation (basic_lines ts d) = [].
Proof. unfold basic_lines. destruct (truthy d); split; reflexivity. Qed.

Lemma output_checkSystemHealth_basic (w : world) (o : object) :
  AI_MODE w = false -> config w = Obj o ->
  output_of checkSystemHealth w = basic_lines (now w) (debugMode o) /\
  drawn (snd (checkSystemHealth w)) = drawn w.
Proof.
  intros Hai Hc. pose proof (run_checkSystemHealth_basic w o Hai Hc) as H. split.
  - eapply output_of_emit. exact H.
  - rewrite H. cbn. apply Nat.add_0_r.
Qed.

Lemma output_checkSystemHealth_ai (w : world) (o : object) (clouds : list string) :
  AI_MODE w = true -> config w = Obj o -> cloudProviders o = Some clouds ->
  output_of checkSystemHealth w = ai_lines (now w) o clouds (entropy w) (drawn w) /\
  drawn (snd (checkSystemHealth w)) = (drawn w + (3 * List.length clouds + 7))%nat.
Proof.
  intros Hai Hc Hl. pose proof (run_checkSystemHealth_ai w o clouds Hai Hc Hl) as H.
  split.
  - eapply output_of_emit. exact H.
  - rewrite H. reflexivity.
Qed.

(** C3, as stated, fails on the first tick of the production profile, a
    configuration the script selects with AI mode off: the tick draws no
    number, shows no sample and evaluates nothing. *)
Lemma tick_without_sample :
  let w := startup production_environment (always three_quarters) 0 in
  select_config production_environment = Obj production /\
  AI_MODE w = false /\
  drawn (snd (checkSystemHealth w)) = drawn w /\
  filter is_usage (output_of checkSystemHealth w) = [] /\
  filter is_evaluation (output_of checkSystemHealth w) = [].
Proof. repeat split. Qed.

(** C3, amended. A tick in AI mode prints the header and the cloud
    statuses, then the sample made of the next three numbers drawn, then
    the evaluation of that sample against [config.alertThreshold], and
    only then the forecast; it draws three numbers per provider and seven
    more. A tick with AI mode off draws nothing, shows no sample and
    evaluates nothing. *)
Theorem tick_samples_then_evaluates (w : world) (o : object) :
  config w = Obj o ->
  (AI_MODE w = true ->
   forall clouds, cloudProviders o = Some clouds ->
     let s := tick_sample (entropy w) (drawn w) (List.length clouds) in
     output_of checkSystemHealth w =
       ai_header_lines (now w) o clouds ++
       flat_map provider_lines (statuses (entropy w) (drawn w) clouds) ++
       usage_lines s ++
       evaluation_lines (alertThreshold o) s ++
       forecast_lines (alertThreshold o)
         (tick_prediction (entropy w) (drawn w) (List.length clouds)) /\
     drawn (snd (checkSystemHealth w)) = (drawn w + (3 * List.length clouds + 7))%nat) /\
  (AI_MODE w = false ->
   drawn (snd (checkSystemHealth w)) = drawn w /\
   filter is_usage (output_of checkSystemHealth w) = [] /\
   filter is_evaluation (output_of checkSystemHealth w) = []).
Proof.
  intros Hc. split.
  - intros Hai clouds Hl s.
    destruct (output_checkSystemHealth_ai w o clouds Hai Hc Hl) as [Hout Hd].
    split; [exact Hout | exact Hd].
  - intros Hai.
    destruct (output_checkSystemHealth_basic w o Hai Hc) as [Hout Hd].
    rewrite Hout. destruct (usage_of_basic_lines (now w) (debugMode o)) as [-> ->].
    auto.
Qed.

(** C3 on the first tick of the development profile. *)
Lemma tick_samples_then_evaluates_witness :
  filter is_evaluation
    (output_of checkSystemHealth
       (startup development_environment (always three_quarters) 0)) = [].
Proof.
  apply (tick_samples_then_evaluates
           (startup development_environment (always three_quarters) 0)
           development eq_refl).
  reflexivity.
Defined.

(** *** C4: the selected configuration *)

(** C4. With AI mode on the configuration is the AI profile whatever the
    mode; with AI mode off, the production mode selects an interval of
    60000, a threshold of 80 and no debugging, and the development mode an
    interval of 5000, a threshold of 90 and debugging. *)
Theorem configuration_resolution (e : environment) :
  (select_AI_MODE e = true -> select_config e = Obj aiConfig) /\
  (select_AI_MODE e = false -> select_ENV e = "production"%string ->
   select_config e = Obj production) /\
  (select_AI_MODE e = false -> select_ENV e = "development"%string ->
   select_config e = Obj development) /\
  (interval aiConfig = Some 30000 /\ alertThreshold aiConfig = Some 75 /\
   cloudProviders aiConfig = Some ["aws"; "azure"; "gcp"]%string /\
   predictiveWindow aiConfig = Some 300 /\ aiEnabled aiConfig = Some true) /\
  (interval production = Some 60000 /\ alertThreshold production = Some 80 /\
   debugMode production = Some false) /\
  (interval development = Some 5000 /\ alertThreshold development = Some 90 /\
   debugMode development = Some true).
Proof.
  unfold select_config. repeat split.
  - intros ->. reflexivity.
  - intros -> ->. reflexivity.
  - intros -> ->. reflexivity.
Qed.

(** C4 at four environments: AI mode with and without a mode, and the two
    profiles with AI mode off. *)
Lemma configuration_resolution_witness :
  select_config ai_environment = Obj aiConfig /\
  select_config {| NODE_ENV := Some "development"%string;
                   AI_MODE_variable := Some "true"%string |} = Obj aiConfig /\
  select_config production_environment = Obj production /\
  select_config development_environment = Obj development.
Proof.
  split; [| split; [| split]].
  - apply (configuration_resolution ai_environment). reflexivity.
  - apply (configuration_resolution
             {| NODE_ENV := Some "development"%string;
                AI_MODE_variable := Some "true"%string |}).
    reflexivity.
  - apply (configuration_resolution production_environment); reflexivity.
  - apply (configuration_resolution development_environment); reflexivity.
Defined.

(** *** C5: the predictive alert *)

Lemma predictive_of_ai_lines (ts : Z) (o : object) (clouds : list string)
    (source : nat -> number) (d : nat) :
  filter is_predictive (ai_lines ts o clouds source d) =
  if exceeds (cpu (tick_prediction source d (List.length clouds))) (alertThreshold o)
  then [PredictiveAlert] else [].
Proof.
  unfold ai_lines, forecast_lines, evaluation_lines. rewrite !filter_app.
  rewrite filter_flat_provider_lines by reflexivity.
  destruct (exceeds (maxUsage _) _); destruct (exceeds (cpu _) _); reflexivity.
Qed.

(** C5. After the forecast of a tick, the predictive alert is printed if
    and only if the forecast CPU is strictly greater than
    [config.alertThreshold]: the forecast CPU is one hundred times the
    first of the four numbers drawn for the forecast, the threshold is the
    one the reactive evaluation used, and the predictive line is none of
    the lines of the reactive evaluation. *)
Theorem predictive_alert_iff_cpu_above_threshold
    (w : world) (o : object) (clouds : list string) (t : Z) :
  config w = Obj o -> cloudProviders o = Some clouds -> alertThreshold o = Some t ->
  let p := tick_prediction (entropy w) (drawn w) (List.length clouds) in
  let s := tick_sample (entropy w) (drawn w) (List.length clouds) in
  let out := output_of monitorAIHealth w in
  cpu p = mul (entropy w (drawn w + 3 * List.length clouds + 3)%nat) (lit 100) /\
  (In PredictiveAlert out <-> gt (cpu p) (lit t) = true) /\
  filter is_predictive out = (if gt (cpu p) (lit t) then [PredictiveAlert] else []) /\
  filter is_evaluation out =
    (if gt (maxUsage s) (lit t) then [Alert; AutoScaling] else [StatusOptimal]) /\
  is_evaluation PredictiveAlert = false /\
  is_predictive Alert = false.
Proof.
  intros Hc Hl Ht p s out.
  assert (Hp : filter is_predictive out =
               if gt (cpu p) (lit t) then [PredictiveAlert] else []).
  { unfold out. rewrite (output_monitorAIHealth w o clouds Hc Hl).
    rewrite predictive_of_ai_lines, Ht. reflexivity. }
  repeat split; try reflexivity; try exact Hp.
  - intros Hin.
    assert (Hf : In PredictiveAlert (filter is_predictive out))
      by (apply filter_In; split; [exact Hin | reflexivity]).
    rewrite Hp in Hf. destruct (gt (cpu p) (lit t)); [reflexivity | destruct Hf].
  - intros Hgt.
    assert (Hf : In PredictiveAlert (filter is_predictive out))
      by (rewrite Hp, Hgt; left; reflexivity).
    apply filter_In in Hf. apply Hf.
  - unfold out. rewrite (output_monitorAIHealth w o clouds Hc Hl).
    rewrite evaluation_of_ai_lines. unfold evaluation_lines. rewrite Ht. reflexivity.
Qed.

(** C5 on the first tick of the AI profile when every draw is three
    quarters: the forecast CPU is 75 and no predictive alert is printed. *)
Lemma predictive_alert_iff_cpu_above_threshold_witness :
  filter is_predictive
    (output_of monitorAIHealth (startup ai_environment (always three_quarters) 0)) = [].
Proof.
  pose proof (predictive_alert_iff_cpu_above_threshold
                (startup ai_environment (always three_quarters) 0) aiConfig
                ["aws"; "azure"; "gcp"]%string 75 eq_refl eq_refl eq_refl)
    as (_ & _ & H & _).
  exact H.
Defined.

(** *** C6: the times of the health checks and of the retrainings *)

(** C6. Started at [t0] with a configuration whose interval is [T], and
    run up to [horizon], the process has made one health check at [t0],
    before any timer fired, and one at each of [t0 + T], [t0 + 2T], ... up
    to the horizon; it has retrained at [t0 + 120000], [t0 + 240000], ...
    up to the horizon when the configuration has [aiEnabled], and never
    otherwise. The clock is the logical one of the event loop: a handler
    takes no time. *)
Theorem ticks_and_retrainings (e : environment) (source : nat -> number)
    (t0 horizon : Z) (fuel : nat) (o : object) :
  select_config e = Obj o -> t0 <= horizon ->
  (periods_within t0 (timer_period (interval o)) horizon +
   (if truthy (aiEnabled o) then periods_within t0 120000 horizon else 0)
   <= fuel)%nat ->
  exists w,
    run e source t0 fuel horizon = (Normal tt, w) /\
    times_of is_tick (snd (main (startup e source t0))) = [t0] /\
    times_of is_tick w =
      t0 :: multiples t0 (timer_period (interval o))
              (periods_within t0 (timer_period (interval o)) horizon) /\
    times_of is_retraining w =
      (if truthy (aiEnabled o)
       then multiples t0 120000 (periods_within t0 120000 horizon)
       else []) /\
    (truthy (aiEnabled o) = select_AI_MODE e).
Proof.
  intros Ho Hh Hfuel.
  destruct (run_ticking e source t0 horizon fuel o Ho Hh Hfuel) as (w & Hrun & Hw).
  destruct (boot_ticking e source t0 o Ho) as (w0 & Hmain & Hw0).
  pose proof (retraining_iff_aiEnabled e o Ho) as Hrt.
  exists w. split; [exact Hrun |]. split; [| split; [| split]].
  - rewrite Hmain. cbn [snd]. rewrite (tk_ticks _ _ _ _ _ _ Hw0). reflexivity.
  - exact (tk_ticks _ _ _ _ _ _ Hw).
  - rewrite (tk_retrains _ _ _ _ _ _ Hw), Hrt.
    destruct (truthy (aiEnabled o)); reflexivity.
  - destruct (select_config_cases e o Ho) as [[-> ->] | [-> [-> | [-> | ->]]]];
      reflexivity.
Qed.

(** C6 for the AI profile, from 0 to 240000 milliseconds. *)
Lemma ticks_and_retrainings_witness :
  exists w,
    run ai_environment (always three_quarters) 0 10 240000 = (Normal tt, w) /\
    times_of is_tick (snd (main (startup ai_environment (always three_quarters) 0))) = [0] /\
    times_of is_tick w =
      [0; 30000; 60000; 90000; 120000; 150000; 180000; 210000; 240000] /\
    times_of is_retraining w = [120000; 240000] /\
    truthy (aiEnabled aiConfig) = select_AI_MODE ai_environment.
Proof.
  apply (ticks_and_retrainings ai_environment (always three_quarters) 0 240000 10
           aiConfig eq_refl).
  - lia.
  - vm_compute. lia.
Defined.

(** *** C7: the forecast *)

Lemma readout_of_ai_lines (ts : Z) (o : object) (clouds : list string)
    (source : nat -> number) (d : nat) :
  filter is_forecast_readout (ai_lines ts o clouds source d) =
  forecast_readout (tick_prediction source d (List.length clouds)) /\
  filter is_forecast (ai_lines ts o clouds source d) = [ForecastHeader].
Proof.
  unfold ai_lines, forecast_lines, evaluation_lines. rewrite !filter_app.
  rewrite !filter_flat_provider_lines by reflexivity.
  split; destruct (exceeds (maxUsage _) _); destruct (exceeds (cpu _) _); reflexivity.
Qed.

Lemma readout_of_basic_lines (ts : Z) (d : option bool) :
  filter is_forecast_readout (basic_lines ts d) = [] /\
  filter is_forecast (basic_lines ts d) = [].
Proof. unfold basic_lines. destruct (truthy d); split; reflexivity. Qed.

(** The forecast made of four draws. *)
Lemma prediction_bounds (r1 r2 r3 r4 : number) :
  is_draw r3 = true -> is_draw r4 = true ->
  (exists n, confidence (prediction_of r1 r2 r3 r4) = Fixed false n 2 /\
             7000 <= n <= 10000) /\
  ge (add (mul r4 (lit 30)) (lit 70)) (lit 70) = true /\
  ge (lit 100) (add (mul r4 (lit 30)) (lit 70)) = true /\
  ge (traffic (prediction_of r1 r2 r3 r4)) (lit 0) = true.
Proof.
  intros H3 H4. cbn [prediction_of confidence traffic].
  destruct (times_30_plus_70 r4 H4) as (v & Hv & Hlo & Hhi).
  destruct (times_1000 r3 H3) as (u & Hu & Hu0 & _).
  assert (H70 : sval (lit 70) = Some (70 * 2 ^ bias)) by by_computation.
  assert (H100 : sval (lit 100) = Some (100 * 2 ^ bias)) by by_computation.
  assert (H0 : sval (lit 0) = Some 0) by reflexivity.
  split; [| split; [| split]].
  - apply (toFixed_range _ v 2 7000 10000 Hv); lia.
  - rewrite (ge_sval _ _ _ _ Hv H70). apply Z.leb_le. exact Hlo.
  - rewrite (ge_sval _ _ _ _ H100 Hv). apply Z.leb_le. exact Hhi.
  - rewrite (ge_sval _ _ _ _ Hu H0). apply Z.leb_le. exact Hu0.
Qed.

(** C7. A tick with AI mode off makes no forecast. A tick in AI mode makes
    exactly one, from the last four numbers it draws: its confidence is a
    numeral with two decimals from 70.00 to 100.00 (the number it prints
    is itself between 70 and 100), and its traffic is at least 0. *)
Theorem forecast_once_per_ai_tick (w : world) (o : object) :
  config w = Obj o ->
  (forall i, is_draw (entropy w i) = true) ->
  (AI_MODE w = false ->
   filter is_forecast (output_of checkSystemHealth w) = [] /\
   filter is_forecast_readout (output_of checkSystemHealth w) = []) /\
  (AI_MODE w = true ->
   forall clouds, cloudProviders o = Some clouds ->
     let p := tick_prediction (entropy w) (drawn w) (List.length clouds) in
     filter is_forecast (output_of checkSystemHealth w) = [ForecastHeader] /\
     filter is_forecast_readout (output_of checkSystemHealth w) = forecast_readout p /\
     (exists n, confidence p = Fixed false n 2 /\ 7000 <= n <= 10000) /\
     ge (traffic p) (lit 0) = true).
Proof.
  intros Hc Hd. split.
  - intros Hai.
    destruct (output_checkSystemHealth_basic w o Hai Hc) as [-> _].
    destruct (readout_of_basic_lines (now w) (debugMode o)) as [-> ->]. auto.
  - intros Hai clouds Hl p.
    destruct (output_checkSystemHealth_ai w o clouds Hai Hc Hl) as [-> _].
    destruct (readout_of_ai_lines (now w) o clouds (entropy w) (drawn w)) as [-> ->].
    destruct (prediction_bounds
                (entropy w (drawn w + 3 * List.length clouds + 3)%nat)
                (entropy w (drawn w + 3 * List.length clouds + 4)%nat)
                (entropy w (drawn w + 3 * List.length clouds + 5)%nat)
                (entropy w (drawn w + 3 * List.length clouds + 6)%nat)
                (Hd _) (Hd _)) as (Hconf & _ & _ & Htraffic).
    split; [reflexivity | split; [reflexivity | split; assumption]].
Qed.

(** C7 on the first tick of the AI profile. *)
Lemma forecast_once_per_ai_tick_witness :
  filter is_forecast
    (output_of checkSystemHealth (startup ai_environment (always three_quarters) 0)) =
  [ForecastHeader].
Proof.
  apply (forecast_once_per_ai_tick
           (startup ai_environment (always three_quarters) 0) aiConfig eq_refl
           (fun _ => eq_refl))
    with (clouds := ["aws"; "azure"; "gcp"]%string); reflexivity.
Defined.

(** *** C8: the status of each cloud provider *)

Lemma provider_lines_kept (l : list provider_status) :
  filter is_provider_line (flat_map provider_lines l) = flat_map provider_lines l.
Proof.
  induction l as [| st l IH]; [reflexivity |].
  cbn [flat_map]. rewrite filter_app, IH. reflexivity.
Qed.

Lemma provider_lines_of_ai_lines (ts : Z) (o : object) (clouds : list string)
    (source : nat -> number) (d : nat) :
  filter is_provider_line (ai_lines ts o clouds source d) =
  flat_map provider_lines (statuses source d clouds).
Proof.
  unfold ai_lines, forecast_lines, evaluation_lines. rewrite !filter_app.
  rewrite provider_lines_kept.
  destruct (exceeds (maxUsage _) _); destruct (exceeds (cpu _) _);
    cbn; rewrite app_nil_r; reflexivity.
Qed.

Lemma statuses_length (source : nat -> number) (clouds : list string) (d : nat) :
  List.length (statuses source d clouds) = List.length clouds /\
  map provider (statuses source d clouds) = clouds.
Proof.
  revert d. induction clouds as [| c rest IH]; intros d; [split; reflexivity |].
  cbn [statuses List.length map]. destruct (IH (d + 3)%nat) as [-> ->].
  split; reflexivity.
Qed.

Lemma statuses_nth (source : nat -> number) (clouds : list string) :
  forall (d i : nat) (cloud : string),
    nth_error clouds i = Some cloud ->
    nth_error (statuses source d clouds) i =
      Some (status_of cloud (source (d + 3 * i)%nat) (source (d + 3 * i + 1)%nat)
                      (source (d + 3 * i + 2)%nat)).
Proof.
  induction clouds as [| c rest IH]; intros d i cloud Hi.
  - destruct i; discriminate.
  - destruct i as [| i]; cbn [nth_error statuses] in *.
    + injection Hi as <-. rewrite Nat.mul_0_r, !Nat.add_0_r. reflexivity.
    + rewrite (IH (d + 3)%nat i cloud Hi).
      replace (d + 3 + 3 * i)%nat with (d + 3 * S i)%nat by lia. reflexivity.
Qed.

(** The status made of three draws. *)
Lemma status_bounds (cloud : string) (r1 r2 r3 : number) :
  is_draw r1 = true -> is_draw r2 = true ->
  let st := status_of cloud r1 r2 r3 in
  (exists k, instanceCount st = lit k /\ 5 <= k < 15) /\
  ge (loadPct st) (lit 0) = true /\
  gt (lit 100) (loadPct st) = true /\
  healthy st = gt r3 lit_0_1.
Proof.
  intros H1 H2. cbn [status_of instanceCount loadPct healthy].
  destruct (times_10_plus_5 r1 H1) as (v & Hv & Hlo & Hhi).
  destruct (times_100 r2 H2) as (u & Hu & Hu0 & Hu1).
  pose proof bias_pos as Hb.
  assert (H0 : sval (lit 0) = Some 0) by reflexivity.
  assert (H100 : sval (lit 100) = Some (100 * 2 ^ bias)) by by_computation.
  split; [| split; [| split]].
  - exists (v / 2 ^ bias). split.
    + apply floor_sval; [exact Hv |]. lia.
    + split.
      * apply Z.div_le_lower_bound; lia.
      * apply Z.div_lt_upper_bound; lia.
  - rewrite (ge_sval _ _ _ _ Hu H0). apply Z.leb_le. exact Hu0.
  - rewrite (gt_sval _ _ _ _ H100 Hu). apply Z.ltb_lt. exact Hu1.
  - reflexivity.
Qed.

Lemma statuses_bounds (source : nat -> number) (clouds : list string) (d : nat) :
  (forall i, is_draw (source i) = true) ->
  Forall (fun st =>
            (exists k, instanceCount st = lit k /\ 5 <= k < 15) /\
            ge (loadPct st) (lit 0) = true /\
            gt (lit 100) (loadPct st) = true)
         (statuses source d clouds).
Proof.
  intros Hd. revert d. induction clouds as [| c rest IH]; intros d; cbn [statuses].
  - constructor.
  - constructor; [| apply IH].
    destruct (status_bounds c (source d) (source (d + 1)%nat) (source (d + 2)%nat)
                (Hd _) (Hd _)) as (Hk & Hl0 & Hl1 & _).
    auto.
Qed.

(** C8. The tick prints one status per provider of
    [config.cloudProviders], in the order of the list: the status of the
    [i]-th provider is made of the three numbers drawn at positions [3i],
    [3i + 1] and [3i + 2] of the tick; its instance count is an integer
    from 5 to 14, its load is at least 0 and less than 100, and it is
    healthy exactly when its third number is greater than [0.1]. *)
Theorem one_status_per_provider (w : world) (o : object) (clouds : list string) :
  config w = Obj o -> cloudProviders o = Some clouds ->
  (forall i, is_draw (entropy w i) = true) ->
  let sts := statuses (entropy w) (drawn w) clouds in
  filter is_provider_line (output_of monitorAIHealth w) = flat_map provider_lines sts /\
  List.length sts = List.length clouds /\
  map provider sts = clouds /\
  (forall i cloud,
     nth_error clouds i = Some cloud ->
     exists st,
       nth_error sts i = Some st /\
       provider st = cloud /\
       healthy st = gt (entropy w (drawn w + 3 * i + 2)%nat) lit_0_1 /\
       loadPct st = mul (entropy w (drawn w + 3 * i + 1)%nat) (lit 100) /\
       instanceCount st =
         Math_floor (add (mul (entropy w (drawn w + 3 * i)%nat) (lit 10)) (lit 5))) /\
  Forall (fun st =>
            (exists k, instanceCount st = lit k /\ 5 <= k < 15) /\
            ge (loadPct st) (lit 0) = true /\
            gt (lit 100) (loadPct st) = true) sts.
Proof.
  intros Hc Hl Hd sts.
  destruct (statuses_length (entropy w) clouds (drawn w)) as [Hlen Hmap].
  split; [| split; [exact Hlen | split; [exact Hmap | split]]].
  - rewrite (output_monitorAIHealth w o clouds Hc Hl).
    apply provider_lines_of_ai_lines.
  - intros i cloud Hi. eexists. split.
    + apply statuses_nth. exact Hi.
    + repeat split.
  - apply statuses_bounds. exact Hd.
Qed.

(** C8 for the three providers of the AI profile. *)
Lemma one_status_per_provider_witness :
  map provider
    (statuses (always three_quarters) 0 ["aws"; "azure"; "gcp"]%string) =
  ["aws"; "azure"; "gcp"]%string.
Proof.
  apply (one_status_per_provider
           (startup ai_environment (always three_quarters) 0) aiConfig
           ["aws"; "azure"; "gcp"]%string eq_refl eq_refl (fun _ => eq_refl)).
Defined.

(** *** C9: one configuration for the whole run *)

Lemma registration_rearm (i : nat) (l : list timer) :
  map registration (rearm i l) = map registration l.
Proof.
  revert i. induction l as [| t l IH]; intros i; [reflexivity |].
  destruct i as [| i]; cbn [rearm map]; [reflexivity |].
  rewrite IH. reflexivity.
Qed.

Lemma registrations_fire (i : nat) (t : timer) :
  preserves (fun w => map registration (timers w)) (fire i t).
Proof.
  intros w. unfold fire.
  pose proof (preserves_run_handler timers (fun _ _ _ => eq_refl) (callback t)
                (set_now (due t) w)) as H.
  destruct (run_handler (callback t) (set_now (due t) w)) as [[[] | x] w1];
    cbn [snd timers set_timers set_now] in *.
  - rewrite registration_rearm, H. reflexivity.
  - rewrite H. reflexivity.
Qed.

Lemma registrations_event_loop (fuel : nat) (horizon : Z) :
  preserves (fun w => map registration (timers w)) (event_loop fuel horizon).
Proof.
  induction fuel as [| fuel IH]; cbn [event_loop].
  - intros w. reflexivity.
  - intros w. destruct (earliest (timers w)) as [[i t] |]; [| reflexivity].
    destruct (due t <=? horizon); [| reflexivity].
    apply (preserves_bind (fun w => map registration (timers w)) (fire i t)
             (fun _ => event_loop fuel horizon)).
    + apply registrations_fire.
    + intros _. exact IH.
Qed.

(** C9. The configuration is selected once, when the script starts, and is
    the configuration of every state the process reaches: the health-check
    timer keeps the period read from its [interval], and a tick from any
    reached state evaluates the sample and the forecast against its
    [alertThreshold]. *)
Theorem one_configuration (e : environment) (source : nat -> number) (t0 : Z)
    (fuel : nat) (horizon : Z) (o : object) :
  select_config e = Obj o ->
  let w := snd (run e source t0 fuel horizon) in
  config (startup e source t0) = Obj o /\
  config w = Obj o /\
  AI_MODE w = select_AI_MODE e /\
  Forall (fun t => callback t = HealthCheck ->
                   period t = timer_period (interval o)) (timers w) /\
  (AI_MODE w = true ->
   forall clouds, cloudProviders o = Some clouds ->
     filter is_evaluation (output_of checkSystemHealth w) =
       evaluation_lines (alertThreshold o)
         (tick_sample (entropy w) (drawn w) (List.length clouds)) /\
     filter is_predictive (output_of checkSystemHealth w) =
       (if exceeds (cpu (tick_prediction (entropy w) (drawn w) (List.length clouds)))
                   (alertThreshold o)
        then [PredictiveAlert] else [])).
Proof.
  intros Ho w.
  pose proof (globals_run e source t0 fuel horizon) as Hg.
  fold w in Hg. unfold globals in Hg. injection Hg as HE HA HC HS.
  rewrite Ho in HC.
  split; [exact Ho | split; [exact HC | split; [exact HA | split]]].
  - destruct (boot_ticking e source t0 o Ho) as (w0 & Hmain & Hw0).
    assert (Hreg : map registration (timers w) = map registration (timers w0)).
    { unfold w, run, bind. rewrite Hmain.
      apply registrations_event_loop. }
    rewrite (tk_timers _ _ _ _ _ _ Hw0) in Hreg.
    apply Forall_forall. intros t Ht Hcb.
    assert (Hin : In (registration t) (map registration (timers w)))
      by (apply in_map; exact Ht).
    rewrite Hreg in Hin. unfold schedule, registration in Hin.
    destruct (select_AI_MODE e && truthy (aiEnabled o));
      cbn [map callback period In] in Hin.
    + destruct Hin as [Hin | [Hin | []]]; injection Hin as H1 H2.
      * congruence.
      * rewrite Hcb in H1. discriminate.
    + destruct Hin as [Hin | []]; injection Hin as H1 H2. congruence.
  - intros Hai clouds Hl.
    destruct (output_checkSystemHealth_ai w o clouds Hai HC Hl) as [-> _].
    rewrite evaluation_of_ai_lines, predictive_of_ai_lines. auto.
Qed.

(** C9 for the AI profile after three firings. *)
Lemma one_configuration_witness :
  config (snd (run ai_environment (always three_quarters) 0 3 100000)) = Obj aiConfig.
Proof.
  apply (one_configuration ai_environment (always three_quarters) 0 3 100000
           aiConfig eq_refl).
Defined.

(** *** C10: the tick with AI mode off *)

(** C10. With AI mode off a tick prints the fixed lines of the basic
    check, the two debug lines when [config.debugMode] holds, and the
    status [HEALTHY]: the lines depend on the time and on [debugMode]
    only, no number is drawn, no sample is shown, nothing is compared with
    the threshold and no alert is printed. *)
Theorem basic_tick_is_healthy (w : world) (o : object) :
  AI_MODE w = false -> config w = Obj o ->
  let out := output_of checkSystemHealth w in
  out = [BasicHeader (now w); CpuNormal; MemoryNormal; DiskAdequate] ++
        (if truthy (debugMode o) then [HotReload; DebugPort] else []) ++
        [StatusHealthy] /\
  filter is_status out = [StatusHealthy] /\
  drawn (snd (checkSystemHealth w)) = drawn w /\
  filter is_usage out = [] /\
  filter is_evaluation out = [] /\
  ~ In Alert out /\ ~ In AutoScaling out /\ ~ In PredictiveAlert out.
Proof.
  intros Hai Hc out.
  destruct (output_checkSystemHealth_basic w o Hai Hc) as [Hout Hd].
  fold out in Hout. rewrite Hout. unfold basic_lines.
  split; [reflexivity |].
  destruct (truthy (debugMode o)); cbn [app filter is_status is_usage is_evaluation In];
    repeat split; try exact Hd;
    intros H; repeat (destruct H as [H | H]; [discriminate H |]); exact H.
Qed.

(** C10 on the first tick of the production profile. *)
Lemma basic_tick_is_healthy_witness :
  filter is_status
    (output_of checkSystemHealth
       (startup production_environment (always three_quarters) 0)) =
  [StatusHealthy].
Proof.
  apply (basic_tick_is_healthy
           (startup production_environment (always three_quarters) 0)
           production eq_refl eq_refl).
Defined.

End Properties.

(* ================================================================== *)
(** ** The trace of a whole run *)
(* ================================================================== *)

Module Traces.
Import JS Rounding Monitor Runs Scheduler.

(** *** An invariant of the two timers, carried through the event loop *)

Section Invariant.
Variables (o : object) (ai : bool) (t0 horizon : Z).
Variable P : nat -> nat -> world -> Prop.
Hypothesis Hclouds : ai = true -> exists clouds, cloudProviders o = Some clouds.

(** The health check fires when it is due no later than the retraining,
    the retraining when it is due strictly before the health check. *)
Hypothesis P_health : forall a b w w',
  ticking o ai t0 a b w -> P a b w ->
  (ai && truthy (aiEnabled o) = true ->
   t0 + Z.of_nat (S a) * timer_period (interval o) <= t0 + Z.of_nat (S b) * 120000) ->
  t0 + Z.of_nat (S a) * timer_period (interval o) <= horizon ->
  fire 0 {| callback := HealthCheck; period := timer_period (interval o);
            due := t0 + Z.of_nat (S a) * timer_period (interval o) |} w =
    (Normal tt, w') ->
  P (S a) b w'.

Hypothesis P_retrain : forall a b w w',
  ticking o ai t0 a b w -> P a b w ->
  ai && truthy (aiEnabled o) = true ->
  t0 + Z.of_nat (S b) * 120000 < t0 + Z.of_nat (S a) * timer_period (interval o) ->
  t0 + Z.of_nat (S b) * 120000 <= horizon ->
  fire 1 {| callback := Retrain; period := 120000;
            due := t0 + Z.of_nat (S b) * 120000 |} w = (Normal tt, w') ->
  P a (S b) w'.

Lemma event_loop_invariant (fuel : nat) :
  forall (a b : nat) (w : world),
    ticking o ai t0 a b w -> P a b w ->
    exists a' b' w',
      event_loop fuel horizon w = (Normal tt, w') /\
      ticking o ai t0 a' b' w' /\ P a' b' w' /\
      (ai && truthy (aiEnabled o) = false -> b' = b).
Proof.
  induction fuel as [| fuel IH]; intros a b w Hw HP.
  - exists a, b, w. auto.
  - cbn [event_loop]. rewrite (tk_timers _ _ _ _ _ _ Hw).
    unfold schedule, earliest.
    destruct (bool_dec (ai && truthy (aiEnabled o)) true) as [Ert | Ert];
      [| apply not_true_is_false in Ert]; rewrite Ert.
    + cbn [earliest_from snd due].
      destruct (Z.ltb_spec (t0 + Z.of_nat (S b) * 120000)
                  (t0 + Z.of_nat (S a) * timer_period (interval o))) as [Hlt | Hge].
      * cbn [due].
        destruct (Z.leb_spec (t0 + Z.of_nat (S b) * 120000) horizon) as [Hin | Hout].
        -- destruct (fire_retrain o ai t0 a b w _ Hw Ert eq_refl) as (w1 & Hf & Hw1).
           unfold bind. rewrite Hf.
           destruct (IH a (S b) w1 Hw1 (P_retrain a b w w1 Hw HP Ert Hlt Hin Hf))
             as (a' & b' & w' & Hl & Hw' & HP' & Hb).
           exists a', b', w'.
           split; [exact Hl | split; [exact Hw' | split; [exact HP' | congruence]]].
        -- exists a, b, w. auto.
      * cbn [due].
        destruct (Z.leb_spec (t0 + Z.of_nat (S a) * timer_period (interval o)) horizon)
          as [Hin | Hout].
        -- destruct (fire_health o ai t0 Hclouds a b w _ Hw eq_refl) as (w1 & Hf & Hw1).
           unfold bind. rewrite Hf.
           destruct (IH (S a) b w1 Hw1 (P_health a b w w1 Hw HP (fun _ => Hge) Hin Hf))
             as (a' & b' & w' & Hl & Hw' & HP' & Hb).
           exists a', b', w'.
           split; [exact Hl | split; [exact Hw' | split; [exact HP' | congruence]]].
        -- exists a, b, w. auto.
    + cbn [earliest_from snd due].
      destruct (Z.leb_spec (t0 + Z.of_nat (S a) * timer_period (interval o)) horizon)
          as [Hin | Hout].
      * destruct (fire_health o ai t0 Hclouds a b w _ Hw eq_refl) as (w1 & Hf & Hw1).
        unfold bind. rewrite Hf.
        assert (Hno : ai && truthy (aiEnabled o) = true ->
                      t0 + Z.of_nat (S a) * timer_period (interval o) <=
                      t0 + Z.of_nat (S b) * 120000) by congruence.
        destruct (IH (S a) b w1 Hw1 (P_health a b w w1 Hw HP Hno Hin Hf))
          as (a' & b' & w' & Hl & Hw' & HP' & Hb).
        exists a', b', w'.
        split; [exact Hl | split; [exact Hw' | split; [exact HP' | intros _; exact (Hb Ert)]]].
      * exists a, b, w. auto.
Qed.

End Invariant.

(** *** What a firing prints *)

Lemma fire_health_emits (o : object) (ai : bool) (clouds : list string) (t0 : Z)
    (a b : nat) (w : world) (hd p : Z) :
  ticking o ai t0 a b w -> (ai = true -> cloudProviders o = Some clouds) ->
  fire 0 {| callback := HealthCheck; period := p; due := hd |} w =
    (Normal tt,
     set_timers (rearm 0 (timers w))
       (emit (draws_of_check ai clouds)
             (check_lines o ai clouds (entropy w) hd (drawn w)) (set_now hd w))).
Proof.
  intros Hw Hl. unfold fire. cbn [callback due run_handler].
  unfold draws_of_check, check_lines.
  pose proof (tk_mode _ _ _ _ _ _ Hw) as Hm.
  pose proof (tk_config _ _ _ _ _ _ Hw) as Hc.
  destruct ai.
  - rewrite (run_checkSystemHealth_ai (set_now hd w) o clouds Hm Hc (Hl eq_refl)).
    reflexivity.
  - rewrite (run_checkSystemHealth_basic (set_now hd w) o Hm Hc). reflexivity.
Qed.

Lemma fire_retrain_emits (w : world) (rd p : Z) :
  fire 1 {| callback := Retrain; period := p; due := rd |} w =
    (Normal tt, set_timers (rearm 1 (timers w)) (emit 0 retrain_lines (set_now rd w))).
Proof. unfold fire. cbn [callback due run_handler]. rewrite run_retrain. reflexivity. Qed.

Lemma printed_fired (l : list timer) (n : nat) (ls : list line) (t : Z) (w : world) :
  printed (set_timers l (emit n ls (set_now t w))) = printed w ++ ls.
Proof.
  change (printed (set_timers l (emit n ls (set_now t w))))
    with (printed (emit n ls (set_now t w))).
  rewrite printed_emit. reflexivity.
Qed.

Lemma times_fired (l : list timer) (n : nat) (ls : list line) (t : Z) (w : world) :
  map fst (stdout (set_timers l (emit n ls (set_now t w)))) =
  map fst (stdout w) ++ repeat t (List.length ls).
Proof.
  cbn [stdout set_timers emit set_stdout set_drawn set_now now].
  rewrite map_app, map_map. cbn [fst]. f_equal.
  induction ls as [| x ls IH]; [reflexivity |]. cbn [map List.length repeat].
  rewrite IH. reflexivity.
Qed.

(** *** The lines of a health check are no lines of a retraining *)

Lemma all_kept {A : Type} (p : A -> bool) (l : list A) :
  forallb p l = true -> filter p l = l.
Proof.
  induction l as [| x l IH]; [reflexivity |]. cbn [forallb filter].
  intros H. apply andb_true_iff in H as [Hx Hl]. rewrite Hx, IH by exact Hl.
  reflexivity.
Qed.

Lemma none_kept {A : Type} (p : A -> bool) (l : list A) :
  forallb (fun x => negb (p x)) l = true -> filter p l = [].
Proof.
  induction l as [| x l IH]; [reflexivity |]. cbn [forallb filter].
  intros H. apply andb_true_iff in H as [Hx Hl].
  apply negb_true_iff in Hx. rewrite Hx. apply IH. exact Hl.
Qed.

Lemma all_kept_when_none_dropped {A : Type} (p : A -> bool) (l : list A) :
  filter p l = [] -> filter (fun x => negb (p x)) l = l.
Proof.
  induction l as [| x l IH]; [reflexivity |]. cbn [filter].
  destruct (p x); [discriminate |]. intros H. cbn [negb]. rewrite IH by exact H.
  reflexivity.
Qed.

Lemma check_lines_are_check_lines (o : object) (ai : bool) (clouds : list string)
    (source : nat -> number) (t : Z) (d : nat) :
  forallb is_check_line (check_lines o ai clouds source t d) = true.
Proof.
  unfold check_lines. destruct ai.
  - unfold ai_lines, evaluation_lines, forecast_lines. rewrite !forallb_app.
    assert (Hp : forallb is_check_line
                   (flat_map provider_lines (statuses source d clouds)) = true).
    { generalize (statuses source d clouds). intros l.
      induction l as [| st l IH]; [reflexivity |].
      cbn [flat_map]. rewrite forallb_app, IH. reflexivity. }
    rewrite Hp. destruct (exceeds _ _); destruct (exceeds _ _); reflexivity.
  - unfold basic_lines. destruct (truthy (debugMode o)); reflexivity.
Qed.

(** *** Times in order *)

Lemma nondecreasing_snoc (l : list Z) (from t : Z) (n : nat) :
  nondecreasing from l = true -> Forall (fun x => x <= t) l -> from <= t ->
  nondecreasing from (l ++ repeat t n) = true.
Proof.
  revert from. induction l as [| x l IH]; intros from Hs Hf Ht.
  - cbn [app]. clear Hs Hf. revert from Ht.
    induction n as [| n IHn]; intros from Ht; [reflexivity |].
    cbn [repeat nondecreasing]. apply andb_true_iff. split.
    + apply Z.leb_le. exact Ht.
    + apply IHn. lia.
  - cbn [app nondecreasing] in *. apply andb_true_iff in Hs as [Hx Hl].
    rewrite Hx. cbn [andb]. inversion Hf; subst. apply IH; assumption.
Qed.

Lemma nondecreasing_from (l : list Z) (from : Z) :
  nondecreasing from l = true -> Forall (fun t => from <= t) l.
Proof.
  revert from. induction l as [| x l IH]; intros from H; [constructor |].
  cbn [nondecreasing] in H. apply andb_true_iff in H as [Hx Hl].
  apply Z.leb_le in Hx. constructor; [exact Hx |].
  eapply Forall_impl; [| apply IH; exact Hl]. cbn. intros t Ht. lia.
Qed.

Lemma past_snoc (l : list Z) (t1 t : Z) (n : nat) :
  Forall (fun x => x <= t1) l -> t1 <= t ->
  Forall (fun x => x <= t) (l ++ repeat t n).
Proof.
  intros Hf Ht. apply Forall_app. split.
  - eapply Forall_impl; [| exact Hf]. cbn. intros x Hx. lia.
  - apply Forall_forall. intros x Hx. apply repeat_spec in Hx. lia.
Qed.

(** *** The trace through one firing and through the event loop *)

Section Tracing.
Variables (o : object) (ai : bool) (clouds : list string)
          (source : nat -> number) (env : string) (t0 horizon : Z).
Hypothesis Hclouds : ai = true -> cloudProviders o = Some clouds.

Lemma tracing_health (a b : nat) (w w' : world) :
  ticking o ai t0 a b w ->
  tracing o ai clouds source env t0 a b w /\ now w <= horizon ->
  (ai && truthy (aiEnabled o) = true ->
   t0 + Z.of_nat (S a) * timer_period (interval o) <= t0 + Z.of_nat (S b) * 120000) ->
  t0 + Z.of_nat (S a) * timer_period (interval o) <= horizon ->
  fire 0 {| callback := HealthCheck; period := timer_period (interval o);
            due := t0 + Z.of_nat (S a) * timer_period (interval o) |} w =
    (Normal tt, w') ->
  tracing o ai clouds source env t0 (S a) b w' /\ now w' <= horizon.
Proof.
  intros Hw [[He Hd Hc Hr Ho Hp Hn Hnc Hnr] Hh] Hfirst Hin Hf.
  pose proof (timer_period_pos (interval o)) as HT.
  set (hd := t0 + Z.of_nat (S a) * timer_period (interval o)) in *.
  rewrite (fire_health_emits o ai clouds t0 a b w _ _ Hw Hclouds) in Hf.
  apply (f_equal snd) in Hf. cbn [snd] in Hf. subst w'.
  pose proof (check_lines_are_check_lines o ai clouds (entropy w) hd (drawn w)) as Hk.
  split; [| exact Hin].
  split.
  - exact He.
  - cbn [drawn set_timers emit set_stdout set_drawn set_now]. rewrite Hd. lia.
  - rewrite printed_fired, filter_app, Hc, (all_kept _ _ Hk).
    rewrite <- app_assoc. f_equal.
    rewrite (seq_S (S a) 0), flat_map_app. f_equal.
    cbn [flat_map Nat.add]. rewrite app_nil_r.
    unfold nth_check. fold hd. rewrite He, Hd. reflexivity.
  - rewrite printed_fired, filter_app, Hr.
    rewrite none_kept; [apply app_nil_r | exact Hk].
  - rewrite times_fired. apply nondecreasing_snoc; [exact Ho | | lia].
    eapply Forall_impl; [| exact Hp]. cbn. intros x Hx. lia.
  - rewrite times_fired. apply (past_snoc _ (now w)); [exact Hp | exact Hnc].
  - cbn. lia.
  - cbn [now set_timers emit set_stdout set_drawn set_now]. fold hd. unfold hd.
    rewrite !Nat2Z.inj_succ. nia.
  - intros Hrt. cbn [now set_timers emit set_stdout set_drawn set_now].
    exact (Hfirst Hrt).
Qed.

Lemma tracing_retrain (a b : nat) (w w' : world) :
  ticking o ai t0 a b w ->
  tracing o ai clouds source env t0 a b w /\ now w <= horizon ->
  ai && truthy (aiEnabled o) = true ->
  t0 + Z.of_nat (S b) * 120000 < t0 + Z.of_nat (S a) * timer_period (interval o) ->
  t0 + Z.of_nat (S b) * 120000 <= horizon ->
  fire 1 {| callback := Retrain; period := 120000;
            due := t0 + Z.of_nat (S b) * 120000 |} w = (Normal tt, w') ->
  tracing o ai clouds source env t0 a (S b) w' /\ now w' <= horizon.
Proof.
  intros Hw [[He Hd Hc Hr Ho Hp Hn Hnc Hnr] Hh] Hrt Hfirst Hin Hf.
  set (rd := t0 + Z.of_nat (S b) * 120000) in *.
  rewrite fire_retrain_emits in Hf.
  apply (f_equal snd) in Hf. cbn [snd] in Hf. subst w'.
  split; [| exact Hin].
  split.
  - exact He.
  - cbn [drawn set_timers emit set_stdout set_drawn set_now]. rewrite Hd. lia.
  - rewrite printed_fired, filter_app, Hc. apply app_nil_r.
  - rewrite printed_fired, filter_app, Hr.
    change (filter is_retrain_line retrain_lines) with retrain_lines.
    replace (S b) with (b + 1)%nat by lia.
    rewrite repeat_app, concat_app. cbn [repeat List.concat]. rewrite app_nil_r.
    reflexivity.
  - rewrite times_fired. apply nondecreasing_snoc; [exact Ho | | lia].
    eapply Forall_impl; [| exact Hp]. cbn. intros x Hx.
    specialize (Hnr Hrt). lia.
  - rewrite times_fired. apply (past_snoc _ (now w)); [exact Hp | exact (Hnr Hrt)].
  - cbn. specialize (Hnr Hrt). lia.
  - cbn [now set_timers emit set_stdout set_drawn set_now]. lia.
  - intros _. cbn [now set_timers emit set_stdout set_drawn set_now]. fold rd. unfold rd.
    rewrite !Nat2Z.inj_succ. lia.
Qed.

Lemma event_loop_tracing (fuel a b : nat) (w : world) :
  ticking o ai t0 a b w ->
  tracing o ai clouds source env t0 a b w -> now w <= horizon ->
  exists a' b' w',
    event_loop fuel horizon w = (Normal tt, w') /\
    ticking o ai t0 a' b' w' /\
    tracing o ai clouds source env t0 a' b' w' /\ now w' <= horizon /\
    (ai && truthy (aiEnabled o) = false -> b' = b).
Proof.
  intros Hw Ht Hh.
  destruct (event_loop_invariant o ai t0 horizon
              (fun a b w => tracing o ai clouds source env t0 a b w /\ now w <= horizon))
    with (fuel := fuel) (a := a) (b := b) (w := w)
    as (a' & b' & w' & Hl & Hw' & [Ht' Hh'] & Hb).
  - intros Hai. exists clouds. exact (Hclouds Hai).
  - intros a1 b1 w1 w2. apply tracing_health.
  - intros a1 b1 w1 w2. apply tracing_retrain.
  - exact Hw.
  - split; assumption.
  - exists a', b', w'. auto.
Qed.

End Tracing.

(** *** The trace of the script and of the whole process *)

Lemma multiples_length (start period : Z) (n : nat) :
  List.length (multiples start period n) = n.
Proof. unfold multiples. rewrite length_map, length_seq. reflexivity. Qed.

(** The providers of the configuration in force in AI mode. *)
Lemma selected_clouds (e : environment) (o : object) :
  select_config e = Obj o -> select_AI_MODE e = true ->
  o = aiConfig /\ cloudProviders o = Some ["aws"; "azure"; "gcp"]%string.
Proof.
  intros Ho Hai. destruct (select_config_cases e o Ho) as [[_ ->] | [Hno _]].
  - split; reflexivity.
  - congruence.
Qed.

(** The configurations selected with AI mode off have no [aiEnabled]. *)
Lemma basic_config_has_no_aiEnabled (e : environment) (o : object) :
  select_config e = Obj o -> select_AI_MODE e = false ->
  truthy (aiEnabled o) = false.
Proof.
  intros Ho Hai. destruct (select_config_cases e o Ho) as [[H _] | [_ [-> | [-> | ->]]]];
    [congruence | reflexivity ..].
Qed.

Lemma boot_tracing (e : environment) (source : nat -> number) (t0 : Z) (o : object)
    (clouds : list string) :
  select_config e = Obj o ->
  (select_AI_MODE e = true -> cloudProviders o = Some clouds) ->
  exists w,
    main (startup e source t0) = (Normal tt, w) /\
    ticking o (select_AI_MODE e) t0 0 0 w /\
    tracing o (select_AI_MODE e) clouds source (select_ENV e) t0 0 0 w /\
    now w = t0.
Proof.
  intros Ho Hl.
  destruct (boot_ticking e source t0 o Ho) as (w & Hmain & Hw).
  exists w. split; [exact Hmain | split; [exact Hw |]].
  pose proof (timer_period_pos (interval o)) as HT.
  assert (Hshape : exists l,
             w = set_timers l
                   (emit (draws_of_check (select_AI_MODE e) clouds)
                      (banner_lines (select_ENV e) (select_AI_MODE e) (interval o) ++
                       check_lines o (select_AI_MODE e) clouds source t0 0)
                      (startup e source t0))).
  { unfold draws_of_check, check_lines.
    destruct (select_AI_MODE e) eqn:Hai.
    - rewrite (run_main_ai _ o clouds) in Hmain; [| exact Hai | exact Ho | exact (Hl eq_refl)].
      apply (f_equal snd) in Hmain. cbn [snd] in Hmain. subst w.
      cbn [ENV now entropy drawn startup].
      destruct (truthy (aiEnabled o)); eexists; reflexivity.
    - rewrite (run_main_basic _ o) in Hmain; [| exact Hai | exact Ho].
      apply (f_equal snd) in Hmain. cbn [snd] in Hmain. subst w.
      cbn [ENV now entropy drawn startup]. eexists. reflexivity. }
  destruct Hshape as (l & ->).
  pose proof (check_lines_are_check_lines o (select_AI_MODE e) clouds source t0 0) as Hk.
  assert (Hb : forallb is_check_line
                 (banner_lines (select_ENV e) (select_AI_MODE e) (interval o)) = true)
    by reflexivity.
  assert (Hp : printed (set_timers l
                   (emit (draws_of_check (select_AI_MODE e) clouds)
                      (banner_lines (select_ENV e) (select_AI_MODE e) (interval o) ++
                       check_lines o (select_AI_MODE e) clouds source t0 0)
                      (startup e source t0))) =
               banner_lines (select_ENV e) (select_AI_MODE e) (interval o) ++
               check_lines o (select_AI_MODE e) clouds source t0 0).
  { change (printed (set_timers l ?x)) with (printed x). rewrite printed_emit.
    reflexivity. }
  split; [| reflexivity]. split.
  - reflexivity.
  - cbn [drawn set_timers emit set_stdout set_drawn startup]. lia.
  - rewrite Hp, filter_app, (all_kept _ _ Hb), (all_kept _ _ Hk).
    cbn [seq flat_map]. rewrite app_nil_r. unfold nth_check.
    cbn [Z.of_nat Z.mul Nat.mul]. rewrite Z.add_0_r. reflexivity.
  - rewrite Hp, filter_app. rewrite !none_kept; [reflexivity | exact Hk | exact Hb].
  - cbn [stdout set_timers emit set_stdout set_drawn startup app now].
    rewrite map_map. cbn [fst].
    generalize (banner_lines (select_ENV e) (select_AI_MODE e) (interval o) ++
                check_lines o (select_AI_MODE e) clouds source t0 0).
    intros ls. induction ls as [| x ls IH]; [reflexivity |].
    cbn [map nondecreasing]. rewrite Z.leb_refl. exact IH.
  - cbn [stdout set_timers emit set_stdout set_drawn startup app now].
    rewrite map_map. cbn [fst]. apply Forall_forall. intros x Hx.
    apply in_map_iff in Hx as (y & <- & _). lia.
  - cbn. lia.
  - cbn [now set_timers emit set_stdout set_drawn startup]. lia.
  - intros _. cbn [now set_timers emit set_stdout set_drawn startup]. lia.
Qed.

(** The whole process, whatever the fuel: what it printed is what its
    firings print. *)
Lemma run_tracing_any (e : environment) (source : nat -> number) (t0 horizon : Z)
    (fuel : nat) (o : object) (clouds : list string) :
  select_config e = Obj o ->
  (select_AI_MODE e = true -> cloudProviders o = Some clouds) ->
  t0 <= horizon ->
  exists a b w,
    run e source t0 fuel horizon = (Normal tt, w) /\
    ticking o (select_AI_MODE e) t0 a b w /\
    tracing o (select_AI_MODE e) clouds source (select_ENV e) t0 a b w /\
    now w <= horizon /\
    (truthy (aiEnabled o) = false -> b = 0%nat).
Proof.
  intros Ho Hl Hh.
  destruct (boot_tracing e source t0 o clouds Ho Hl) as (w0 & Hmain & Hw0 & Ht0 & Hn0).
  destruct (event_loop_tracing o (select_AI_MODE e) clouds source (select_ENV e)
              t0 horizon Hl fuel 0 0 w0 Hw0 Ht0 ltac:(lia))
    as (a & b & w & Hloop & Hw & Ht & Hn & Hb).
  exists a, b, w. split; [| split; [exact Hw | split; [exact Ht | split; [exact Hn |]]]].
  - unfold run, bind. rewrite Hmain. exact Hloop.
  - intros Hoff. apply Hb. rewrite (retraining_iff_aiEnabled e o Ho). exact Hoff.
Qed.

(** The whole process up to a horizon it has the fuel to reach. *)
Lemma run_tracing (e : environment) (source : nat -> number) (t0 horizon : Z)
    (fuel : nat) (o : object) (clouds : list string) :
  select_config e = Obj o ->
  (select_AI_MODE e = true -> cloudProviders o = Some clouds) ->
  t0 <= horizon ->
  (periods_within t0 (timer_period (interval o)) horizon +
   (if truthy (aiEnabled o) then periods_within t0 120000 horizon else 0)
   <= fuel)%nat ->
  exists w,
    run e source t0 fuel horizon = (Normal tt, w) /\
    tracing o (select_AI_MODE e) clouds source (select_ENV e) t0
      (periods_within t0 (timer_period (interval o)) horizon)
      (if truthy (aiEnabled o) then periods_within t0 120000 horizon else 0%nat) w /\
    now w <= horizon.
Proof.
  intros Ho Hl Hh Hfuel.
  destruct (run_tracing_any e source t0 horizon fuel o clouds Ho Hl Hh)
    as (a & b & w & Hrun & Hw & Ht & Hn & Hb).
  destruct (run_ticking e source t0 horizon fuel o Ho Hh Hfuel) as (w' & Hrun' & Hw').
  rewrite Hrun in Hrun'. injection Hrun' as <-.
  exists w. split; [exact Hrun | split; [| exact Hn]].
  assert (Ha : a = periods_within t0 (timer_period (interval o)) horizon).
  { pose proof (tk_ticks _ _ _ _ _ _ Hw) as H1.
    pose proof (tk_ticks _ _ _ _ _ _ Hw') as H2.
    rewrite H1 in H2. apply (f_equal (@List.length Z)) in H2.
    cbn [List.length] in H2. rewrite !multiples_length in H2. lia. }
  assert (Hbb : b = if truthy (aiEnabled o) then periods_within t0 120000 horizon
                    else 0%nat).
  { pose proof (tk_retrains _ _ _ _ _ _ Hw) as H1.
    pose proof (tk_retrains _ _ _ _ _ _ Hw') as H2.
    rewrite (retraining_iff_aiEnabled e o Ho) in H1, H2.
    destruct (truthy (aiEnabled o)); [| apply Hb; reflexivity].
    rewrite H1 in H2. apply (f_equal (@List.length Z)) in H2.
    rewrite !multiples_length in H2. exact H2. }
  rewrite <- Ha, <- Hbb. exact Ht.
Qed.

(** *** When the process throws *)

Lemma baseConfig_undefined (key : string) :
  baseConfig key = Undefined <->
  key <> "production"%string /\ key <> "development"%string /\ ~ In key inherited.
Proof.
  unfold baseConfig.
  destruct (String.eqb_spec key "production") as [Hp | Hp];
    [split; [discriminate | intros (H & _); contradiction] |].
  destruct (String.eqb_spec key "development") as [Hd | Hd];
    [split; [discriminate | intros (_ & H & _); contradiction] |].
  destruct (existsb (String.eqb key) inherited) eqn:Hi.
  - split; [discriminate |]. intros (_ & _ & H). exfalso. apply H.
    apply existsb_exists in Hi as (k & Hk & Hkk). apply String.eqb_eq in Hkk.
    subst k. exact Hk.
  - split; [| reflexivity]. intros _. split; [exact Hp | split; [exact Hd |]].
    intros Hin. assert (H : existsb (String.eqb key) inherited = true).
    { apply existsb_exists. exists key. split; [exact Hin | apply String.eqb_refl]. }
    congruence.
Qed.

Lemma select_AI_MODE_off (e : environment) :
  select_AI_MODE e = false <-> AI_MODE_variable e <> Some "true"%string.
Proof.
  unfold select_AI_MODE. destruct (AI_MODE_variable e) as [v |].
  - destruct (String.eqb_spec v "true") as [-> | Hv].
    + split; [discriminate | intros H; contradiction].
    + split; [intros _ [= H]; contradiction | reflexivity].
  - split; [discriminate | reflexivity].
Qed.

Lemma select_config_undefined (e : environment) :
  select_config e = Undefined <->
  AI_MODE_variable e <> Some "true"%string /\
  exists s, NODE_ENV e = Some s /\ s <> EmptyString /\ s <> "production"%string /\
            s <> "development"%string /\ ~ In s inherited.
Proof.
  rewrite <- select_AI_MODE_off. unfold select_config, select_ENV.
  destruct (select_AI_MODE e).
  - split; [discriminate | intros [H _]; discriminate].
  - rewrite baseConfig_undefined. destruct (NODE_ENV e) as [s |].
    + destruct (String.eqb_spec s EmptyString) as [-> | Hs].
      * split; [intros (H & _); contradiction |].
        intros [_ (s' & [= <-] & H & _)]. contradiction.
      * split.
        -- intros H. split; [reflexivity |]. exists s. tauto.
        -- intros [_ (s' & [= <-] & _ & H)]. exact H.
    + split; [intros (H & _); contradiction |].
      intros [_ (s' & H & _)]. discriminate.
Qed.

Lemma run_fails (e : environment) (source : nat -> number) (t0 : Z)
    (fuel : nat) (horizon : Z) :
  select_config e = Undefined ->
  fst (run e source t0 fuel horizon) = Throw (reading "interval").
Proof.
  intros Hc. unfold run, bind. rewrite run_main_undefined by exact Hc. reflexivity.
Qed.

Lemma run_completes (e : environment) (source : nat -> number) (t0 : Z)
    (fuel : nat) (horizon : Z) (o : object) :
  select_config e = Obj o ->
  fst (run e source t0 fuel horizon) = Normal tt.
Proof.
  intros Ho.
  destruct (boot_ticking e source t0 o Ho) as (w0 & Hmain & Hw0).
  destruct (event_loop_invariant o (select_AI_MODE e) t0 horizon (fun _ _ _ => True))
    with (fuel := fuel) (a := 0%nat) (b := 0%nat) (w := w0)
    as (a & b & w & Hloop & _); auto.
  - intros Hai. destruct (selected_clouds e o Ho Hai) as [_ H]. eexists; exact H.
  - unfold run, bind. rewrite Hmain, Hloop. reflexivity.
Qed.

(** *** The whole output with AI mode off *)

Lemma basic_run_printed (e : environment) (source : nat -> number)
    (t0 horizon : Z) (fuel : nat) (o : object) :
  select_config e = Obj o -> select_AI_MODE e = false -> t0 <= horizon ->
  (periods_within t0 (timer_period (interval o)) horizon <= fuel)%nat ->
  printed (snd (run e source t0 fuel horizon)) =
    banner_lines (select_ENV e) false (interval o) ++
    flat_map (fun k => basic_lines (t0 + Z.of_nat k * timer_period (interval o))
                                   (debugMode o))
             (seq 0 (S (periods_within t0 (timer_period (interval o)) horizon))) /\
  drawn (snd (run e source t0 fuel horizon)) = 0%nat.
Proof.
  intros Ho Hai Hh Hfuel.
  pose proof (basic_config_has_no_aiEnabled e o Ho Hai) as Hoff.
  destruct (run_tracing e source t0 horizon fuel o [] Ho) as (w' & Hrun & Ht & _).
  - congruence.
  - exact Hh.
  - rewrite Hoff. lia.
  - rewrite Hrun. cbn [snd]. rewrite Hai, Hoff in Ht. split.
    + pose proof (tr_retrains _ _ _ _ _ _ _ _ _ Ht) as Hr.
      cbn [repeat List.concat] in Hr.
      rewrite <- (all_kept_when_none_dropped _ _ Hr).
      exact (tr_checks _ _ _ _ _ _ _ _ _ Ht).
    + rewrite (tr_drawn _ _ _ _ _ _ _ _ _ Ht). unfold draws_of_check. lia.
Qed.

(** *** Counting the lines of a kind *)

Lemma filter_within {A : Type} (p q : A -> bool) (l : list A) :
  (forall x, p x = true -> q x = true) -> filter p (filter q l) = filter p l.
Proof.
  intros Hpq. induction l as [| x l IH]; [reflexivity |]. cbn [filter].
  destruct (q x) eqn:Hq; cbn [filter].
  - rewrite IH. reflexivity.
  - destruct (p x) eqn:Hp; [| exact IH]. rewrite (Hpq x Hp) in Hq. discriminate.
Qed.

Lemma length_filter_flat_map {A : Type} (p : line -> bool) (f : A -> list line)
    (g : A -> nat) (l : list A) :
  (forall k, List.length (filter p (f k)) = g k) ->
  List.length (filter p (flat_map f l)) = list_sum (map g l).
Proof.
  intros H. unfold list_sum. induction l as [| k l IH]; [reflexivity |].
  cbn [flat_map map fold_right]. rewrite filter_app, length_app, H, IH. reflexivity.
Qed.

Lemma list_sum_constant {A : Type} (c : nat) (l : list A) :
  list_sum (map (fun _ => c) l) = (c * List.length l)%nat.
Proof.
  unfold list_sum. induction l as [| k l IH]; cbn [map fold_right List.length]; lia.
Qed.

Lemma list_sum_at_most {A : Type} (g : A -> nat) (c : nat) (l : list A) :
  (forall k, (g k <= c)%nat) -> (list_sum (map g l) <= c * List.length l)%nat.
Proof.
  intros H. unfold list_sum.
  induction l as [| k l IH]; cbn [map fold_right List.length]; [lia |].
  specialize (H k). lia.
Qed.

(** The lines of one health check, counted by kind. *)
Lemma check_lines_by_kind (o : object) (ai : bool) (clouds : list string)
    (source : nat -> number) (t : Z) (d : nat) :
  let ls := check_lines o ai clouds source t d in
  List.length (filter is_status ls) = 1%nat /\
  List.length (filter is_alert ls) = List.length (filter is_autoscaling ls) /\
  List.length (filter is_forecast ls) = (if ai then 1 else 0)%nat /\
  (List.length (filter is_predictive ls) <= if ai then 1 else 0)%nat.
Proof.
  unfold check_lines. destruct ai.
  - unfold ai_lines, evaluation_lines, forecast_lines. rewrite !filter_app, !length_app.
    rewrite !filter_flat_provider_lines by reflexivity.
    destruct (exceeds (maxUsage _) _); destruct (exceeds (cpu _) _);
      cbn; repeat split; lia.
  - unfold basic_lines. destruct (truthy (debugMode o)); cbn; repeat split; lia.
Qed.

Lemma count_of_checks (p : line -> bool) (l : list line) (w : world) :
  (forall x, p x = true -> is_check_line x = true) ->
  filter is_check_line (printed w) = l ->
  count p w = List.length (filter p l).
Proof.
  intros Hp <-. unfold count. rewrite filter_within by exact Hp. reflexivity.
Qed.

End Traces.

(* ================================================================== *)
(** ** Percentages, readouts and the threshold of 75 *)
(* ================================================================== *)

Module Readouts.
Import JS Rounding Monitor Runs Properties.

(** The smallest valid number above a valid one of the same exponent. *)
Lemma above_succ (M m : positive) (E e : Z) :
  bounded prec emax M E = true -> Zpos M + 1 < 2 ^ 53 ->
  bounded prec emax m e = true ->
  scaled (Zpos M) E < scaled (Zpos m) e ->
  scaled (Zpos M + 1) E <= scaled (Zpos m) e.
Proof.
  intros BM HM Bm Hlt.
  pose proof (bounded_inv _ _ BM) as (HE & _ & HMn).
  assert (Hs : 0 < 2 ^ (E + bias)) by (apply pow2_pos; unfold bias; lia).
  destruct (Z.lt_trichotomy e E) as [Hl | [-> | Hg]].
  - pose proof (scaled_lt_exp m M e E Bm BM Hl). lia.
  - unfold scaled in *. apply Z.mul_le_mono_nonneg_r; [lia |].
    assert (Zpos M < Zpos m) by nia. lia.
  - assert (B1 : bounded prec emax (M + 1) E = true).
    { apply bounded_intro; rewrite ?Pos2Z.inj_add; lia. }
    pose proof (scaled_lt_exp (M + 1) m E e B1 Bm Hg) as H.
    rewrite Pos2Z.inj_add in H. lia.
Qed.

(** Two valid numbers of the same value are the same number. *)
Lemma sval_inj (x y : number) (v : Z) :
  sval x = Some v -> sval y = Some v -> x = y.
Proof.
  intros Hx Hy.
  destruct (sval_inv x v Hx) as [[-> Hv1] | (m1 & e1 & -> & B1 & Hv1 & P1)];
  destruct (sval_inv y v Hy) as [[-> Hv2] | (m2 & e2 & -> & B2 & Hv2 & P2)];
    try reflexivity; try lia.
  destruct (Z.lt_trichotomy e1 e2) as [Hl | [-> | Hg]].
  - pose proof (scaled_lt_exp m1 m2 e1 e2 B1 B2 Hl). lia.
  - assert (Hs : 0 < 2 ^ (e2 + bias)).
    { apply bounded_inv in B2. apply pow2_pos. unfold bias; lia. }
    unfold scaled in *. assert (Zpos m1 = Zpos m2) by nia.
    f_equal. lia.
  - pose proof (scaled_lt_exp m2 m1 e2 e1 B2 B1 Hg). lia.
Qed.

(** One hundred times a draw is above 75 exactly when the draw is above
    three quarters: the product of the draw just above three quarters
    rounds up to the number just above 75, and every greater draw has an
    exact product above that number. *)
Lemma percent_above_75 (r : number) :
  is_draw r = true ->
  gt (mul r (lit 100)) (lit 75) = gt r three_quarters.
Proof.
  intros Hr.
  destruct (draw_sval r Hr) as (va & Ha & Ha0 & Ha1).
  destruct (times_100 r Hr) as (v & Hv & Hv0 & Hv1).
  pose proof bias_pos as Hb.
  assert (B34 : bounded prec emax 6755399441055744 (-53) = true) by reflexivity.
  assert (H34 : sval three_quarters = Some (scaled 6755399441055744 (-53)))
    by reflexivity.
  assert (H75 : sval (lit 75) = Some (75 * 2 ^ bias)) by by_computation.
  assert (B100 : bounded prec emax 7036874417766400 (-46) = true) by reflexivity.
  assert (E100 : lit 100 = S754_finite false 7036874417766400 (-46)) by reflexivity.
  assert (V100 : scaled 7036874417766400 (-46) = 100 * 2 ^ bias) by by_computation.
  assert (V34 : 4 * scaled 6755399441055744 (-53) = 3 * 2 ^ bias) by by_computation.
  rewrite (gt_sval _ _ _ _ Hv H75), (gt_sval _ _ _ _ Ha H34).
  destruct (Z.ltb_spec (scaled 6755399441055744 (-53)) va) as [Habove | Hbelow].
  - apply Z.ltb_lt.
    destruct (sval_inv r va Ha) as [[_ ->] | (m & e & Er & Bm & Eva & Pva)].
    { pose proof (sval_nonneg _ _ H34). lia. }
    assert (H1 : scaled (6755399441055744 + 1) (-53) <= va).
    { rewrite Eva in *. apply (above_succ 6755399441055744 m (-53) e B34);
        try assumption; vm_compute; reflexivity. }
    destruct (Z.eq_dec va (scaled 6755399441055745 (-53))) as [Heq | Hne].
    + assert (Er1 : r = just_above_three_quarters).
      { apply (sval_inj _ _ va Ha). rewrite Heq. reflexivity. }
      rewrite Er1 in Hv.
      assert (Hc : sval (mul just_above_three_quarters (lit 100)) =
                   Some (scaled 5277655813324801 (-46))) by by_computation.
      rewrite Hc in Hv. injection Hv as <-. apply Z.ltb_lt. by_computation.
    + assert (B35 : bounded prec emax 6755399441055745 (-53) = true) by reflexivity.
      assert (H2 : scaled (6755399441055745 + 1) (-53) <= va).
      { rewrite Eva in *. change (6755399441055744 + 1) with 6755399441055745 in H1.
        apply (above_succ 6755399441055745 m (-53) e B35);
          try assumption; try (vm_compute; reflexivity). lia. }
      assert (Blo : sval (S754_finite false 5277655813324801 (-46)) =
                    Some (scaled 5277655813324801 (-46))) by reflexivity.
      assert (Bhi : sval (lit 100) = Some (100 * 2 ^ bias)) by by_computation.
      destruct (mul_range r (lit 100) (S754_finite false 5277655813324801 (-46)) (lit 100)
                  va _ _ 7036874417766400 (-46) Ha E100 B100 ltac:(lia) Blo Bhi)
        as (v' & Hv' & Hlo & _).
      * rewrite V100. split.
        -- assert (Hk : scaled 5277655813324801 (-46) <=
                        100 * scaled (6755399441055745 + 1) (-53))
             by (apply Z.leb_le; by_computation).
           nia.
        -- assert (va <= 2 ^ bias).
           { eapply Z.le_trans; [exact Ha1 |]. apply Z.leb_le. by_computation. }
           nia.
      * rewrite Hv in Hv'. injection Hv' as <-.
        assert (75 * 2 ^ bias < scaled 5277655813324801 (-46))
          by (apply Z.ltb_lt; by_computation).
        lia.
  - apply Z.ltb_ge.
    assert (Bz : sval (S754_zero false) = Some 0) by reflexivity.
    destruct (mul_range r (lit 100) (S754_zero false) (lit 75)
                va _ _ 7036874417766400 (-46) Ha E100 B100 ltac:(lia) Bz H75)
      as (v' & Hv' & _ & Hhi).
    + rewrite V100. split; [nia |]. nia.
    + rewrite Hv in Hv'. injection Hv' as <-. exact Hhi.
Qed.

(** The readout of a percentage, against the value it shows. *)
Lemma percent_readout (r : number) :
  is_draw r = true ->
  exists v n,
    sval (mul r (lit 100)) = Some v /\ 0 <= v < 100 * 2 ^ bias /\
    toFixed (mul r (lit 100)) 2 = Fixed false n 2 /\ 0 <= n <= 10000 /\
    (75 * 2 ^ bias < v -> 7500 <= n) /\ (v <= 75 * 2 ^ bias -> n <= 7500).
Proof.
  intros Hr. destruct (times_100 r Hr) as (v & Hv & Hv0 & Hv1).
  pose proof bias_pos as Hb.
  destruct (toFixed_range _ v 2 0 10000 Hv) as (n & Hn & Hn0); [lia | lia | lia |].
  exists v, n. split; [exact Hv | split; [lia | split; [exact Hn | split; [exact Hn0 |]]]].
  split.
  - intros Habove.
    destruct (toFixed_range _ v 2 7500 10000 Hv) as (n' & Hn' & Hn1); [lia | lia | lia |].
    rewrite Hn in Hn'. injection Hn' as <-. lia.
  - intros Hbelow.
    destruct (toFixed_range _ v 2 0 7500 Hv) as (n' & Hn' & Hn1); [lia | lia | lia |].
    rewrite Hn in Hn'. injection Hn' as <-. lia.
Qed.

Lemma percent_between (r : number) :
  is_draw r = true -> numeral_between 0 10000 2 (toFixed (mul r (lit 100)) 2) = true.
Proof.
  intros Hr. destruct (percent_readout r Hr) as (v & n & _ & _ & -> & Hn & _).
  cbn [numeral_between]. rewrite Z.eqb_refl. cbn [andb].
  apply andb_true_iff. split; apply Z.leb_le; lia.
Qed.

Lemma rate_between (r : number) :
  is_draw r = true -> numeral_between 0 1000 0 (toFixed (mul r (lit 1000)) 0) = true.
Proof.
  intros Hr. destruct (times_1000 r Hr) as (v & Hv & Hv0 & Hv1).
  pose proof bias_pos as Hb.
  destruct (toFixed_range _ v 0 0 1000 Hv) as (n & -> & Hn); [lia | | lia |].
  - change (10 ^ 0) with 1. lia.
  - cbn [numeral_between]. rewrite Z.eqb_refl. cbn [andb].
    apply andb_true_iff. split; apply Z.leb_le; lia.
Qed.

Lemma confidence_between (r : number) :
  is_draw r = true ->
  numeral_between 7000 10000 2 (toFixed (add (mul r (lit 30)) (lit 70)) 2) = true.
Proof.
  intros Hr. destruct (times_30_plus_70 r Hr) as (v & Hv & Hv0 & Hv1).
  pose proof bias_pos as Hb.
  destruct (toFixed_range _ v 2 7000 10000 Hv) as (n & -> & Hn); [lia | lia | lia |].
  cbn [numeral_between]. rewrite Z.eqb_refl. cbn [andb].
  apply andb_true_iff. split; apply Z.leb_le; lia.
Qed.

Lemma provider_readouts (source : nat -> number) (clouds : list string) (d : nat) :
  (forall i, is_draw (source i) = true) ->
  forallb readout_in_range (flat_map provider_lines (statuses source d clouds)) = true.
Proof.
  intros Hd. revert d. induction clouds as [| c rest IH]; intros d; [reflexivity |].
  cbn [statuses flat_map]. rewrite forallb_app, IH, andb_true_r.
  unfold provider_lines, status_of. cbn [provider instanceCount loadPct healthy forallb
                                         readout_in_range].
  rewrite percent_between by apply Hd. reflexivity.
Qed.

Lemma usage_of_ai_lines (ts : Z) (o : object) (clouds : list string)
    (source : nat -> number) (d : nat) :
  filter is_usage (ai_lines ts o clouds source d) =
  usage_lines (tick_sample source d (List.length clouds)).
Proof.
  unfold ai_lines, forecast_lines, evaluation_lines. rewrite !filter_app.
  rewrite filter_flat_provider_lines by reflexivity.
  destruct (exceeds (maxUsage _) _); destruct (exceeds (cpu _) _); reflexivity.
Qed.

Lemma percent_in_range (r : number) :
  is_draw r = true ->
  ge (mul r (lit 100)) (lit 0) = true /\ gt (lit 100) (mul r (lit 100)) = true.
Proof.
  intros Hr. destruct (times_100 r Hr) as (v & Hv & Hv0 & Hv1).
  assert (H0 : sval (lit 0) = Some 0) by reflexivity.
  assert (H100 : sval (lit 100) = Some (100 * 2 ^ bias)) by by_computation.
  rewrite (ge_sval _ _ _ _ Hv H0), (gt_sval _ _ _ _ H100 Hv).
  split; [apply Z.leb_le | apply Z.ltb_lt]; assumption.
Qed.

End Readouts.

(* ================================================================== *)
(** ** Further behaviour of the monitor *)
(* ================================================================== *)

Module Behaviour.
Import JS Rounding Monitor Runs Scheduler Properties Traces Readouts.

(** *** Errors *)

(** X1. The process throws in one case only: no configuration is selected,
    which happens exactly when [AI_MODE] is not the string [true] and
    [NODE_ENV] is set, not empty, and names neither a profile nor a
    property every object inherits. It then throws the [TypeError] of
    reading [interval]; with any other environment, and whatever the
    numbers drawn, the start time and the length of the run, neither the
    script nor a health check nor a retraining throws. *)
Theorem throws_only_without_configuration (e : environment) (source : nat -> number)
    (t0 : Z) (fuel : nat) (horizon : Z) :
  (select_config e = Undefined <->
   AI_MODE_variable e <> Some "true"%string /\
   exists s, NODE_ENV e = Some s /\ s <> EmptyString /\ s <> "production"%string /\
             s <> "development"%string /\ ~ In s inherited) /\
  (select_config e = Undefined ->
   fst (run e source t0 fuel horizon) = Throw (reading "interval")) /\
  (select_config e <> Undefined ->
   fst (run e source t0 fuel horizon) = Normal tt).
Proof.
  split; [apply select_config_undefined | split].
  - apply run_fails.
  - intros Hc. destruct (select_config e) as [| o] eqn:Ho; [contradiction |].
    apply (run_completes e source t0 fuel horizon o Ho).
Qed.

(** X1 at [NODE_ENV=staging] with [AI_MODE=true], where the mode names no
    profile and the run completes all the same. *)
Lemma throws_only_without_configuration_witness :
  fst (run {| NODE_ENV := Some "staging"%string; AI_MODE_variable := Some "true"%string |}
           (always three_quarters) 0 3 60000) = Normal tt.
Proof.
  apply (throws_only_without_configuration
           {| NODE_ENV := Some "staging"%string; AI_MODE_variable := Some "true"%string |}
           (always three_quarters) 0 3 60000).
  discriminate.
Defined.

(** *** The output of a whole run *)

(** X2. With AI mode off, the whole output of a run up to a horizon is the
    banner followed by one basic health check for the start time and one
    for each period that fits before the horizon, each stamped with its
    time; nothing else is printed and no number is drawn. *)
Theorem basic_run_output (e : environment) (source : nat -> number)
    (t0 horizon : Z) (fuel : nat) (o : object) :
  select_config e = Obj o -> select_AI_MODE e = false -> t0 <= horizon ->
  (periods_within t0 (timer_period (interval o)) horizon <= fuel)%nat ->
  let w := snd (run e source t0 fuel horizon) in
  printed w =
    banner_lines (select_ENV e) false (interval o) ++
    flat_map (fun k => basic_lines (t0 + Z.of_nat k * timer_period (interval o))
                                   (debugMode o))
             (seq 0 (S (periods_within t0 (timer_period (interval o)) horizon))) /\
  drawn w = 0%nat.
Proof.
  intros Ho Hai Hh Hfuel w.
  exact (basic_run_printed e source t0 horizon fuel o Ho Hai Hh Hfuel).
Qed.

(** X2 for the development profile, from 0 to 10000 milliseconds. *)
Lemma basic_run_output_witness :
  printed (snd (run development_environment (always three_quarters) 0 2 10000)) =
    [Rule; Title; EnvironmentLine "development"; AIModeLine false; Rule;
     MonitoringEvery (Some 5000)] ++
    flat_map (fun k => [BasicHeader (Z.of_nat k * 5000); CpuNormal; MemoryNormal;
                        DiskAdequate; HotReload; DebugPort; StatusHealthy])
             [0; 1; 2]%nat.
Proof.
  apply (basic_run_output development_environment (always three_quarters) 0 10000 2
           development eq_refl eq_refl).
  - lia.
  - vm_compute. lia.
Defined.

(** X3. In AI mode, the health checks of a run up to a horizon are, in
    order, the banner and one AI health check for the start time and for
    each 30000 milliseconds before the horizon; the check number [k] is
    stamped [t0 + 30000 k] and is made of the 16 numbers drawn from
    position [16 k], so no number serves two checks. The other lines are
    those of the retrainings, one retraining for each 120000 milliseconds,
    and a retraining draws nothing. *)
Theorem ai_run_output (e : environment) (source : nat -> number)
    (t0 horizon : Z) (fuel : nat) :
  select_AI_MODE e = true -> t0 <= horizon ->
  (periods_within t0 30000 horizon + periods_within t0 120000 horizon <= fuel)%nat ->
  let w := snd (run e source t0 fuel horizon) in
  filter is_check_line (printed w) =
    banner_lines (select_ENV e) true (Some 30000) ++
    flat_map (fun k => ai_lines (t0 + Z.of_nat k * 30000) aiConfig
                                ["aws"; "azure"; "gcp"]%string source (k * 16))
             (seq 0 (S (periods_within t0 30000 horizon))) /\
  filter is_retrain_line (printed w) =
    List.concat (repeat retrain_lines (periods_within t0 120000 horizon)) /\
  drawn w = (S (periods_within t0 30000 horizon) * 16)%nat.
Proof.
  intros Hai Hh Hfuel w.
  assert (Ho : select_config e = Obj aiConfig)
    by (unfold select_config; rewrite Hai; reflexivity).
  destruct (run_tracing e source t0 horizon fuel aiConfig ["aws"; "azure"; "gcp"]%string Ho)
    as (w' & Hrun & Ht & _).
  - reflexivity.
  - exact Hh.
  - exact Hfuel.
  - assert (Hw : w = w') by (unfold w; rewrite Hrun; reflexivity).
    rewrite Hw. clear Hw w Hrun. rewrite Hai in Ht.
    split; [| split].
    + exact (tr_checks _ _ _ _ _ _ _ _ _ Ht).
    + exact (tr_retrains _ _ _ _ _ _ _ _ _ Ht).
    + exact (tr_drawn _ _ _ _ _ _ _ _ _ Ht).
Qed.

(** X3 for the AI profile, from 0 to 240000 milliseconds: nine health
    checks of 16 numbers each. *)
Lemma ai_run_output_witness :
  drawn (snd (run ai_environment (always three_quarters) 0 10 240000)) = 144%nat.
Proof.
  apply (ai_run_output ai_environment (always three_quarters) 0 240000 10 eq_refl).
  - lia.
  - vm_compute. lia.
Defined.

(** X4. The lines of a run are printed in the order of time: the times
    they are stamped with never decrease, and all are between the start
    time and the horizon; this holds in every environment and however
    long the run. *)
Theorem output_is_chronological (e : environment) (source : nat -> number)
    (t0 horizon : Z) (fuel : nat) :
  t0 <= horizon ->
  let w := snd (run e source t0 fuel horizon) in
  nondecreasing t0 (map fst (stdout w)) = true /\
  Forall (fun t => t0 <= t <= horizon) (map fst (stdout w)) /\
  t0 <= now w <= horizon.
Proof.
  intros Hh w. destruct (select_config e) as [| o] eqn:Ho.
  - unfold w, run, bind. rewrite run_main_undefined by exact Ho. cbn [snd].
    cbn [stdout emit set_stdout set_drawn startup app map fst now nondecreasing].
    rewrite Z.leb_refl. cbn [andb]. split; [reflexivity | split; [| lia]].
    repeat constructor; lia.
  - assert (Hl : select_AI_MODE e = true ->
                 cloudProviders o = Some ["aws"; "azure"; "gcp"]%string).
    { intros Hai. apply (selected_clouds e o Ho Hai). }
    destruct (run_tracing_any e source t0 horizon fuel o _ Ho Hl Hh)
      as (a & b & w' & Hrun & _ & Ht & Hn & _).
    assert (Hw : w = w') by (unfold w; rewrite Hrun; reflexivity).
    rewrite Hw. clear Hw w Hrun.
    pose proof (tr_order _ _ _ _ _ _ _ _ _ Ht) as Hord.
    pose proof (tr_past _ _ _ _ _ _ _ _ _ Ht) as Hpast.
    pose proof (tr_now _ _ _ _ _ _ _ _ _ Ht) as Hnow.
    split; [exact Hord | split; [| lia]].
    apply Forall_forall. intros t Hin.
    pose proof (nondecreasing_from _ _ Hord) as Hfrom.
    rewrite Forall_forall in Hfrom, Hpast.
    specialize (Hfrom t Hin). specialize (Hpast t Hin). cbn in *. lia.
Qed.

(** X4 for the AI profile, from 0 to 240000 milliseconds, where health
    checks and retrainings alternate. *)
Lemma output_is_chronological_witness :
  nondecreasing 0
    (map fst (stdout (snd (run ai_environment (always three_quarters) 0 10 240000)))) =
  true.
Proof.
  apply (output_is_chronological ai_environment (always three_quarters) 0 240000 10).
  lia.
Defined.

(** X5. With AI mode off and a [NODE_ENV] that names a property every
    object inherits ([toString], [constructor], ...), the script does not
    throw: the selected object has no [interval] and no [debugMode], the
    banner shows an undefined interval, and a basic health check without
    debug lines is made every millisecond. *)
Theorem inherited_mode_ticks_every_millisecond (mode : string) (ai : option string)
    (source : nat -> number) (t0 horizon : Z) (fuel : nat) :
  In mode inherited -> ai <> Some "true"%string -> t0 <= horizon ->
  (Z.to_nat (horizon - t0) <= fuel)%nat ->
  let e := {| NODE_ENV := Some mode; AI_MODE_variable := ai |} in
  fst (run e source t0 fuel horizon) = Normal tt /\
  printed (snd (run e source t0 fuel horizon)) =
    [Rule; Title; EnvironmentLine mode; AIModeLine false; Rule; MonitoringEvery None] ++
    flat_map (fun k => [BasicHeader (t0 + Z.of_nat k); CpuNormal; MemoryNormal;
                        DiskAdequate; StatusHealthy])
             (seq 0 (S (Z.to_nat (horizon - t0)))).
Proof.
  intros Hin Hai Hh Hfuel e.
  assert (Hoff : select_AI_MODE e = false) by (apply select_AI_MODE_off; exact Hai).
  assert (Hmode : select_ENV e = mode /\ baseConfig mode = Obj no_properties).
  { unfold e, select_ENV. cbn [NODE_ENV inherited In] in *.
    repeat (destruct Hin as [<- | Hin]; [split; reflexivity |]). destruct Hin. }
  destruct Hmode as [Hmode Hbase].
  assert (Ho : select_config e = Obj no_properties).
  { unfold select_config. rewrite Hoff, Hmode. exact Hbase. }
  assert (HT : timer_period (interval no_properties) = 1) by reflexivity.
  assert (Hn : periods_within t0 1 horizon = Z.to_nat (horizon - t0)).
  { unfold periods_within. rewrite Z.div_1_r. reflexivity. }
  split.
  - apply (run_completes e source t0 fuel horizon no_properties Ho).
  - destruct (basic_run_printed e source t0 horizon fuel no_properties Ho Hoff Hh)
      as [Hp _].
    + rewrite HT, Hn. exact Hfuel.
    + rewrite Hp, HT, Hn, Hmode. unfold banner_lines. cbn [interval no_properties].
      f_equal. apply flat_map_ext. intros k. rewrite Z.mul_1_r. reflexivity.
Qed.

(** X5 at [NODE_ENV=toString], from 0 to 3 milliseconds: four health
    checks. *)
Lemma inherited_mode_ticks_every_millisecond_witness :
  fst (run {| NODE_ENV := Some "toString"%string; AI_MODE_variable := None |}
           (always three_quarters) 0 3 3) = Normal tt /\
  printed (snd (run {| NODE_ENV := Some "toString"%string; AI_MODE_variable := None |}
                    (always three_quarters) 0 3 3)) =
    [Rule; Title; EnvironmentLine "toString"; AIModeLine false; Rule;
     MonitoringEvery None] ++
    flat_map (fun k => [BasicHeader (0 + Z.of_nat k); CpuNormal; MemoryNormal;
                        DiskAdequate; StatusHealthy])
             [0; 1; 2; 3]%nat.
Proof.
  apply (inherited_mode_ticks_every_millisecond "toString" None
           (always three_quarters) 0 3 3).
  - cbn [inherited In]. do 8 right. left. reflexivity.
  - discriminate.
  - lia.
  - vm_compute. lia.
Defined.

(** X6. Every health check of a run, in either mode, prints exactly one
    status line (HEALTHY, OPTIMAL or ALERT): after a run to the horizon
    there are as many status lines as health checks. Every alert is
    paired with one auto-scaling line, there is one forecast per health
    check in AI mode and none otherwise, and at most one predictive alert
    per forecast. *)
Theorem one_status_per_check (e : environment) (source : nat -> number)
    (t0 horizon : Z) (fuel : nat) (o : object) :
  select_config e = Obj o -> t0 <= horizon ->
  (periods_within t0 (timer_period (interval o)) horizon +
   (if truthy (aiEnabled o) then periods_within t0 120000 horizon else 0)
   <= fuel)%nat ->
  let w := snd (run e source t0 fuel horizon) in
  let n := S (periods_within t0 (timer_period (interval o)) horizon) in
  count is_tick w = n /\
  count is_status w = n /\
  count is_alert w = count is_autoscaling w /\
  count is_forecast w = (if select_AI_MODE e then n else 0%nat) /\
  (count is_predictive w <= count is_forecast w)%nat.
Proof.
  intros Ho Hh Hfuel w n.
  assert (Hl : select_AI_MODE e = true ->
               cloudProviders o = Some ["aws"; "azure"; "gcp"]%string).
  { intros Hai. apply (selected_clouds e o Ho Hai). }
  destruct (run_tracing e source t0 horizon fuel o _ Ho Hl Hh Hfuel)
    as (w' & Hrun & Ht & _).
  assert (Hw : w = w') by (unfold w; rewrite Hrun; reflexivity).
  rewrite Hw. clear Hw w Hrun.
  pose proof (tr_checks _ _ _ _ _ _ _ _ _ Ht) as Hc.
  fold n in Hc.
  set (clouds := ["aws"; "azure"; "gcp"]%string) in *.
  set (ai := select_AI_MODE e) in *.
  set (f := nth_check o ai clouds source t0) in *.
  assert (Hkind : forall k,
             List.length (filter is_status (f k)) = 1%nat /\
             List.length (filter is_alert (f k)) =
               List.length (filter is_autoscaling (f k)) /\
             List.length (filter is_forecast (f k)) = (if ai then 1 else 0)%nat /\
             (List.length (filter is_predictive (f k)) <= if ai then 1 else 0)%nat).
  { intros k. apply check_lines_by_kind. }
  assert (Hticks : forall k, List.length (filter is_tick (f k)) = 1%nat).
  { intros k. unfold f, nth_check, check_lines. destruct ai.
    - destruct (ticks_of_ai_lines (t0 + Z.of_nat k * timer_period (interval o)) o clouds
                  source (k * draws_of_check true clouds)) as [-> _]. reflexivity.
    - destruct (ticks_of_basic_lines (t0 + Z.of_nat k * timer_period (interval o))
                  (debugMode o)) as [-> _]. reflexivity. }
  assert (Hcount : forall p,
             (forall x, p x = true -> is_check_line x = true) ->
             filter p (banner_lines (select_ENV e) ai (interval o)) = [] ->
             count p w' = List.length (filter p (flat_map f (seq 0 n)))).
  { intros p Hp Hb. rewrite (count_of_checks p _ w' Hp Hc).
    rewrite filter_app, Hb. reflexivity. }
  assert (Hn : List.length (seq 0 n) = n) by apply length_seq.
  assert (Hforecast : count is_forecast w' = (if ai then n else 0%nat)).
  { rewrite Hcount; [| intros []; cbn; congruence | reflexivity].
    rewrite (length_filter_flat_map _ f (fun _ => if ai then 1 else 0)%nat)
      by (intros k; apply Hkind).
    rewrite list_sum_constant, Hn. destruct ai; lia. }
  split; [| split; [| split; [| split]]].
  - rewrite Hcount; [| intros []; cbn; congruence | reflexivity].
    rewrite (length_filter_flat_map _ f (fun _ => 1%nat)) by exact Hticks.
    rewrite list_sum_constant, Hn. lia.
  - rewrite Hcount; [| intros []; cbn; congruence | reflexivity].
    rewrite (length_filter_flat_map _ f (fun _ => 1%nat)) by (intros k; apply Hkind).
    rewrite list_sum_constant, Hn. lia.
  - rewrite !Hcount; try reflexivity; try (intros []; cbn; congruence).
    rewrite (length_filter_flat_map is_alert f
               (fun k => List.length (filter is_autoscaling (f k))))
      by (intros k; apply Hkind).
    rewrite (length_filter_flat_map is_autoscaling f
               (fun k => List.length (filter is_autoscaling (f k))))
      by reflexivity.
    reflexivity.
  - exact Hforecast.
  - rewrite Hforecast.
    rewrite Hcount; [| intros []; cbn; congruence | reflexivity].
    rewrite (length_filter_flat_map is_predictive f
               (fun k => List.length (filter is_predictive (f k))))
      by reflexivity.
    pose proof (list_sum_at_most (fun k => List.length (filter is_predictive (f k)))
                  (if ai then 1 else 0)%nat (seq 0 n)
                  (fun k => proj2 (proj2 (proj2 (Hkind k))))) as Hle.
    rewrite Hn in Hle. destruct ai; lia.
Qed.

(** X6 for the AI profile, from 0 to 240000 milliseconds, every draw being
    the largest one: nine health checks, nine alerts. *)
Lemma one_status_per_check_witness :
  count is_status (snd (run ai_environment (always largest_draw) 0 10 240000)) = 9%nat /\
  count is_alert (snd (run ai_environment (always largest_draw) 0 10 240000)) = 9%nat.
Proof.
  pose proof (one_status_per_check ai_environment (always largest_draw) 0 240000 10
                aiConfig eq_refl ltac:(lia) ltac:(vm_compute; lia)) as (_ & H & _).
  split; [exact H | reflexivity].
Defined.

(** X7. No timer of a run is ever cancelled or left behind: after a run to
    the horizon the timers are the health check with its period, and the
    retraining every 120000 milliseconds exactly in AI mode, and each is
    due after the horizon and within one of its periods of it. *)
Theorem timers_stay_armed (e : environment) (source : nat -> number)
    (t0 horizon : Z) (fuel : nat) (o : object) :
  select_config e = Obj o -> t0 <= horizon ->
  (periods_within t0 (timer_period (interval o)) horizon +
   (if truthy (aiEnabled o) then periods_within t0 120000 horizon else 0)
   <= fuel)%nat ->
  let w := snd (run e source t0 fuel horizon) in
  map registration (timers w) =
    (HealthCheck, timer_period (interval o)) ::
    (if select_AI_MODE e then [(Retrain, 120000)] else []) /\
  Forall (fun t => horizon < due t <= horizon + period t) (timers w).
Proof.
  intros Ho Hh Hfuel w.
  destruct (run_ticking e source t0 horizon fuel o Ho Hh Hfuel) as (w' & Hrun & Hw').
  assert (Hw : w = w') by (unfold w; rewrite Hrun; reflexivity).
  rewrite Hw. clear Hw w Hrun.
  rewrite (tk_timers _ _ _ _ _ _ Hw'), (retraining_iff_aiEnabled e o Ho).
  pose proof (timer_period_pos (interval o)) as HT.
  assert (Hai : truthy (aiEnabled o) = select_AI_MODE e).
  { destruct (select_config_cases e o Ho) as [[-> ->] | [-> [-> | [-> | ->]]]];
      reflexivity. }
  assert (Hnext : forall p, 0 < p ->
             horizon < t0 + Z.of_nat (S (periods_within t0 p horizon)) * p <= horizon + p).
  { intros p Hp. unfold periods_within.
    assert (H0 : 0 <= (horizon - t0) / p) by (apply Z.div_pos; lia).
    rewrite Nat2Z.inj_succ, Z2Nat.id by exact H0.
    pose proof (Z.mul_div_le (horizon - t0) p Hp).
    pose proof (Z.mul_succ_div_gt (horizon - t0) p Hp). lia. }
  unfold schedule. rewrite <- Hai. split.
  - destruct (truthy (aiEnabled o)); reflexivity.
  - destruct (truthy (aiEnabled o)); repeat constructor; cbn [due period];
      apply Hnext; lia.
Qed.

(** X7 for the AI profile, from 0 to 100000 milliseconds: the health check
    is next due at 120000, and so is the first retraining. *)
Lemma timers_stay_armed_witness :
  map registration
    (timers (snd (run ai_environment (always three_quarters) 0 5 100000))) =
  [(HealthCheck, 30000); (Retrain, 120000)] /\
  map due (timers (snd (run ai_environment (always three_quarters) 0 5 100000))) =
  [120000; 120000].
Proof.
  pose proof (timers_stay_armed ai_environment (always three_quarters) 0 100000 5
                aiConfig eq_refl ltac:(lia) ltac:(vm_compute; lia)) as [H _].
  split; [exact H | reflexivity].
Defined.

(** *** The numbers of a tick *)

(** X8. The three percentages of the sample of a tick, their maximum, and
    the CPU and the memory of its forecast are at least 0 and strictly
    less than 100, and the traffic of the forecast is at least 0 and
    strictly less than 1000, whatever the numbers drawn: a product of a
    draw is never rounded up to its bound. These are the values the usage
    lines and the forecast lines of the tick show. *)
Theorem sample_and_forecast_in_range (w : world) (o : object) (clouds : list string) :
  config w = Obj o -> cloudProviders o = Some clouds ->
  (forall i, is_draw (entropy w i) = true) ->
  let s := tick_sample (entropy w) (drawn w) (List.length clouds) in
  let p := tick_prediction (entropy w) (drawn w) (List.length clouds) in
  filter is_usage (output_of monitorAIHealth w) = usage_lines s /\
  filter is_forecast_readout (output_of monitorAIHealth w) = forecast_readout p /\
  Forall (fun x => ge x (lit 0) = true /\ gt (lit 100) x = true)
         [cpuPct s; memoryPct s; diskPct s; maxUsage s; cpu p; memory p] /\
  ge (traffic p) (lit 0) = true /\ gt (lit 1000) (traffic p) = true.
Proof.
  intros Hc Hl Hd s p.
  rewrite (output_monitorAIHealth w o clouds Hc Hl), usage_of_ai_lines.
  destruct (readout_of_ai_lines (now w) o clouds (entropy w) (drawn w)) as [-> _].
  split; [reflexivity | split; [reflexivity |]].
  assert (Hmax : ge (maxUsage s) (lit 0) = true /\ gt (lit 100) (maxUsage s) = true).
  { destruct (tick_sample_sval (entropy w) (drawn w) (List.length clouds) Hd)
      as (vc & vm & vd & H1 & H2 & H3 & H4).
    fold s in H1, H2, H3, H4.
    destruct (times_100 _ (Hd (drawn w + 3 * List.length clouds)%nat)) as (v1 & E1 & B1).
    destruct (times_100 _ (Hd (drawn w + 3 * List.length clouds + 1)%nat)) as (v2 & E2 & B2).
    destruct (times_100 _ (Hd (drawn w + 3 * List.length clouds + 2)%nat)) as (v3 & E3 & B3).
    unfold s, tick_sample, sample_of in H1, H2, H3.
    cbn [cpuPct memoryPct diskPct] in H1, H2, H3.
    rewrite E1 in H1. rewrite E2 in H2. rewrite E3 in H3.
    injection H1 as <-. injection H2 as <-. injection H3 as <-.
    assert (H0 : sval (lit 0) = Some 0) by reflexivity.
    assert (H100 : sval (lit 100) = Some (100 * 2 ^ bias)) by by_computation.
    rewrite (ge_sval _ _ _ _ H4 H0), (gt_sval _ _ _ _ H100 H4).
    split; [apply Z.leb_le | apply Z.ltb_lt]; lia. }
  split; [| split].
  - unfold s, p, tick_sample, sample_of, tick_prediction, prediction_of.
    cbn [cpuPct memoryPct diskPct cpu memory].
    repeat (constructor; [first [apply percent_in_range; apply Hd | exact Hmax] |]).
    constructor.
  - destruct (times_1000 _ (Hd (drawn w + 3 * List.length clouds + 5)%nat))
      as (u & Hu & Hu0 & _).
    assert (H0 : sval (lit 0) = Some 0) by reflexivity.
    unfold p, tick_prediction, prediction_of. cbn [traffic].
    rewrite (ge_sval _ _ _ _ Hu H0). apply Z.leb_le. exact Hu0.
  - destruct (times_1000 _ (Hd (drawn w + 3 * List.length clouds + 5)%nat))
      as (u & Hu & _ & Hu1).
    assert (H1000 : sval (lit 1000) = Some (1000 * 2 ^ bias)) by by_computation.
    unfold p, tick_prediction, prediction_of. cbn [traffic].
    rewrite (gt_sval _ _ _ _ H1000 Hu). apply Z.ltb_lt. exact Hu1.
Qed.

(** X8 on the first tick of the AI profile when every draw is the largest
    one: the traffic stays below 1000. *)
Lemma sample_and_forecast_in_range_witness :
  gt (lit 1000) (traffic (tick_prediction (always largest_draw) 0 3)) = true.
Proof.
  apply (sample_and_forecast_in_range
           (startup ai_environment (always largest_draw) 0) aiConfig
           ["aws"; "azure"; "gcp"]%string eq_refl eq_refl (fun _ => eq_refl)).
Defined.

(** X9. Every readout a tick prints is a plain decimal numeral, never an
    exponent form, an infinity or a NaN, and never negative: each load,
    usage and forecast percentage has two decimals and is from 0.00 to
    100.00, each confidence has two decimals and is from 70.00 to 100.00,
    and the traffic has no decimals and is from 0 to 1000. *)
Theorem readouts_in_range (w : world) (o : object) (clouds : list string) :
  config w = Obj o -> cloudProviders o = Some clouds ->
  (forall i, is_draw (entropy w i) = true) ->
  forallb readout_in_range (output_of monitorAIHealth w) = true.
Proof.
  intros Hc Hl Hd. rewrite (output_monitorAIHealth w o clouds Hc Hl).
  unfold ai_lines, ai_header_lines, usage_lines, evaluation_lines, forecast_lines.
  rewrite !forallb_app, provider_readouts by exact Hd.
  unfold tick_sample, sample_of, tick_prediction, prediction_of.
  cbn [cpuPct memoryPct diskPct cpu memory traffic confidence forallb readout_in_range].
  rewrite !percent_between, rate_between, confidence_between by apply Hd.
  destruct (exceeds _ _); destruct (exceeds _ _); reflexivity.
Qed.

(** X9 on the first tick of the AI profile when every draw is the largest
    one, where the readouts are 100.00 and 1000. *)
Lemma readouts_in_range_witness :
  forallb readout_in_range
    (output_of monitorAIHealth (startup ai_environment (always largest_draw) 0)) = true.
Proof.
  apply (readouts_in_range (startup ai_environment (always largest_draw) 0) aiConfig
           ["aws"; "azure"; "gcp"]%string eq_refl eq_refl (fun _ => eq_refl)).
Defined.

(** X10. With the threshold of 75 of the AI profile, the verdict of a tick
    agrees with the three usage percentages it shows, up to their
    rounding to two decimals: when the alert is printed one of them reads
    75.00 or more, and when the status is optimal each reads 75.00 or
    less. A reading of exactly 75.00 can come with either verdict. *)
Theorem verdict_agrees_with_readouts (w : world) (o : object) (clouds : list string) :
  config w = Obj o -> cloudProviders o = Some clouds -> alertThreshold o = Some 75 ->
  (forall i, is_draw (entropy w i) = true) ->
  let out := output_of monitorAIHealth w in
  exists c m d,
    filter is_usage out =
      [ResourceUsage; CpuLine (Fixed false c 2); MemoryLine (Fixed false m 2);
       DiskLine (Fixed false d 2)] /\
    (In Alert out -> 7500 <= c \/ 7500 <= m \/ 7500 <= d) /\
    (In StatusOptimal out -> c <= 7500 /\ m <= 7500 /\ d <= 7500).
Proof.
  intros Hc Hl Ht Hd out.
  destruct (percent_readout _ (Hd (drawn w + 3 * List.length clouds)%nat))
    as (v1 & c & E1 & _ & R1 & _ & A1 & O1).
  destruct (percent_readout _ (Hd (drawn w + 3 * List.length clouds + 1)%nat))
    as (v2 & m & E2 & _ & R2 & _ & A2 & O2).
  destruct (percent_readout _ (Hd (drawn w + 3 * List.length clouds + 2)%nat))
    as (v3 & d & E3 & _ & R3 & _ & A3 & O3).
  exists c, m, d.
  set (s := tick_sample (entropy w) (drawn w) (List.length clouds)).
  assert (Hout : out = ai_lines (now w) o clouds (entropy w) (drawn w))
    by (apply output_monitorAIHealth; assumption).
  assert (Hmax : sval (maxUsage s) = Some (Z.max (Z.max v1 v2) v3))
    by (apply Math_max_sval; assumption).
  assert (H75 : sval (lit 75) = Some (75 * 2 ^ bias)) by by_computation.
  assert (Hev : filter is_evaluation out =
                if 75 * 2 ^ bias <? Z.max (Z.max v1 v2) v3
                then [Alert; AutoScaling] else [StatusOptimal]).
  { rewrite Hout, evaluation_of_ai_lines. unfold evaluation_lines. rewrite Ht.
    fold s. cbn [exceeds]. rewrite (gt_sval _ _ _ _ Hmax H75). reflexivity. }
  split; [| split].
  - rewrite Hout, usage_of_ai_lines. unfold usage_lines, tick_sample, sample_of.
    cbn [cpuPct memoryPct diskPct]. rewrite R1, R2, R3. reflexivity.
  - intros Hin.
    assert (Hf : In Alert (filter is_evaluation out))
      by (apply filter_In; split; [exact Hin | reflexivity]).
    rewrite Hev in Hf.
    destruct (Z.ltb_spec (75 * 2 ^ bias) (Z.max (Z.max v1 v2) v3)) as [Hgt | Hle].
    + destruct (Z.max_spec (Z.max v1 v2) v3) as [[_ Em] | [_ Em]];
        [right; right; apply A3; lia |].
      destruct (Z.max_spec v1 v2) as [[_ Em2] | [_ Em2]];
        [right; left; apply A2; lia | left; apply A1; lia].
    + destruct Hf as [Hf | []]. discriminate Hf.
  - intros Hin.
    assert (Hf : In StatusOptimal (filter is_evaluation out))
      by (apply filter_In; split; [exact Hin | reflexivity]).
    rewrite Hev in Hf.
    destruct (Z.ltb_spec (75 * 2 ^ bias) (Z.max (Z.max v1 v2) v3)) as [Hgt | Hle].
    + destruct Hf as [Hf | [Hf | []]]; discriminate Hf.
    + split; [apply O1; lia | split; [apply O2; lia | apply O3; lia]].
Qed.

(** X10 on the first tick of the AI profile when every draw is the one
    just above three quarters: the alert is printed and every percentage
    reads 75.00. *)
Lemma verdict_agrees_with_readouts_witness :
  (exists c m d,
     filter is_usage
       (output_of monitorAIHealth
          (startup ai_environment (always just_above_three_quarters) 0)) =
       [ResourceUsage; CpuLine (Fixed false c 2); MemoryLine (Fixed false m 2);
        DiskLine (Fixed false d 2)] /\
     (In Alert
        (output_of monitorAIHealth
           (startup ai_environment (always just_above_three_quarters) 0)) ->
      7500 <= c \/ 7500 <= m \/ 7500 <= d) /\
     (In StatusOptimal
        (output_of monitorAIHealth
           (startup ai_environment (always just_above_three_quarters) 0)) ->
      c <= 7500 /\ m <= 7500 /\ d <= 7500)) /\
  filter (fun l => is_usage l || is_evaluation l)
    (output_of monitorAIHealth
       (startup ai_environment (always just_above_three_quarters) 0)) =
    [ResourceUsage; CpuLine (Fixed false 7500 2); MemoryLine (Fixed false 7500 2);
     DiskLine (Fixed false 7500 2); Alert; AutoScaling].
Proof.
  split.
  - apply (verdict_agrees_with_readouts
             (startup ai_environment (always just_above_three_quarters) 0) aiConfig
             ["aws"; "azure"; "gcp"]%string eq_refl eq_refl eq_refl (fun _ => eq_refl)).
  - vm_compute. reflexivity.
Defined.

(** X11. With the threshold of 75 of the AI profile, the verdicts of a
    tick are decided by the numbers drawn: the alert and the auto-scaling
    line are printed exactly when one of the three numbers of the sample
    is above three quarters, the optimal status otherwise, and the
    predictive alert exactly when the first number of the forecast is
    above three quarters. *)
Theorem alerts_in_terms_of_draws (w : world) (o : object) (clouds : list string) :
  config w = Obj o -> cloudProviders o = Some clouds -> alertThreshold o = Some 75 ->
  (forall i, is_draw (entropy w i) = true) ->
  let out := output_of monitorAIHealth w in
  let high k := above_three_quarters (entropy w) (drawn w + 3 * List.length clouds + k) in
  filter is_evaluation out =
    (if high 0%nat || high 1%nat || high 2%nat
     then [Alert; AutoScaling] else [StatusOptimal]) /\
  filter is_predictive out = (if high 3%nat then [PredictiveAlert] else []).
Proof.
  intros Hc Hl Ht Hd out high.
  assert (Hout : out = ai_lines (now w) o clouds (entropy w) (drawn w))
    by (apply output_monitorAIHealth; assumption).
  assert (H75 : sval (lit 75) = Some (75 * 2 ^ bias)) by by_computation.
  split.
  - rewrite Hout, evaluation_of_ai_lines. unfold evaluation_lines. rewrite Ht.
    cbn [exceeds].
    set (s := tick_sample (entropy w) (drawn w) (List.length clouds)).
    destruct (times_100 _ (Hd (drawn w + 3 * List.length clouds)%nat)) as (v1 & E1 & _).
    destruct (times_100 _ (Hd (drawn w + 3 * List.length clouds + 1)%nat)) as (v2 & E2 & _).
    destruct (times_100 _ (Hd (drawn w + 3 * List.length clouds + 2)%nat)) as (v3 & E3 & _).
    assert (Hmax : sval (maxUsage s) = Some (Z.max (Z.max v1 v2) v3))
      by (apply Math_max_sval; assumption).
    assert (Hg : gt (maxUsage s) (lit 75) = high 0%nat || high 1%nat || high 2%nat).
    { unfold high, above_three_quarters. rewrite Nat.add_0_r.
      rewrite <- !percent_above_75 by apply Hd.
      rewrite (gt_sval _ _ _ _ Hmax H75), (gt_sval _ _ _ _ E1 H75),
        (gt_sval _ _ _ _ E2 H75), (gt_sval _ _ _ _ E3 H75).
      destruct (Z.ltb_spec (75 * 2 ^ bias) v1); destruct (Z.ltb_spec (75 * 2 ^ bias) v2);
        destruct (Z.ltb_spec (75 * 2 ^ bias) v3); cbn [orb];
        first [apply Z.ltb_lt | apply Z.ltb_ge]; lia. }
    rewrite Hg. reflexivity.
  - rewrite Hout, predictive_of_ai_lines, Ht. cbn [exceeds].
    unfold tick_prediction, prediction_of. cbn [cpu].
    rewrite percent_above_75 by apply Hd. reflexivity.
Qed.

(** X11 on the first tick of the AI profile when every draw is the largest
    one: both alerts are printed. *)
Lemma alerts_in_terms_of_draws_witness :
  filter is_evaluation
    (output_of monitorAIHealth (startup ai_environment (always largest_draw) 0)) =
    [Alert; AutoScaling] /\
  filter is_predictive
    (output_of monitorAIHealth (startup ai_environment (always largest_draw) 0)) =
    [PredictiveAlert].
Proof.
  apply (alerts_in_terms_of_draws
           (startup ai_environment (always largest_draw) 0) aiConfig
           ["aws"; "azure"; "gcp"]%string eq_refl eq_refl eq_refl (fun _ => eq_refl)).
Defined.

End Behaviour.
